(** * MTFM-Model/train.py: a shallow embedding and its verified properties

    The script trains a three-tower recurrent classifier.  This development
    embeds the parts of [train.py] that carry algorithmic content
    (normalisation in [SigDataset.__init__], the first lines of
    [Model.forward], [Model.create_positional_encoding], the per-epoch
    metric computation, the checkpoint selection and the final test loop)
    and proves properties of them.

    Numbers.  numpy arrays and the metric scalars are IEEE binary64 values,
    modelled by [spec_float] of the standard library with precision 53 and
    exponent bound 1024; NaN is [S754_nan].  Tensor code is written with
    the same operations: what is proved of it (propagation of NaN through
    an addition, comparison with 0.5) holds in every binary format.  The
    transcendental functions of the positional encoding have no
    [spec_float] counterpart, so that function is written over an
    arithmetic interface; its real-number instance gives the reading of
    the table as a formula.  The order in which numpy adds the entries of
    an array is a parameter ([Numpy]), and so is the machine
    ([use_cuda]).

    Errors.  A Python exception is a value [Raise e] of the type [result];
    loops thread their variables through [for_each]. *)

From Stdlib Require Import ZArith List Bool Lia String Reals Lra.
From Stdlib Require Import Floats.SpecFloat.
From stdpp Require Import gmap strings.
Import ListNotations.

Local Open Scope nat_scope.

(* ===================================================================== *)
(** * Part I: the model of the program                                    *)
(* ===================================================================== *)

(** ** Python exceptions and the error monad *)

Inductive exn : Set :=
| AttributeError | IndexError | ValueError | TypeError
| ZeroDivisionError | RuntimeError | NameError | FileNotFoundError
| SystemExit.

Inductive result (A : Type) : Type :=
| Ok (a : A)
| Raise (e : exn).
Arguments Ok {A} a.
Arguments Raise {A} e.

Definition rbind {A B} (m : result A) (k : A -> result B) : result B :=
  match m with
  | Ok a => k a
  | Raise e => Raise e
  end.

Notation "'let*' x ':=' m 'in' k" := (rbind m (fun x => k))
  (at level 10, x pattern, m at level 100, k at level 200).

(** [for x in xs: body] threading a state through a fallible body. *)
Fixpoint for_each {A S} (xs : list A) (body : A -> S -> result S) (s : S)
  : result S :=
  match xs with
  | [] => Ok s
  | x :: xs' => let* s' := body x s in for_each xs' body s'
  end.

(** ** IEEE binary64 *)

Module F64.
Definition prec : Z := 53.
Definition emax : Z := 1024.

Definition add := SFadd prec emax.
Definition sub := SFsub prec emax.
Definition mul := SFmul prec emax.
Definition div := SFdiv prec emax.
Definition sqrt := SFsqrt prec emax.

(** int64 -> float64 conversion (round to nearest even). *)
Definition of_int (z : Z) : spec_float := binary_normalize prec emax z 0 false.

Definition zero : spec_float := S754_zero false.
Definition half : spec_float := S754_finite false 4503599627370496 (-53).
Definition one  : spec_float := S754_finite false 4503599627370496 (-52).
Definition two  : spec_float := S754_finite false 4503599627370496 (-51).
(** The literal [1e-5]: 0x1.4f8b588e368f1p-17. *)
Definition eps  : spec_float := S754_finite false 5902958103587057 (-69).

Definition is_nan (x : spec_float) : bool :=
  match x with S754_nan => true | _ => false end.

Definition is_finite (x : spec_float) : bool :=
  match x with S754_finite _ _ _ | S754_zero _ => true | _ => false end.

(** [x >= y], [x <= y] and [x == y]; every comparison with NaN is False. *)
Definition geb (x y : spec_float) : bool :=
  match SFcompare x y with
  | Some (Gt | Eq) => true
  | _ => false
  end.
Definition leb (x y : spec_float) : bool := SFleb x y.
Definition eqb (x y : spec_float) : bool := SFeqb x y.
End F64.

Abbreviation float := spec_float.

(** ** Binarisation and the confusion matrix (lines 230-245, 265-278, 310-326) *)

(** [(x >= 0.5) + 0]: a boolean tensor plus the integer 0. *)
Definition binarize (x : float) : Z :=
  (Z.b2z (F64.geb x F64.half) + 0)%Z.

(** A row of [results]: [np.c_[out_lab, label]] appended to a float64
    array, so the two integers are stored as floats. *)
Definition row : Type := float * float.

(** [np.c_[out_lab, label]]: two columns of equal length, side by side. *)
Definition np_c (out_lab label : list Z) : result (list row) :=
  if length out_lab =? length label then
    Ok (combine (map F64.of_int out_lab) (map F64.of_int label))
  else Raise ValueError.

(** Boolean-mask indexing [a[mask]]. *)
Definition mask_select {A} (a : list A) (mask : list bool) : list A :=
  map fst (List.filter snd (combine a mask)).

(** [np.sum] of a boolean array. *)
Definition np_sum (bs : list bool) : Z :=
  fold_right (fun b acc => (Z.b2z b + acc)%Z) 0%Z bs.

Record confusion : Set := { tp : Z; tn : Z; fp : Z; fn : Z }.

(** Training path (lines 235-242): the columns of [results] are compared
    with 1 and 0 as they are. *)
Definition confusion_train (results : list row) : confusion :=
  let out_lab := map fst results in
  let label := map snd results in
  let is1 x := F64.eqb x (F64.of_int 1) in
  let is0 x := F64.eqb x (F64.of_int 0) in
  {| tp := np_sum (map is1 (mask_select out_lab (map is1 label)));
     tn := np_sum (map is0 (mask_select out_lab (map is0 label)));
     fp := np_sum (map is1 (mask_select out_lab (map is0 label)));
     fn := np_sum (map is0 (mask_select out_lab (map is1 label))) |}.

(** Development and test path (lines 269-274, 314-319): both columns are
    binarised once more before the counts. *)
Definition confusion_eval (results : list row) : confusion :=
  let out_lab := map (fun r => binarize (fst r)) results in
  let label := map (fun r => binarize (snd r)) results in
  let is1 x := Z.eqb x 1 in
  let is0 x := Z.eqb x 0 in
  {| tp := np_sum (map is1 (mask_select out_lab (map is1 label)));
     tn := np_sum (map is0 (mask_select out_lab (map is0 label)));
     fp := np_sum (map is1 (mask_select out_lab (map is0 label)));
     fn := np_sum (map is0 (mask_select out_lab (map is1 label))) |}.

(** The quotient of two numpy int64 scalars is a float64 true division;
    a zero denominator gives NaN or an infinity (with a warning), it does
    not raise. *)
Definition int_div (a b : Z) : float := F64.div (F64.of_int a) (F64.of_int b).

Definition precision_of (c : confusion) : float := int_div (tp c) (tp c + fp c)%Z.
Definition recall_of (c : confusion) : float := int_div (tp c) (tp c + fn c)%Z.
Definition f1_of (c : confusion) : float :=
  let precision := precision_of c in
  let recall := recall_of c in
  F64.div (F64.mul F64.two (F64.mul precision recall)) (F64.add precision recall).
Definition acc_of (c : confusion) : float :=
  int_div (tp c + tn c)%Z (tp c + fp c + tn c + fn c)%Z.
Definition n_acc_of (c : confusion) : float := int_div (tn c) (tn c + fn c)%Z.
Definition fpr_of (c : confusion) : float := int_div (fp c) (tn c + fp c)%Z.
Definition fnr_of (c : confusion) : float := int_div (fn c) (tp c + fn c)%Z.

(** ** numpy reductions

    [np.sum] adds the entries of an array in an order of its own (blocks
    of entries, added pairwise), starting from a zero.  The order depends
    on the shape of the array, not on its values; it belongs to numpy, not
    to the script, and is a parameter of the model: what is proved holds
    for every order. *)

Inductive addition_order : Set :=
| Start (negative : bool)
| Entry (k : nat)
| Plus (a b : addition_order).

(** The sum of the entries [a] (in row-major order) added in the order
    [o]; [Start s] is the zero of sign [s] a sum starts from. *)
Fixpoint add_in_order (o : addition_order) (a : list float) : float :=
  match o with
  | Start s => S754_zero s
  | Entry k => nth k a F64.zero
  | Plus l r => F64.add (add_in_order l a) (add_in_order r a)
  end.

Class Numpy : Set := { sum_order : list nat -> addition_order }.

(** [np.sum(a)] for an array of the given shape. *)
Definition np_add_reduce {np : Numpy} (shape : list nat) (a : list float) : float :=
  add_in_order (sum_order shape) a.

(** [np.mean] of a list of scalars: the sum divided by the count. *)
Definition np_mean {np : Numpy} (l : list float) : float :=
  F64.div (np_add_reduce [length l] l) (F64.of_int (Z.of_nat (length l))).

(** [np.nanmean] and [np.nanstd] replace every NaN by 0 before they sum,
    and divide by the number of entries that are not NaN. *)
Definition replace_nan (a : list float) : list float :=
  map (fun x => if F64.is_nan x then F64.zero else x) a.

Definition count_valid (a : list float) : Z :=
  np_sum (map (fun x => negb (F64.is_nan x)) a).

(** ** Arrays

    An array is its shape and an indexing function; only indices inside
    the shape are ever read. *)

Record array2 (A : Type) : Type :=
  { nrow : nat; ncol : nat; item2 : nat -> nat -> A }.
Arguments nrow {A} a.
Arguments ncol {A} a.
Arguments item2 {A} a _ _.

Record array3 (A : Type) : Type :=
  { shape0 : nat; shape1 : nat; shape2 : nat; item : nat -> nat -> nat -> A }.
Arguments shape0 {A} a.
Arguments shape1 {A} a.
Arguments shape2 {A} a.
Arguments item {A} a _ _ _.

Abbreviation ndarray3 := (array3 float).

(** The entries of a 2-d array in row-major order. *)
Definition flat {A} (v : array2 A) : list A :=
  flat_map (fun n => map (fun t => item2 v n t) (seq 0 (ncol v))) (seq 0 (nrow v)).

(** [np.nanmean(v)]: NaN when no entry counts (0/0, with a warning). *)
Definition nanmean {np : Numpy} (v : array2 float) : float :=
  let a := flat v in
  F64.div (np_add_reduce [nrow v; ncol v] (replace_nan a)) (F64.of_int (count_valid a)).

(** [np.nanstd(v)]: the square root of the mean squared deviation from
    [np.nanmean(v)] of the entries that are not NaN; NaN when no entry
    counts. *)
Definition nanstd {np : Numpy} (v : array2 float) : float :=
  let a := flat v in
  let cnt := count_valid a in
  let avg := nanmean v in
  let sqr := map (fun x => if F64.is_nan x then F64.zero
                           else let d := F64.sub x avg in F64.mul d d) a in
  let var := F64.div (np_add_reduce [nrow v; ncol v] sqr) (F64.of_int cnt) in
  F64.sqrt (if (cnt <=? 0)%Z then S754_nan else var).

(** The view [a[:, :, i]]. *)
Definition channel_view {A} (a : array3 A) (i : nat) : array2 A :=
  {| nrow := shape0 a; ncol := shape1 a; item2 := fun n t => item a n t i |}.

(** The in-place assignment [a[:, :, i] = v]. *)
Definition assign_channel {A} (a : array3 A) (i : nat) (v : array2 A) : array3 A :=
  {| shape0 := shape0 a; shape1 := shape1 a; shape2 := shape2 a;
     item := fun n t c => if c =? i then item2 v n t else item a n t c |}.

(** The window [a[idx]]. *)
Definition window {A} (a : array3 A) (idx : nat) : array2 A :=
  {| nrow := shape1 a; ncol := shape2 a; item2 := fun t c => item a idx t c |}.

(** ** SigDataset (lines 65-100) *)

(** The attributes of the global [args] that hold arrays. *)
Abbreviation namespace := (gmap string (list float)).

Definition getattr (args : namespace) (name : string) : result (list float) :=
  match args !! name with
  | Some v => Ok v
  | None => Raise AttributeError
  end.

Definition getitem (a : list float) (i : nat) : result float :=
  match a !! i with
  | Some v => Ok v
  | None => Raise IndexError
  end.

Definition setitem (a : list float) (i : nat) (v : float) : result (list float) :=
  if i <? length a then Ok (<[i := v]> a) else Raise IndexError.

Definition np_zeros (c : nat) : list float := replicate c F64.zero.

(** [(channel - train_mean) / (train_std + 1e-5)] *)
Definition normalize_value (train_mean train_std x : float) : float :=
  F64.div (F64.sub x train_mean) (F64.add train_std F64.eps).

Definition normalize_view (channel : array2 float) (train_mean train_std : float)
  : array2 float :=
  {| nrow := nrow channel; ncol := ncol channel;
     item2 := fun n t => normalize_value train_mean train_std (item2 channel n t) |}.

(** Body of the loop of lines 78-84. *)
Definition fit_channel {np : Numpy} (i : nat) (st : namespace * ndarray3)
  : result (namespace * ndarray3) :=
  let args := fst st in
  let input := snd st in
  let channel := channel_view input i in
  let* mean_arr := getattr args "train_mean" in
  let* mean_arr := setitem mean_arr i (nanmean channel) in
  let args := <["train_mean" := mean_arr]> args in
  let* std_arr := getattr args "train_std" in
  let* std_arr := setitem std_arr i (nanstd channel) in
  let args := <["train_std" := std_arr]> args in
  let* mean_arr := getattr args "train_mean" in
  let* train_mean := getitem mean_arr i in
  let* std_arr := getattr args "train_std" in
  let* train_std := getitem std_arr i in
  Ok (args, assign_channel input i (normalize_view channel train_mean train_std)).

(** Body of the loop of lines 86-90. *)
Definition apply_channel (i : nat) (st : namespace * ndarray3)
  : result (namespace * ndarray3) :=
  let args := fst st in
  let input := snd st in
  let channel := channel_view input i in
  let* mean_arr := getattr args "train_mean" in
  let* train_mean := getitem mean_arr i in
  let* std_arr := getattr args "train_std" in
  let* train_std := getitem std_arr i in
  Ok (args, assign_channel input i (normalize_view channel train_mean train_std)).

Record SigDataset : Type :=
  { ds_input : ndarray3; ds_label : list float; ds_training : bool }.

(** [SigDataset.__init__]: the global [args] is threaded through, the
    array [data] is normalised in place. *)
Definition SigDataset_init {np : Numpy} (args : namespace) (data : ndarray3)
  (label : list float) (training : bool) : result (namespace * SigDataset) :=
  let c := shape2 data in
  let* st :=
    (if training then
       let args := <["train_mean" := np_zeros c]> args in
       let args := <["train_std" := np_zeros c]> args in
       for_each (seq 0 c) fit_channel (args, data)
     else Ok (args, data)) in
  let* st :=
    (if negb training then for_each (seq 0 c) apply_channel st else Ok st) in
  Ok (fst st, {| ds_input := snd st; ds_label := label; ds_training := training |}).

Definition SigDataset_len (d : SigDataset) : nat := length (ds_label d).

Definition SigDataset_getitem (d : SigDataset) (idx : nat)
  : result (array2 float * float) :=
  if idx <? shape0 (ds_input d) then
    match ds_label d !! idx with
    | Some y => Ok (window (ds_input d) idx, y)
    | None => Raise IndexError
    end
  else Raise IndexError.

(** Lines 113-115: the three datasets are built in this order on the one
    [args]. *)
Definition build_datasets {np : Numpy} (args : namespace)
  (train_data : ndarray3) (train_label : list float)
  (dev_data : ndarray3) (dev_label : list float)
  (test_data : ndarray3) (test_label : list float)
  : result (namespace * SigDataset * SigDataset * SigDataset) :=
  let* r1 := SigDataset_init args train_data train_label true in
  let* r2 := SigDataset_init (fst r1) dev_data dev_label false in
  let* r3 := SigDataset_init (fst r2) test_data test_label false in
  Ok (fst r3, snd r1, snd r2, snd r3).

(** ** Tensor operations used by the model *)

(** [a.repeat(b, 1, 1)] *)
Definition tensor_repeat0 {A} (a : array3 A) (b : nat) : array3 A :=
  {| shape0 := b * shape0 a; shape1 := shape1 a; shape2 := shape2 a;
     item := fun n t c => item a (n mod shape0 a) t c |}.

(** Broadcasting of one axis: equal sizes, or one of them is 1. *)
Definition broadcast_dim (a b : nat) : option nat :=
  if a =? b then Some a
  else if a =? 1 then Some b
  else if b =? 1 then Some a
  else None.

Definition bidx (dim i : nat) : nat := if dim =? 1 then 0 else i.

Definition tensor_binop (op : float -> float -> float) (x y : ndarray3)
  : result ndarray3 :=
  match broadcast_dim (shape0 x) (shape0 y),
        broadcast_dim (shape1 x) (shape1 y),
        broadcast_dim (shape2 x) (shape2 y) with
  | Some d0, Some d1, Some d2 =>
      Ok {| shape0 := d0; shape1 := d1; shape2 := d2;
            item := fun n t c =>
              op (item x (bidx (shape0 x) n) (bidx (shape1 x) t) (bidx (shape2 x) c))
                 (item y (bidx (shape0 y) n) (bidx (shape1 y) t) (bidx (shape2 y) c)) |}
  | _, _, _ => Raise RuntimeError
  end.

(** [x[torch.isnan(x)] = 0] *)
Definition nan_to_zero (x : ndarray3) : ndarray3 :=
  {| shape0 := shape0 x; shape1 := shape1 x; shape2 := shape2 x;
     item := fun n t c =>
       if F64.is_nan (item x n t c) then F64.of_int 0 else item x n t c |}.

(** [x[:, :, start:stop]] with Python's clamping of the bounds. *)
Definition slice_last {A} (x : array3 A) (start stop : nat) : array3 A :=
  let a := Nat.min start (shape2 x) in
  let b := Nat.min stop (shape2 x) in
  {| shape0 := shape0 x; shape1 := shape1 x; shape2 := b - a;
     item := fun n t c => item x n t (a + c) |}.

(** [x[:, :, -k:]] for a positive [k]. *)
Definition tail_last {A} (x : array3 A) (k : nat) : array3 A :=
  slice_last x (shape2 x - k) (shape2 x).

(** ** Model.forward, lines 163-169 *)

Definition network_feature : list string :=
  ["rtt"; "loss_rate"; "dns_rate"; "dns_latency"; "ul_bw"; "dl_bw"]%string.
Definition radio_feature : list string := ["rsrp"; "snr"; "rat"]%string.
Definition bs_feature : list string := ["handover"; "dwell_time"]%string.

(** The tensor after line 166. *)
Definition encode_input (pe x : ndarray3) : result ndarray3 :=
  let b := shape0 x in
  let* x := tensor_binop F64.add x (tensor_repeat0 pe b) in
  Ok (nan_to_zero x).

(** The inputs of the three towers, [(x_network, x_radio, x_bs)]. *)
Definition tower_inputs (pe x : ndarray3)
  : result (ndarray3 * ndarray3 * ndarray3) :=
  let* x := encode_input pe x in
  let x_network := slice_last x 0 (length network_feature) in
  let x_radio := slice_last x (length network_feature)
                   (length network_feature + length radio_feature) in
  let x_bs := tail_last x (length bs_feature) in
  Ok (x_network, x_radio, x_bs).

(** ** Model.forward, lines 175-182, read statement by statement

    The text of lines 175-177 is
    [concat_out = torch.cat([out1, out2, out3]] /
    [attn_weights = self.attention_layer(concat_out, dim=-1))]:
    the [, dim=-1)] of the concatenation sits in the call of the attention
    layer, and the file does not parse.  Read as the two statements the
    line breaks show, the concatenation has no [dim] (torch's default is
    axis 0) and the linear layer is called with a keyword [dim]. *)

Record Linear : Type := { weight : list float; bias : float }.

(** Concatenation of two tensors along axis 0. *)
Definition cat0 (b a : ndarray3) : result ndarray3 :=
  if (shape1 a =? shape1 b) && (shape2 a =? shape2 b) then
    Ok {| shape0 := shape0 a + shape0 b; shape1 := shape1 a; shape2 := shape2 a;
          item := fun n t c =>
            if n <? shape0 a then item a n t c else item b (n - shape0 a) t c |}
  else Raise RuntimeError.

(** [torch.cat(ts)] *)
Definition torch_cat (ts : list ndarray3) : result ndarray3 :=
  match ts with
  | [] => Raise RuntimeError
  | t :: ts' => for_each ts' (fun b a => cat0 b a) t
  end.

Definition dot (w : list float) (x : nat -> float) : float :=
  fold_left (fun acc kw => F64.add acc (F64.mul (x (fst kw)) (snd kw)))
            (combine (seq 0 (length w)) w) F64.zero.

(** [nn.Linear.forward] with one output feature, on the last axis. *)
Definition Linear_forward (l : Linear) (input : ndarray3) : result ndarray3 :=
  if shape2 input =? length (weight l) then
    Ok {| shape0 := shape0 input; shape1 := shape1 input; shape2 := 1;
          item := fun n t _ => F64.add (dot (weight l) (item input n t)) (bias l) |}
  else Raise RuntimeError.

(** [nn.Module.__call__] hands its keyword arguments to [forward], and
    [Linear.forward(self, input)] accepts none. *)
Definition Linear_call (l : Linear) (input : ndarray3) (kwargs : list (string * Z))
  : result ndarray3 :=
  match kwargs with
  | [] => Linear_forward l input
  | _ :: _ => Raise TypeError
  end.

(** [torch.sum(x, dim=1)], written as a 3-d array with a middle axis of
    size 1. *)
Definition sum_dim1 (x : ndarray3) : ndarray3 :=
  {| shape0 := shape0 x; shape1 := 1; shape2 := shape2 x;
     item := fun n _ c =>
       fold_left F64.add (map (fun t => item x n t c) (seq 0 (shape1 x))) F64.zero |}.

Definition tensor_map (f : float -> float) (x : ndarray3) : ndarray3 :=
  {| shape0 := shape0 x; shape1 := shape1 x; shape2 := shape2 x;
     item := fun n t c => f (item x n t c) |}.

Section Fusion.
(** [torch.softmax(_, dim=1)] and the sigmoid are torch's. *)
Variable softmax_dim1 : ndarray3 -> ndarray3.
Variable sigmoid : float -> float.

Definition fusion_as_written (attention_layer linear_layer : Linear)
  (out1 out2 out3 : ndarray3) : result ndarray3 :=
  let* concat_out := torch_cat [out1; out2; out3] in
  let* attn_weights := Linear_call attention_layer concat_out [("dim"%string, (-1)%Z)] in
  let attn_weights := softmax_dim1 attn_weights in
  let* weighted := tensor_binop F64.mul attn_weights concat_out in
  let attn_output := sum_dim1 weighted in
  let* out := Linear_call linear_layer attn_output [] in
  Ok (tensor_map sigmoid out).
End Fusion.

(** ** Model.create_positional_encoding (lines 184-196)

    The function is written over the arithmetic it uses, so that it can be
    read with torch's floating-point operations or with the real numbers. *)

Class Arith (num : Type) : Type :=
  { a_zero : num;
    a_of_nat : nat -> num;
    a_const_10000 : num;
    a_neg : num -> num;
    a_mul : num -> num -> num;
    a_div : num -> num -> num;
    a_log : num -> num;
    a_exp : num -> num;
    a_sin : num -> num;
    a_cos : num -> num }.

#[export] Instance R_arith : Arith R :=
  {| a_zero := 0%R;
     a_of_nat := INR;
     a_const_10000 := 10000%R;
     a_neg := Ropp;
     a_mul := Rmult;
     a_div := Rdiv;
     a_log := ln;
     a_exp := exp;
     a_sin := sin;
     a_cos := cos |}.

Section PositionalEncoding.
Context {num : Type} {arith : Arith num}.

(** [torch.zeros(r, c)] *)
Definition zeros (r c : nat) : array2 num :=
  {| nrow := r; ncol := c; item2 := fun _ _ => a_zero |}.

(** [torch.arange(0, stop, step)] as floats, for a positive [step]. *)
Definition arange (stop step : nat) : list num :=
  map (fun k => a_of_nat (k * step)) (seq 0 ((stop + step - 1) / step)).

(** [v.unsqueeze(1)] *)
Definition unsqueeze1 (v : list num) : array2 num :=
  {| nrow := length v; ncol := 1; item2 := fun r _ => nth r v a_zero |}.

(** [p * d] for a 2-d [p] and a 1-d [d], with broadcasting. *)
Definition mul_row (p : array2 num) (d : list num) : result (array2 num) :=
  match broadcast_dim (ncol p) (length d) with
  | Some k =>
      Ok {| nrow := nrow p; ncol := k;
            item2 := fun r c =>
              a_mul (item2 p r (bidx (ncol p) c)) (nth (bidx (length d) c) d a_zero) |}
  | None => Raise RuntimeError
  end.

Definition map2d (f : num -> num) (a : array2 num) : array2 num :=
  {| nrow := nrow a; ncol := ncol a; item2 := fun r c => f (item2 a r c) |}.

(** A value of size [vd] can be written into an axis of size [td]. *)
Definition can_expand (vd td : nat) : bool := (vd =? td) || (vd =? 1).

(** [pe[:, start::2] = v] *)
Definition assign_strided (pe : array2 num) (start : nat) (v : array2 num)
  : result (array2 num) :=
  let cnt := (ncol pe + 1 - start) / 2 in
  if can_expand (nrow v) (nrow pe) && can_expand (ncol v) cnt then
    Ok {| nrow := nrow pe; ncol := ncol pe;
          item2 := fun r c =>
            if (start <=? c) && Nat.even (c - start) then
              item2 v (bidx (nrow v) r) (bidx (ncol v) ((c - start) / 2))
            else item2 pe r c |}
  else Raise RuntimeError.

(** [a.unsqueeze(0)] *)
Definition unsqueeze0 (a : array2 num) : array3 num :=
  {| shape0 := 1; shape1 := nrow a; shape2 := ncol a;
     item := fun _ t c => item2 a t c |}.

(** The exponent factor of line 188, [-math.log(10000.0) / d_model]. *)
Definition log_step (d_model : nat) : num :=
  a_div (a_neg (a_log a_const_10000)) (a_of_nat d_model).

(** The frequency vector of line 188. *)
Definition frequencies (d_model : nat) : result (list num) :=
  let* c :=
    (if d_model =? 0 then Raise ZeroDivisionError else Ok (log_step d_model)) in
  Ok (map (fun a => a_exp (a_mul a c)) (arange d_model 2)).

Definition create_positional_encoding (seq_len d_model : nat)
  : result (array3 num) :=
  let pe := zeros seq_len d_model in
  let position := unsqueeze1 (arange seq_len 1) in
  let* div_term := frequencies d_model in
  let* angle := mul_row position div_term in
  let* pe := assign_strided pe 0 (map2d a_sin angle) in
  let div_term :=
    if d_model mod 2 =? 1 then removelast div_term else div_term in
  let* angle := mul_row position div_term in
  let* pe := assign_strided pe 1 (map2d a_cos angle) in
  Ok (unsqueeze0 pe).
End PositionalEncoding.

(** ** The training run (lines 201-294) and the test evaluation (297-331)

    The network itself and the optimiser are parameters: [forward] is
    [model(input)] on one example (the towers treat the examples of a batch
    independently), [optim_step] is zero_grad / backward / clip_grad_norm_ /
    optim.step on one batch, [scheduler_step] the learning-rate decay.
    [shuffle step] is the order in which the training loader visits the
    examples in epoch [step].  [use_cuda] is the truth value of
    [args.use_cuda]: lines 224, 264 and 309 record the loss as
    [loss.data.cpu().numpy()] when it holds and as [loss.data.numpy()[0]]
    otherwise, and the loss is a scalar, whose 0-dimensional array cannot
    be indexed. *)

(** Consecutive batches of [n] examples, the last one possibly shorter. *)
Fixpoint batches_of {A} (fuel n : nat) (l : list A) : list (list A) :=
  match fuel with
  | 0 => []
  | S fuel' =>
      match l with
      | [] => []
      | _ :: _ => firstn n l :: batches_of fuel' n (skipn n l)
      end
  end.

(** What is printed for a split in one epoch. *)
Record report : Set :=
  { r_loss : float; r_f1 : float; r_acc : float;
    r_precision : float; r_recall : float }.

(** The line printed after the test loop. *)
Record test_report : Set :=
  { t_loss : float; t_n_acc : float; t_precision : float; t_recall : float;
    t_fpr : float; t_fnr : float; t_acc : float; t_f1 : float }.

Section Run.
Context {np : Numpy}.
Variable use_cuda : bool.
Variable Input : Type.
Variable Params : Type.
Variable forward : Params -> Input -> float.
Variable bce_loss : list float -> list float -> float.
Variable optim_step : Params -> list Input -> list float -> Params.
Variable scheduler_step : Params -> Params.
Variable shuffle : nat -> list (Input * float) -> list (Input * float).
Variable batch_size : nat.
Variable train_set dev_set test_set : list (Input * float).

(** A tensor of a batch: the inputs or the labels of its examples. *)
Inductive component : Type :=
| Cinput (xs : list Input)
| Clabel (ys : list float).

(** The list a DataLoader yields for a batch of [(input, label)] pairs. *)
Definition collate (b : list (Input * float)) : list component :=
  [Cinput (map fst b); Clabel (map snd b)].

Definition loader_batches (examples : list (Input * float)) : list (list component) :=
  map collate (batches_of (length examples) batch_size examples).

Definition as_input (c : component) : result (list Input) :=
  match c with
  | Cinput xs => Ok xs
  | Clabel _ => Raise RuntimeError
  end.

Definition as_label (c : component) : result (list float) :=
  match c with
  | Clabel ys => Ok ys
  | Cinput _ => Raise RuntimeError
  end.

(** [bce_loss(out, label)] refuses operands of different sizes. *)
Definition bce (out label : list float) : result float :=
  if length out =? length label then Ok (bce_loss out label)
  else Raise ValueError.

(** [loss.data.cpu().numpy() if args.use_cuda else loss.data.numpy()[0]] *)
Definition loss_scalar (loss : float) : result float :=
  if use_cuda then Ok loss else Raise IndexError.

(** The variables a loop over batches updates. *)
Record loop_state : Type :=
  { ls_params : Params;
    ls_out : option (list float);
    ls_losses : list float;
    ls_results : list row }.

(** Lines 217-232. *)
Definition train_batch (batch_data : list component) (st : loop_state)
  : result loop_state :=
  match batch_data with
  | [input; label] =>
      let* input := as_input input in
      let* label := as_label label in
      let out := map (forward (ls_params st)) input in
      let* loss := bce out label in
      let* loss := loss_scalar loss in
      let params := optim_step (ls_params st) input label in
      let out_lab := map binarize out in
      let label := map binarize label in
      let* rows := np_c out_lab label in
      Ok {| ls_params := params; ls_out := Some out;
            ls_losses := ls_losses st ++ [loss];
            ls_results := ls_results st ++ rows |}
  | _ => Raise ValueError
  end.

(** Lines 260-267. *)
Definition dev_batch (batch_data : list component) (st : loop_state)
  : result loop_state :=
  match batch_data with
  | [input; label] =>
      let* input := as_input input in
      let* label := as_label label in
      let out := map (forward (ls_params st)) input in
      let* loss := bce out label in
      let* loss := loss_scalar loss in
      let out_lab := map binarize out in
      let label := map binarize label in
      let* rows := np_c out_lab label in
      Ok {| ls_params := ls_params st; ls_out := Some out;
            ls_losses := ls_losses st ++ [loss];
            ls_results := ls_results st ++ rows |}
  | _ => Raise ValueError
  end.

(** Lines 306-312: three names are unpacked, and [out] is whatever the
    variable holds when the loop is entered. *)
Definition test_batch (batch_data : list component) (st : loop_state)
  : result loop_state :=
  match batch_data with
  | [input; feature; label] =>
      let* out :=
        (match ls_out st with
         | Some out => Ok out
         | None => Raise NameError
         end) in
      let* label := as_label label in
      let* loss := bce out label in
      let* loss := loss_scalar loss in
      let out_lab := map binarize out in
      let label := map binarize label in
      let* rows := np_c out_lab label in
      Ok {| ls_params := ls_params st; ls_out := ls_out st;
            ls_losses := ls_losses st ++ [loss];
            ls_results := ls_results st ++ rows |}
  | _ => Raise ValueError
  end.

(** The module-level variables that survive an epoch; [checkpoint] is the
    content of the file written by [torch.save]. *)
Record run_state : Type :=
  { params : Params;
    out_var : option (list float);
    max_f1 : float;
    max_f1_acc : float;
    best_epoch : Z;
    checkpoint : option Params;
    log : list (report * report) }.

Definition report_of (losses : list float) (c : confusion) : report :=
  {| r_loss := np_mean losses; r_f1 := f1_of c; r_acc := acc_of c;
     r_precision := precision_of c; r_recall := recall_of c |}.

(** One iteration of the loop of line 210.  The print of line 246 reads the
    batch counter [i], which is bound exactly when [out] is. *)
Definition epoch (step : nat) (st : run_state) : result run_state :=
  let* tr :=
    for_each (loader_batches (shuffle step train_set)) train_batch
      {| ls_params := params st; ls_out := out_var st;
         ls_losses := []; ls_results := [] |} in
  let p := scheduler_step (ls_params tr) in
  let train_report := report_of (ls_losses tr) (confusion_train (ls_results tr)) in
  let* _ :=
    (match ls_out tr with
     | Some _ => Ok tt
     | None => Raise NameError
     end) in
  let* dv :=
    for_each (loader_batches dev_set) dev_batch
      {| ls_params := p; ls_out := ls_out tr;
         ls_losses := []; ls_results := [] |} in
  let c := confusion_eval (ls_results dv) in
  let acc := acc_of c in
  let f1 := f1_of c in
  let dev_report := report_of (ls_losses dv) c in
  if F64.leb (max_f1 st) f1 then
    Ok {| params := p; out_var := ls_out dv;
          max_f1 := f1; max_f1_acc := acc; best_epoch := Z.of_nat step;
          checkpoint := Some p;
          log := log st ++ [(train_report, dev_report)] |}
  else
    Ok {| params := p; out_var := ls_out dv;
          max_f1 := max_f1 st; max_f1_acc := max_f1_acc st;
          best_epoch := best_epoch st;
          checkpoint := checkpoint st;
          log := log st ++ [(train_report, dev_report)] |}.

(** Lines 202-208; [file] is what the checkpoint path holds beforehand. *)
Definition initial_state (p0 : Params) (file : option Params) : run_state :=
  {| params := p0; out_var := None;
     max_f1 := F64.of_int 0; max_f1_acc := F64.of_int 0; best_epoch := (-1)%Z;
     checkpoint := file; log := [] |}.

Definition training_loop (epoch_num : nat) (st : run_state) : result run_state :=
  for_each (seq 0 epoch_num) epoch st.

(** Lines 297-331. *)
Definition test_eval (st : run_state) : result (test_report * list row) :=
  let* p :=
    (match checkpoint st with
     | Some p => Ok p
     | None => Raise FileNotFoundError
     end) in
  let* te :=
    for_each (loader_batches test_set) test_batch
      {| ls_params := p; ls_out := out_var st;
         ls_losses := []; ls_results := [] |} in
  let c := confusion_eval (ls_results te) in
  Ok ({| t_loss := np_mean (ls_losses te); t_n_acc := n_acc_of c;
         t_precision := precision_of c; t_recall := recall_of c;
         t_fpr := fpr_of c; t_fnr := fnr_of c;
         t_acc := acc_of c; t_f1 := f1_of c |},
      ls_results te).

(** The script from line 117 on.  A DataLoader refuses a batch size of 0,
    and the shuffling loader of line 117 an empty dataset. *)
Definition run (epoch_num : nat) (p0 : Params) (file : option Params)
  : result (run_state * (test_report * list row)) :=
  if batch_size =? 0 then Raise ValueError
  else
    match train_set with
    | [] => Raise ValueError
    | _ :: _ =>
        let* st := training_loop epoch_num (initial_state p0 file) in
        let* rep := test_eval st in
        Ok (st, rep)
    end.
End Run.

Arguments Cinput {Input} xs.
Arguments Clabel {Input} ys.
Arguments collate {Input} b.
Arguments loader_batches {Input} batch_size examples.
Arguments as_input {Input} c.
Arguments as_label {Input} c.
Arguments train_batch use_cuda {Input Params} forward bce_loss optim_step batch_data st.
Arguments dev_batch use_cuda {Input Params} forward bce_loss batch_data st.
Arguments test_batch use_cuda {Input Params} bce_loss batch_data st.
Arguments ls_params {Params} l.
Arguments ls_out {Params} l.
Arguments ls_losses {Params} l.
Arguments ls_results {Params} l.
Arguments Build_loop_state {Params} ls_params ls_out ls_losses ls_results.
Arguments params {Params} r.
Arguments out_var {Params} r.
Arguments max_f1 {Params} r.
Arguments max_f1_acc {Params} r.
Arguments best_epoch {Params} r.
Arguments checkpoint {Params} r.
Arguments log {Params} r.
Arguments Build_run_state {Params} params out_var max_f1 max_f1_acc best_epoch
  checkpoint log.
Arguments report_of {np} losses c.
Arguments epoch {np} use_cuda {Input Params} forward bce_loss optim_step
  scheduler_step shuffle batch_size train_set dev_set step st.
Arguments initial_state {Params} p0 file.
Arguments training_loop {np} use_cuda {Input Params} forward bce_loss optim_step
  scheduler_step shuffle batch_size train_set dev_set epoch_num st.
Arguments test_eval {np} use_cuda {Input Params} bce_loss batch_size test_set st.
Arguments run {np} use_cuda {Input Params} forward bce_loss optim_step
  scheduler_step shuffle batch_size train_set dev_set test_set epoch_num p0 file.

(** ** Vocabulary of the statements *)

(** The float stored in [results] for a value: 0.0 or 1.0. *)
Definition binz (x : float) : float := F64.of_int (binarize x).

(** The row of [results] for a model output and a raw label. *)
Definition row_of (oy : float * float) : row := (binz (fst oy), binz (snd oy)).

(** Model outputs paired with the raw labels, for the examples [b] and the
    parameters [p]. *)
Definition scored {Input Params : Type} (forward : Params -> Input -> float)
  (p : Params) (b : list (Input * float)) : list (float * float) :=
  map (fun e => (forward p (fst e), snd e)) b.

Definition binary_value (v : float) : Prop := v = F64.zero \/ v = F64.one.

Definition binary_row (r : row) : Prop := binary_value (fst r) /\ binary_value (snd r).

(** The statistics of channel [i] of the array [X]. *)
Definition mean_of {np : Numpy} (X : ndarray3) (i : nat) : float :=
  nanmean (channel_view X i).
Definition std_of {np : Numpy} (X : ndarray3) (i : nat) : float :=
  nanstd (channel_view X i).

(** [Y] is [X] with every value of channel [c] replaced by
    [(x - mean[c]) / (std[c] + 1e-5)], the statistics being those of the
    array [T]. *)
Definition normalized_with {np : Numpy} (T X Y : ndarray3) : Prop :=
  shape0 Y = shape0 X /\ shape1 Y = shape1 X /\ shape2 Y = shape2 X /\
  forall n t c, c < shape2 X ->
    item Y n t c = normalize_value (mean_of T c) (std_of T c) (item X n t c).

(** State of the loop of lines 78-84 before channel [a]: the first [a]
    statistics are stored and the first [a] channels are normalised. *)
Definition stats_upto {np : Numpy} (X : ndarray3) (args0 args : namespace) (a : nat)
  : Prop :=
  exists M D : list float,
    args !! "train_mean"%string = Some M /\ args !! "train_std"%string = Some D /\
    length M = shape2 X /\ length D = shape2 X /\
    (forall i, i < a -> M !! i = Some (mean_of X i) /\ D !! i = Some (std_of X i)) /\
    (forall k : string, k <> "train_mean"%string -> k <> "train_std"%string ->
       args !! k = args0 !! k).

Definition fitted_upto {np : Numpy} (X Y : ndarray3) (a : nat) : Prop :=
  shape0 Y = shape0 X /\ shape1 Y = shape1 X /\ shape2 Y = shape2 X /\
  forall n t i,
    item Y n t i
    = if i <? a then normalize_value (mean_of X i) (std_of X i) (item X n t i)
      else item X n t i.

(** The value the towers receive for channel [c] of the 11-channel input:
    channels 0-5 go to the network tower, 6-8 to the radio tower, 9-10 to
    the base-station tower. *)
Definition tower_value (towers : ndarray3 * ndarray3 * ndarray3) (n t c : nat)
  : float :=
  let '(x_network, x_radio, x_bs) := towers in
  if c <? 6 then item x_network n t c
  else if c <? 9 then item x_radio n t (c - 6)
  else item x_bs n t (c - 9).

(** The real number a finite float stands for. *)
Definition F2R (x : float) : R :=
  match x with
  | S754_finite s m e => (IZR (cond_Zopp s (Zpos m)) * powerRZ 2 e)%R
  | _ => 0%R
  end.

(** A float whose sign bit is clear, or NaN. *)
Definition nonneg_or_nan (x : float) : Prop :=
  match x with
  | S754_nan => True
  | S754_zero s | S754_infinity s | S754_finite s _ _ => s = false
  end.

Definition nan_report : report :=
  {| r_loss := S754_nan; r_f1 := S754_nan; r_acc := S754_nan;
     r_precision := S754_nan; r_recall := S754_nan |}.

(** The development F1 and accuracy printed by the epoch that produced the
    state [s]: the last entry of its log. *)
Definition dev_f1 {Params : Type} (s : run_state Params) : float :=
  r_f1 (snd (List.last (log s) (nan_report, nan_report))).

Definition dev_acc {Params : Type} (s : run_state Params) : float :=
  r_acc (snd (List.last (log s) (nan_report, nan_report))).

(** ** A small concrete run

    A one-weight model on scalar inputs, used to evaluate the definitions:
    the model returns its input scaled by the weight, and a step of the
    optimiser doubles the weight. *)

Definition toy_forward (w : float) (x : float) : float := F64.mul w x.
Definition toy_loss (out label : list float) : float := fold_left F64.add out F64.zero.
Definition toy_step (w : float) (_ _ : list float) : float := F64.mul F64.two w.
Definition toy_scheduler (w : float) : float := w.
Definition toy_shuffle (step : nat) (l : list (float * float)) : list (float * float) :=
  if Nat.even step then l else rev l.
(** numpy's order for fewer than eight entries: one after the other. *)
Definition toy_numpy : Numpy :=
  {| sum_order := fun shape =>
       fold_left (fun o k => Plus o (Entry k)) (seq 0 (fold_right Nat.mul 1 shape))
         (Start false) |}.
(** numpy's order for eight to 128 contiguous entries: eight running sums
    over the strided entries, added in pairs, then the entries left over. *)
Definition blocked_order (n : nat) : addition_order :=
  if n <? 8 then fold_left (fun o k => Plus o (Entry k)) (seq 0 n) (Start false)
  else
    let blocks := n / 8 in
    let r j := fold_left (fun o b => Plus o (Entry (8 * b + j))) (seq 1 (blocks - 1))
                 (Entry j) in
    let res := Plus (Plus (Plus (r 0) (r 1)) (Plus (r 2) (r 3)))
                    (Plus (Plus (r 4) (r 5)) (Plus (r 6) (r 7))) in
    fold_left (fun o k => Plus o (Entry k)) (seq (8 * blocks) (n mod 8)) res.

Definition numpy_blocked : Numpy :=
  {| sum_order := fun shape => Plus (Start false) (blocked_order (fold_right Nat.mul 1 shape)) |}.

(** The binary64 value nearest to 0.1. *)
Definition tenth : float := S754_finite false 7205759403792794%positive (-56)%Z.

(** An initial weight of 1/32: too small to predict a positive in the first
    epoch. *)
Definition toy_w0 : float := S754_finite false 4503599627370496 (-57).
Definition toy_train : list (float * float) :=
  [(F64.one, F64.one); (F64.half, F64.zero); (F64.zero, F64.zero)].
Definition toy_dev : list (float * float) :=
  [(F64.one, F64.one); (F64.zero, F64.zero)].
Definition toy_test : list (float * float) :=
  [(F64.one, F64.one); (F64.half, F64.zero)].

(** Small arrays of shape (2, 2, 2); the second channel of the first one
    has missing values. *)
Definition toy_array : ndarray3 :=
  {| shape0 := 2; shape1 := 2; shape2 := 2;
     item := fun n t c =>
       if c =? 0 then F64.of_int (Z.of_nat (n + 2 * t))
       else if n =? 0 then S754_nan else F64.of_int (Z.of_nat (4 * t)) |}.

Definition toy_array2 : ndarray3 :=
  {| shape0 := 2; shape1 := 2; shape2 := 2;
     item := fun n t c => F64.of_int (Z.of_nat (n + t + c)) |}.

(** Position 0 of the sinusoidal table for 11 channels (sin 0 = 0 in the
    even channels, cos 0 = 1 in the odd ones), and a one-step window whose
    channel 1 is missing. *)
Definition toy_pe : ndarray3 :=
  {| shape0 := 1; shape1 := 1; shape2 := 11;
     item := fun _ _ c => if Nat.even c then F64.zero else F64.one |}.

Definition toy_window : ndarray3 :=
  {| shape0 := 1; shape1 := 1; shape2 := 11;
     item := fun _ _ c => if c =? 1 then S754_nan else F64.half |}.

(** A tower output of shape (1, 30, 32), and stand-ins for torch's softmax
    and sigmoid. *)
Definition toy_tower_out : ndarray3 :=
  {| shape0 := 1; shape1 := 30; shape2 := 32; item := fun _ _ _ => F64.half |}.
Definition toy_softmax (x : ndarray3) : ndarray3 := x.
Definition toy_sigmoid (x : float) : float := x.
Definition toy_linear : Linear := {| weight := repeat F64.one 96; bias := F64.zero |}.

(** A stand-in for the float library: binary64 arithmetic, with the
    identity in place of the transcendental functions. *)
Definition toy_libm : Arith float :=
  {| a_zero := F64.zero;
     a_of_nat := fun n => F64.of_int (Z.of_nat n);
     a_const_10000 := F64.of_int 10000;
     a_neg := fun x => F64.sub F64.zero x;
     a_mul := F64.mul;
     a_div := F64.div;
     a_log := fun x => x;
     a_exp := fun x => x;
     a_sin := fun x => x;
     a_cos := fun x => x |}.

(** ** The counts printed beside the metrics (lines 237-238, 279-280) *)

(** [np.sum(out_lab==1)] and [np.sum(label==1)] on the training path. *)
Definition printed_counts_train (results : list row) : Z * Z :=
  (np_sum (map (fun x => F64.eqb x (F64.of_int 1)) (map fst results)),
   np_sum (map (fun x => F64.eqb x (F64.of_int 1)) (map snd results))).

(** The same two prints on the development path, after the second
    binarisation. *)
Definition printed_counts_eval (results : list row) : Z * Z :=
  (np_sum (map (fun x => Z.eqb x 1) (map (fun r => binarize (fst r)) results)),
   np_sum (map (fun x => Z.eqb x 1) (map (fun r => binarize (snd r)) results))).

(** ** The development/test split (lines 106-111)

    The pool is an array of windows and an array of labels, written as
    lists along the first axis; [perm] is what [np.random.permutation]
    returned. *)

(** [round(n * 0.5)]: Python rounds a half to the even neighbour. *)
Definition py_round_half (n : nat) : nat :=
  if Nat.even n then n / 2
  else if Nat.even (n / 2) then n / 2 else n / 2 + 1.

(** Indexing with an integer array, [a[idx]]. *)
Fixpoint fancy_index {A} (a : list A) (idx : list nat) : result (list A) :=
  match idx with
  | [] => Ok []
  | i :: idx' =>
      match a !! i with
      | Some v => let* vs := fancy_index a idx' in Ok (v :: vs)
      | None => Raise IndexError
      end
  end.

Definition split_pool {A B} (perm : list nat) (test_data : list A)
  (test_label : list B) : result ((list A * list B) * (list A * list B)) :=
  let data_index := perm in
  let dev_idx := py_round_half (length test_label) in
  let dev_data_index := firstn dev_idx data_index in
  let test_data_index := skipn dev_idx data_index in
  let* dev_data := fancy_index test_data dev_data_index in
  let* dev_label := fancy_index test_label dev_data_index in
  let* test_data' := fancy_index test_data test_data_index in
  let* test_label' := fancy_index test_label test_data_index in
  Ok ((dev_data, dev_label), (test_data', test_label')).

(** ** Loading (lines 54-63, 104-106)

    A value is a Python list or a numpy array (given along its first
    axis); only an array has a [shape]. *)
Inductive pydata (A : Type) : Type :=
| PyList (items : list A)
| NdArray (rows : list A).
Arguments PyList {A} items.
Arguments NdArray {A} rows.

(** [v.shape[0]] *)
Definition shape0_of {A} (v : pydata A) : result nat :=
  match v with
  | NdArray rows => Ok (length rows)
  | PyList _ => Raise AttributeError
  end.

(** [v[idx]] for an integer array [idx]. *)
Definition index_with {A} (v : pydata A) (idx : list nat) : result (pydata A) :=
  match v with
  | NdArray rows => let* picked := fancy_index rows idx in Ok (NdArray picked)
  | PyList _ => Raise TypeError
  end.

(** The frame [pd.read_csv] returned, with its two columns. *)
Record frame (A B : Type) : Type := { features : list A; labels : list B }.
Arguments features {A B} f.
Arguments labels {A B} f.

(** [load_data]: both columns pass through [.tolist()]. *)
Definition load_data {A B} (data_tmp : frame A B) : pydata A * pydata B * nat :=
  (PyList (features data_tmp), PyList (labels data_tmp), length (features data_tmp)).

(** Lines 104-111 on the frames of the two files. *)
Definition load_and_split {A B} (train_frame test_frame : frame A B)
  (perm : nat -> list nat)
  : result ((pydata A * pydata B) * (pydata A * pydata B) * (pydata A * pydata B)) :=
  let '(train_data, train_label, _) := load_data train_frame in
  let '(test_data, test_label, _) := load_data test_frame in
  let* n := shape0_of test_label in
  let data_index := perm n in
  let* n := shape0_of test_label in
  let dev_idx := py_round_half n in
  let dev_data_index := firstn dev_idx data_index in
  let test_data_index := skipn dev_idx data_index in
  let* dev_data := index_with test_data dev_data_index in
  let* dev_label := index_with test_label dev_data_index in
  let* test_data := index_with test_data test_data_index in
  let* test_label := index_with test_label test_data_index in
  Ok ((train_data, train_label), (dev_data, dev_label), (test_data, test_label)).

(** ** What a loader fetches from a dataset (lines 116-118)

    Without shuffling the loader asks for [dataset[idx]] with [idx] running
    over [range(len(dataset))]. *)
Definition dataset_examples (d : SigDataset)
  : result (list (array2 float * float)) :=
  for_each (seq 0 (SigDataset_len d))
    (fun idx acc => let* sample := SigDataset_getitem d idx in Ok (acc ++ [sample]))
    [].

(** ** Command line and configuration (lines 23-52, 202)

    No option declares a [type], so argparse stores a value given on the
    command line as the string it was typed as, and the default otherwise. *)

Inductive pyval : Type :=
| VBool (b : bool)
| VInt (z : Z)
| VFloat (f : float)
| VStr (s : string)
| VList (l : list string).

(** The options of lines 25-34 with their defaults. *)
Definition option_defaults : list (string * pyval) :=
  [("dataset", VStr "./data/"); ("test_dataset", VStr "./data/");
   ("use_cuda", VBool true); ("seed", VInt 2024); ("batch_size", VInt 128);
   ("epoch_num", VInt 50);
   ("learning_rate", VFloat (S754_finite false 4611686018427388 (-62)));
   ("data_seg", VInt 30); ("lab_seg", VInt 5); ("sample_rate", VInt 1)]%string.

(** The namespace of the declared options: the string given in [cli], or
    the default. *)
Definition option_values (cli : gmap string string) : gmap string pyval :=
  list_to_map
    (map (fun kd => (fst kd, match cli !! fst kd with
                             | Some s => VStr s
                             | None => snd kd
                             end))
         option_defaults).

(** Whether every option given on the command line is one of lines 25-34. *)
Definition declared_only (cli : gmap string string) : bool :=
  forallb (fun kv => bool_decide (fst kv ∈ map fst option_defaults))
    (map_to_list cli).

(** [parser.parse_args()]: argparse exits on an option it does not know. *)
Definition parse_args (cli : gmap string string) : result (gmap string pyval) :=
  if declared_only cli then Ok (option_values cli) else Raise SystemExit.

(** Python's truth value. *)
Definition truthy (v : pyval) : bool :=
  match v with
  | VBool b => b
  | VInt z => negb (Z.eqb z 0)
  | VFloat f => negb (F64.eqb f F64.zero)
  | VStr s => negb (String.eqb s "")
  | VList l => negb (Nat.eqb (length l) 0)
  end.

(** [a and b] *)
Definition py_and (a b : pyval) : pyval := if truthy a then b else a.

(** [a // b] on the values an option can hold: integers divide with floor,
    a string operand is a TypeError. *)
Definition py_floordiv (a b : pyval) : result pyval :=
  match a, b with
  | VInt x, VInt y => if Z.eqb y 0 then Raise ZeroDivisionError else Ok (VInt (x / y))
  | _, _ => Raise TypeError
  end.

Definition get_option (args : gmap string pyval) (name : string) : result pyval :=
  match args !! name with
  | Some v => Ok v
  | None => Raise AttributeError
  end.

(** The seeding calls of lines 38-42 take the integer default; numpy and
    torch refuse a string. *)
Definition check_seed (v : pyval) : result unit :=
  match v with
  | VInt _ => Ok tt
  | _ => Raise TypeError
  end.

(** Lines 36-52, with [cuda_available] for [torch.cuda.is_available()]. *)
Definition setup (cli : gmap string string) (cuda_available : bool)
  : result (gmap string pyval) :=
  let* args := parse_args cli in
  let* seed := get_option args "seed" in
  let* _ := check_seed seed in
  let* use_cuda := get_option args "use_cuda" in
  let args := <["use_cuda"%string := py_and use_cuda (VBool cuda_available)]> args in
  let* use_cuda := get_option args "use_cuda" in
  let args :=
    <["device"%string := if truthy use_cuda then VStr "cuda" else VStr "cpu"]> args in
  let* data_seg := get_option args "data_seg" in
  let* sample_rate := get_option args "sample_rate" in
  let* data_len := py_floordiv data_seg sample_rate in
  let args := <["data_len"%string := data_len]> args in
  let args := <["network_feature"%string := VList network_feature]> args in
  let args := <["radio_feature"%string := VList radio_feature]> args in
  let args := <["bs_feature"%string := VList bs_feature]> args in
  let args := <["label"%string := VList ["is_vss"%string]]> args in
  Ok args.

(** The namespace lines 36-52 leave behind, when they raise nothing. *)
Definition configured (cli : gmap string string) (use_cuda data_len : pyval)
  : gmap string pyval :=
  <["label"%string := VList ["is_vss"%string]]>
    (<["bs_feature"%string := VList bs_feature]>
       (<["radio_feature"%string := VList radio_feature]>
          (<["network_feature"%string := VList network_feature]>
             (<["data_len"%string := data_len]>
                (<["device"%string :=
                     if truthy use_cuda then VStr "cuda" else VStr "cpu"]>
                   (<["use_cuda"%string := use_cuda]> (option_values cli))))))).

(** Line 202, [Model(dim_in=args.num_feature)]: the argument is read first. *)
Definition model_dim_in (args : gmap string pyval) : result pyval :=
  get_option args "num_feature".

(* ===================================================================== *)
(** * Part II: properties                                                 *)
(* ===================================================================== *)

(** ** Floating-point facts *)

Example binarize_half : binarize F64.half = 1%Z.
Proof. reflexivity. Qed.

Example binarize_nan : binarize S754_nan = 0%Z.
Proof. reflexivity. Qed.

Example of_int_one : F64.of_int 1 = F64.one.
Proof. vm_compute. reflexivity. Qed.

Example f1_sample :
  F64.geb (f1_of {| tp := 3; tn := 3; fp := 1; fn := 1 |}%Z) F64.half = true.
Proof. vm_compute. reflexivity. Qed.

Lemma binarize_cases (x : float) :
  (F64.geb x F64.half = true /\ binarize x = 1%Z) \/
  (F64.geb x F64.half = false /\ binarize x = 0%Z).
Proof.
  unfold binarize. destruct (F64.geb x F64.half); [left | right]; split; reflexivity.
Qed.

Lemma of_int_binarize (x : float) :
  F64.of_int (binarize x) = (if F64.geb x F64.half then F64.one else F64.zero).
Proof.
  unfold binarize. destruct (F64.geb x F64.half); vm_compute; reflexivity.
Qed.

(** Binarising a stored 0.0 or 1.0 again gives the same integer. *)
Lemma binarize_of_int_binarize (x : float) :
  binarize (F64.of_int (binarize x)) = binarize x.
Proof.
  unfold binarize. destruct (F64.geb x F64.half); vm_compute; reflexivity.
Qed.

(** A zero numerator gives a zero or NaN, whatever the denominator. *)
Lemma div_zero_num (s : bool) (y : float) :
  F64.div (S754_zero s) y = S754_nan \/ exists s', F64.div (S754_zero s) y = S754_zero s'.
Proof.
  destruct y as [sy | sy | | sy my ey]; cbn; eauto.
Qed.

Lemma int_div_zero_num (b : Z) :
  int_div 0 b = S754_nan \/ exists s, int_div 0 b = S754_zero s.
Proof. unfold int_div. change (F64.of_int 0) with (S754_zero false). apply div_zero_num. Qed.

Lemma f1_of_zeros (c : confusion) (s1 s2 : bool) :
  precision_of c = S754_zero s1 -> recall_of c = S754_zero s2 -> f1_of c = S754_nan.
Proof.
  intros Hp Hr. unfold f1_of. rewrite Hp, Hr.
  destruct s1, s2; reflexivity.
Qed.

Lemma f1_of_nan_l (c : confusion) : precision_of c = S754_nan -> f1_of c = S754_nan.
Proof. intros Hp. unfold f1_of. rewrite Hp. reflexivity. Qed.

Lemma f1_of_nan_r (c : confusion) : recall_of c = S754_nan -> f1_of c = S754_nan.
Proof.
  intros Hr. unfold f1_of. rewrite Hr.
  destruct (precision_of c); reflexivity.
Qed.

Lemma f1_of_tp_zero (c : confusion) : tp c = 0%Z -> f1_of c = S754_nan.
Proof.
  intros H.
  destruct (int_div_zero_num (0 + fp c)) as [Hp | [s1 Hp]];
    destruct (int_div_zero_num (0 + fn c)) as [Hr | [s2 Hr]].
  all: try (apply f1_of_nan_l; unfold precision_of; rewrite H; exact Hp).
  - apply f1_of_nan_r. unfold recall_of. rewrite H. exact Hr.
  - apply (f1_of_zeros c s1 s2); [unfold precision_of | unfold recall_of];
      rewrite H; assumption.
Qed.

(** ** Counting with masks *)

Lemma np_sum_mask_cons {A} (p : A -> bool) (x : A) (m : bool) (a : list A)
  (mask : list bool) :
  np_sum (map p (mask_select (x :: a) (m :: mask)))
  = ((if m then Z.b2z (p x) else 0) + np_sum (map p (mask_select a mask)))%Z.
Proof. unfold mask_select. destruct m; reflexivity. Qed.



Lemma binz_binary (x : float) : binz x = F64.zero \/ binz x = F64.one.
Proof.
  unfold binz. rewrite of_int_binarize.
  destruct (F64.geb x F64.half); auto.
Qed.

Lemma combine_map2 {A B C D} (f : A -> C) (g : B -> D) (a : list A) (b : list B) :
  combine (map f a) (map g b) = map (fun p => (f (fst p), g (snd p))) (combine a b).
Proof.
  revert b. induction a as [| x a IH]; intros [| y b]; cbn; try reflexivity.
  now rewrite IH.
Qed.

Lemma combine_fst_snd {A B} (l : list (A * B)) :
  combine (map fst l) (map snd l) = l.
Proof. induction l as [| [x y] l IH]; cbn; [reflexivity | now rewrite IH]. Qed.

(** The rows a batch contributes, from its outputs and raw labels. *)
Lemma np_c_binarize (out label : list float) :
  length out = length label ->
  np_c (map binarize out) (map binarize label)
  = Ok (map row_of (combine out label)).
Proof.
  intros Hlen. unfold np_c.
  rewrite !length_map, Hlen, Nat.eqb_refl.
  rewrite !map_map. f_equal. apply (combine_map2 binz binz).
Qed.

Lemma row_of_binary (oy : float * float) : binary_row (row_of oy).
Proof. split; apply binz_binary. Qed.


(** ** Batching *)

Lemma batches_of_concat {A} (n : nat) (l : list A) :
  0 < n -> forall fuel, length l <= fuel -> concat (batches_of fuel n l) = l.
Proof.
  intros Hn fuel. revert l.
  induction fuel as [| fuel IH]; intros l Hl.
  - destruct l; [reflexivity | cbn in Hl; lia].
  - destruct l as [| x l]; [reflexivity |].
    cbn [batches_of concat].
    rewrite IH.
    + apply firstn_skipn.
    + rewrite length_skipn. cbn [length] in *. lia.
Qed.

(** ** The loops over batches *)

Section Loops.
Context {Input Params : Type}.
Context (forward : Params -> Input -> float).
Context (bce_loss : list float -> list float -> float).
Context (optim_step : Params -> list Input -> list float -> Params).

Lemma combine_scored (p : Params) (b : list (Input * float)) :
  combine (map (forward p) (map fst b)) (map snd b) = scored forward p b.
Proof.
  unfold scored. induction b as [| [x y] b IH]; cbn; [reflexivity | now rewrite IH].
Qed.

Lemma train_batch_collate (b : list (Input * float)) (st : loop_state Params) :
  exists st',
    train_batch true forward bce_loss optim_step (collate b) st = Ok st' /\
    ls_results st' = ls_results st ++ map row_of (scored forward (ls_params st) b) /\
    ls_out st' <> None.
Proof.
  unfold train_batch, collate, as_input, as_label, bce, loss_scalar. cbn [rbind].
  rewrite !length_map, Nat.eqb_refl. cbn [rbind].
  rewrite np_c_binarize by now rewrite !length_map.
  cbn [rbind]. rewrite combine_scored.
  eexists. split; [reflexivity |]. cbn. split; [reflexivity | discriminate].
Qed.

Lemma dev_batch_collate (b : list (Input * float)) (st : loop_state Params) :
  exists st',
    dev_batch true forward bce_loss (collate b) st = Ok st' /\
    ls_params st' = ls_params st /\
    ls_results st' = ls_results st ++ map row_of (scored forward (ls_params st) b) /\
    ls_out st' <> None.
Proof.
  unfold dev_batch, collate, as_input, as_label, bce, loss_scalar. cbn [rbind].
  rewrite !length_map, Nat.eqb_refl. cbn [rbind].
  rewrite np_c_binarize by now rewrite !length_map.
  cbn [rbind]. rewrite combine_scored.
  eexists. split; [reflexivity |]. cbn. repeat split; discriminate.
Qed.

(** The DataLoader yields two tensors and the test loop unpacks three. *)
Lemma test_batch_collate (use_cuda : bool) (b : list (Input * float))
  (st : loop_state Params) :
  test_batch use_cuda bce_loss (collate b) st = Raise ValueError.
Proof. reflexivity. Qed.

(** Without the accelerator the first batch of either loop stops at the
    line that records the loss. *)
Lemma train_batch_no_cuda (b : list (Input * float)) (st : loop_state Params) :
  train_batch false forward bce_loss optim_step (collate b) st = Raise IndexError.
Proof.
  unfold train_batch, collate, as_input, as_label, bce, loss_scalar. cbn [rbind].
  rewrite !length_map, Nat.eqb_refl. reflexivity.
Qed.

Lemma dev_batch_no_cuda (b : list (Input * float)) (st : loop_state Params) :
  dev_batch false forward bce_loss (collate b) st = Raise IndexError.
Proof.
  unfold dev_batch, collate, as_input, as_label, bce, loss_scalar. cbn [rbind].
  rewrite !length_map, Nat.eqb_refl. reflexivity.
Qed.

(** The training loop over collated batches, with the accelerator: it
    completes, and [results] grows by one binarised row per example, in
    order. *)
Lemma train_loop_collated (bs : list (list (Input * float))) :
  forall st : loop_state Params,
  exists tr oys,
    for_each (map collate bs) (train_batch true forward bce_loss optim_step) st = Ok tr /\
    ls_results tr = ls_results st ++ map row_of oys /\
    map snd oys = map snd (concat bs) /\
    Forall2 (fun oy e => exists p, fst oy = forward p (fst e)) oys (concat bs) /\
    (bs = [] -> tr = st) /\
    (bs <> [] -> ls_out tr <> None).
Proof.
  induction bs as [| b bs IH]; intros st.
  - exists st, []. cbn. rewrite app_nil_r. repeat split; auto; congruence.
  - destruct (train_batch_collate b st) as (st1 & H1 & Hres & Hout).
    destruct (IH st1) as (tr & oys & Hrun & Hres' & Hlab & Hfw & Hnil & Hne).
    exists tr, (scored forward (ls_params st) b ++ oys).
    cbn [map for_each]. rewrite H1. cbn [rbind].
    split; [exact Hrun |].
    split; [rewrite Hres', Hres, map_app, app_assoc; reflexivity |].
    split.
    { cbn [concat]. rewrite !map_app, Hlab. f_equal.
      unfold scored. rewrite map_map. reflexivity. }
    split.
    { cbn [concat]. apply Forall2_app; [| exact Hfw].
      unfold scored. clear. induction b as [| e b IHb]; cbn; constructor; eauto. }
    split; [discriminate |].
    intros _. destruct bs as [| b' bs].
    + rewrite (Hnil eq_refl). exact Hout.
    + apply Hne. discriminate.
Qed.

(** The development loop: the parameters stay, and the rows are those of
    the model outputs under these parameters. *)
Lemma dev_loop_collated (bs : list (list (Input * float))) :
  forall st : loop_state Params,
  exists dv,
    for_each (map collate bs) (dev_batch true forward bce_loss) st = Ok dv /\
    ls_params dv = ls_params st /\
    ls_results dv = ls_results st ++ map row_of (scored forward (ls_params st) (concat bs)) /\
    (bs = [] -> dv = st) /\
    (bs <> [] -> ls_out dv <> None).
Proof.
  induction bs as [| b bs IH]; intros st.
  - exists st. cbn. rewrite app_nil_r. repeat split; auto; congruence.
  - destruct (dev_batch_collate b st) as (st1 & H1 & Hp & Hres & Hout).
    destruct (IH st1) as (dv & Hrun & Hp' & Hres' & Hnil & Hne).
    exists dv. cbn [map for_each]. rewrite H1. cbn [rbind].
    split; [exact Hrun |].
    split; [congruence |].
    split.
    { rewrite Hres', Hres, Hp. cbn [concat]. unfold scored.
      rewrite !map_app, app_assoc. reflexivity. }
    split; [discriminate |].
    intros _. destruct bs as [| b' bs].
    + rewrite (Hnil eq_refl). exact Hout.
    + apply Hne. discriminate.
Qed.
End Loops.

(** ** The confusion matrix *)



(** ** Degenerate metrics *)

Example degenerate_split :
  let c := confusion_eval [(F64.one, F64.zero); (F64.zero, F64.one); (F64.zero, F64.zero)] in
  c = {| tp := 0; tn := 1; fp := 1; fn := 1 |}%Z.
Proof. vm_compute. reflexivity. Qed.

(** C7, as stated, fails: a split with one false positive and one false
    negative has precision 0 and recall 0, and its F1 is NaN, not 0. *)
Lemma C7_counterexample :
  let c := confusion_eval [(F64.one, F64.zero); (F64.zero, F64.one); (F64.zero, F64.zero)] in
  precision_of c = F64.zero /\ recall_of c = F64.zero /\
  f1_of c = S754_nan /\ F64.eqb (f1_of c) F64.zero = false.
Proof. vm_compute. repeat split; reflexivity. Qed.

(** ** Binarisation *)

Lemma binarize_iff (x : float) :
  (binarize x = 1%Z <-> F64.geb x F64.half = true) /\
  (binarize x = 0%Z <-> F64.geb x F64.half = false).
Proof.
  unfold binarize. destruct (F64.geb x F64.half); cbn;
    repeat split; intros; try reflexivity; discriminate.
Qed.

(** ** The threshold 0.5 on the real line *)

Lemma digits2_pos_bounds (m : positive) :
  (2 ^ (Zpos (digits2_pos m) - 1) <= Zpos m < 2 ^ Zpos (digits2_pos m))%Z.
Proof.
  induction m as [p IH | p IH |]; cbn [digits2_pos].
  - rewrite Pos2Z.inj_succ.
    replace (Z.succ (Zpos (digits2_pos p)) - 1)%Z with (Z.succ (Zpos (digits2_pos p) - 1))%Z by lia.
    rewrite !Z.pow_succ_r by lia. lia.
  - rewrite Pos2Z.inj_succ.
    replace (Z.succ (Zpos (digits2_pos p)) - 1)%Z with (Z.succ (Zpos (digits2_pos p) - 1))%Z by lia.
    rewrite !Z.pow_succ_r by lia. lia.
  - cbn. lia.
Qed.

Lemma powerRZ_2_pos (e : Z) : (0 < powerRZ 2 e)%R.
Proof. apply powerRZ_lt. lra. Qed.

(** For a negative exponent, [m * 2^e >= 1/2] is [m >= 2^(-1-e)]. *)
Lemma half_le_scaled (m : positive) (e : Z) :
  (e <= -1)%Z ->
  (1 / 2 <= IZR (Zpos m) * powerRZ 2 e)%R <-> (2 ^ (-1 - e) <= Zpos m)%Z.
Proof.
  intros He.
  assert (Hpow : powerRZ 2 (-1 - e) = IZR (2 ^ (-1 - e))).
  { rewrite <- (Z2Nat.id (-1 - e)) by lia. rewrite <- pow_powerRZ.
    rewrite <- (pow_IZR 2). reflexivity. }
  assert (Hsplit : (powerRZ 2 e * powerRZ 2 (-1 - e) = 1 / 2)%R).
  { rewrite <- powerRZ_add by lra. replace (e + (-1 - e))%Z with (-1)%Z by lia.
    unfold powerRZ. simpl. lra. }
  pose proof (powerRZ_2_pos e) as He0.
  pose proof (powerRZ_2_pos (-1 - e)) as Hk0.
  split.
  - intros H. apply le_IZR. rewrite <- Hpow.
    apply (Rmult_le_reg_l (powerRZ 2 e)); [exact He0 |].
    rewrite Hsplit. lra.
  - intros H. apply IZR_le in H. rewrite <- Hpow in H.
    apply (Rmult_le_compat_l (powerRZ 2 e)) in H; [| lra].
    rewrite Hsplit in H. lra.
Qed.

Lemma geb_half_real (x : spec_float) :
  valid_binary F64.prec F64.emax x = true -> F64.is_finite x = true ->
  (F64.geb x F64.half = true <-> (1 / 2 <= F2R x)%R).
Proof.
  destruct x as [s | s | | s m e]; cbn [F64.is_finite]; try discriminate; intros Hv _.
  - cbn. split; [discriminate | lra].
  - destruct s.
    + (* negative *)
      cbn [F2R cond_Zopp]. split; [discriminate |].
      intros H. exfalso.
      pose proof (powerRZ_2_pos e).
      assert (IZR (Z.opp (Zpos m)) < 0)%R by (apply IZR_lt; lia).
      assert (IZR (Z.opp (Zpos m)) * powerRZ 2 e < 0)%R.
      { replace 0%R with (0 * powerRZ 2 e)%R by ring.
        apply Rmult_lt_compat_r; assumption. }
      change (- Z.pos m)%Z with (Z.opp (Z.pos m)) in *. lra.
    + cbn [F2R cond_Zopp].
      cbn [valid_binary] in Hv. unfold bounded, canonical_mantissa, fexp, emin in Hv.
      apply andb_prop in Hv. destruct Hv as [Hc _].
      apply Z.eqb_eq in Hc.
      pose proof (digits2_pos_bounds m) as [Hlo Hhi].
      unfold F64.prec, F64.emax in Hc.
      set (d := Zpos (digits2_pos m)) in *.
      assert (Hd : (d <= 53)%Z) by lia.
      assert (Hhi' : (Zpos m < 2 ^ 53)%Z).
      { apply (Z.lt_le_trans _ _ _ Hhi). apply Z.pow_le_mono_r; lia. }
      destruct (Z_le_gt_dec e (-1)) as [He | He].
      * rewrite (half_le_scaled m e He).
        unfold F64.geb, F64.half, SFcompare.
        destruct (Z.compare_spec e (-53)) as [-> | Hlt | Hgt].
        -- replace (2 ^ (-1 - -53))%Z with (Zpos 4503599627370496)
             by (vm_compute; reflexivity).
           clear. generalize (Pos.compare_spec m 4503599627370496).
           unfold Pos.compare.
           intros Hs. destruct Hs as [Hs | Hs | Hs].
           ++ subst m. split; [intros _; apply Z.le_refl | reflexivity].
           ++ split; [discriminate |]. intros Hle. exfalso.
              apply Pos2Z.pos_le_pos in Hle.
              apply Pos.lt_nle in Hs. contradiction.
           ++ split; [| reflexivity]. intros _.
              apply Pos2Z.pos_le_pos. apply Pos.lt_le_incl. exact Hs.
        -- split; [discriminate |]. intros H. exfalso.
           assert (2 ^ 53 <= 2 ^ (-1 - e))%Z by (apply Z.pow_le_mono_r; lia). lia.
        -- split; [| reflexivity]. intros _.
           assert (Hd53 : d = 53%Z) by lia.
           rewrite Hd53 in Hlo.
           assert (2 ^ (-1 - e) <= 2 ^ (53 - 1))%Z by (apply Z.pow_le_mono_r; lia). lia.
      * unfold F64.geb, F64.half, SFcompare.
        destruct (Z.compare_spec e (-53)); try lia.
        split; [| reflexivity]. intros _.
        assert (1 <= IZR (Zpos m))%R by (apply IZR_le; lia).
        assert (1 <= powerRZ 2 e)%R.
        { rewrite <- (Z2Nat.id e) by lia. rewrite <- pow_powerRZ.
          apply pow_R1_Rle. lra. }
        assert (1 * 1 <= IZR (Zpos m) * powerRZ 2 e)%R by (apply Rmult_le_compat; lra).
        lra.
Qed.

Lemma binarize_real (x : float) :
  valid_binary F64.prec F64.emax x = true -> F64.is_finite x = true ->
  (binarize x = 1%Z <-> (1 / 2 <= F2R x)%R).
Proof.
  intros Hv Hf. rewrite <- (geb_half_real x Hv Hf). apply binarize_iff.
Qed.

Lemma test_batch_three {Input Params : Type} (use_cuda : bool)
  (bce_loss : list float -> list float -> float)
  (input feature : component Input) (ys out : list float)
  (st : loop_state Params) :
  ls_out st = Some out ->
  length out = length ys ->
  test_batch use_cuda bce_loss [input; feature; Clabel ys] st
  = if use_cuda then
      Ok (Build_loop_state (ls_params st) (ls_out st)
            (ls_losses st ++ [bce_loss out ys])
            (ls_results st ++ map row_of (combine out ys)))
    else Raise IndexError.
Proof.
  intros Hout Hlen. unfold test_batch, as_label, bce, loss_scalar.
  rewrite Hout. cbn [rbind]. rewrite Hlen, Nat.eqb_refl. cbn [rbind].
  destruct use_cuda; [| reflexivity]. cbn [rbind].
  rewrite np_c_binarize by exact Hlen. reflexivity.
Qed.

(** C9.  In the training, development and test loops every model output
    and every label is replaced by [(v >= 0.5) + 0], which is 1 exactly
    when [v >= 0.5] (so 0.5 itself counts as positive, and NaN as
    negative).  On a machine where [args.use_cuda] holds the loops
    complete and the rows of [results] hold these integers for the outputs
    and for the labels; the second binarisation of the development and
    test paths leaves them as they are.  For a finite binary64 value the
    floating-point comparison is the comparison of the real numbers. *)
Theorem C9_binarization_threshold
  {Input Params : Type} (use_cuda : bool) (forward : Params -> Input -> float)
  (bce_loss : list float -> list float -> float)
  (optim_step : Params -> list Input -> list float -> Params)
  (batch_size : nat) (examples : list (Input * float)) (st : loop_state Params) :
  use_cuda = true ->
  0 < batch_size ->
  ls_results st = [] ->
  (forall x : float,
     (binarize x = 1%Z <-> F64.geb x F64.half = true) /\
     (binarize x = 0%Z <-> F64.geb x F64.half = false)) /\
  binarize F64.half = 1%Z /\
  (exists tr oys,
     for_each (loader_batches batch_size examples)
       (train_batch use_cuda forward bce_loss optim_step) st = Ok tr /\
     Forall2 (fun oy e => (exists p, fst oy = forward p (fst e)) /\ snd oy = snd e)
       oys examples /\
     ls_results tr
     = map (fun oy => (F64.of_int (binarize (fst oy)), F64.of_int (binarize (snd oy)))) oys) /\
  (exists dv,
     for_each (loader_batches batch_size examples)
       (dev_batch use_cuda forward bce_loss) st = Ok dv /\
     ls_results dv
     = map (fun e => (F64.of_int (binarize (forward (ls_params st) (fst e))),
                      F64.of_int (binarize (snd e)))) examples) /\
  (forall (input feature : component Input) (ys out : list float)
          (st' : loop_state Params),
     ls_out st' = Some out -> length out = length ys ->
     exists te,
       test_batch use_cuda bce_loss [input; feature; Clabel ys] st' = Ok te /\
       ls_results te
       = ls_results st'
         ++ map (fun oy => (F64.of_int (binarize (fst oy)), F64.of_int (binarize (snd oy))))
                (combine out ys)) /\
  (forall v : float, binarize (F64.of_int (binarize v)) = binarize v) /\
  (forall x : float,
     valid_binary F64.prec F64.emax x = true -> F64.is_finite x = true ->
     (binarize x = 1%Z <-> (1 / 2 <= F2R x)%R)).
Proof.
  intros -> Hb Hres.
  pose proof (batches_of_concat batch_size examples Hb (length examples) (Nat.le_refl _))
    as Hcat.
  unfold loader_batches.
  split; [exact binarize_iff |].
  split; [reflexivity |].
  split; [| split; [| split; [| split]]].
  - destruct (train_loop_collated forward bce_loss optim_step
                (batches_of (length examples) batch_size examples) st)
      as (tr & oys & Hrun & Hrows & Hlab & Hfw & _).
    exists tr, oys. split; [exact Hrun |].
    rewrite Hcat in Hlab, Hfw. split.
    + clear - Hlab Hfw. revert Hlab.
      induction Hfw as [| oy e oys es Hoe _ IH]; intros Hlab; constructor.
      * split; [exact Hoe |]. cbn in Hlab. congruence.
      * apply IH. cbn in Hlab. congruence.
    + rewrite Hrows, Hres. reflexivity.
  - destruct (dev_loop_collated forward bce_loss
                (batches_of (length examples) batch_size examples) st)
      as (dv & Hrun & _ & Hrows & _).
    exists dv. split; [exact Hrun |].
    rewrite Hrows, Hres, Hcat. cbn [app]. unfold scored. rewrite map_map. reflexivity.
  - intros input feature ys out st' Hout Hlen.
    eexists.
    split; [apply (test_batch_three true bce_loss input feature ys out st' Hout Hlen) |].
    reflexivity.
  - exact binarize_of_int_binarize.
  - exact binarize_real.
Qed.

Lemma C9_witness :
  true = true /\ 0 < 2 /\
  exists dv,
    for_each (loader_batches 2 toy_dev) (dev_batch true toy_forward toy_loss)
      (Build_loop_state F64.one None [] []) = Ok dv /\
    ls_results dv
    = map (fun e => (F64.of_int (binarize (toy_forward F64.one (fst e))),
                     F64.of_int (binarize (snd e)))) toy_dev.
Proof.
  split; [reflexivity |]. split; [lia |].
  apply (C9_binarization_threshold true toy_forward toy_loss toy_step 2 toy_dev
           (Build_loop_state F64.one None [] [])); [reflexivity | lia | reflexivity].
Defined.

(** ** The test evaluation *)

Lemma for_each_raise {A S} (body : A -> S -> result S) (x : A) (xs : list A)
  (s : S) (e : exn) :
  body x s = Raise e -> for_each (x :: xs) body s = Raise e.
Proof. intros H. cbn. now rewrite H. Qed.

Lemma test_eval_nonempty {np : Numpy} {Input Params : Type} (use_cuda : bool)
  (bce_loss : list float -> list float -> float) (batch_size : nat)
  (test_set : list (Input * float)) (st : run_state Params) :
  test_set <> [] ->
  test_eval use_cuda bce_loss batch_size test_set st
  = match checkpoint st with
    | Some _ => Raise ValueError
    | None => Raise FileNotFoundError
    end.
Proof.
  intros Hne. unfold test_eval.
  destruct (checkpoint st) as [p |]; [| reflexivity].
  cbn [rbind]. destruct test_set as [| x l]; [congruence |].
  unfold loader_batches. cbn [length batches_of map].
  rewrite (for_each_raise _ _ _ _ ValueError); [reflexivity |].
  apply test_batch_collate.
Qed.

(** C1 (the code at the failing input).  With a test split that is not
    empty the test loop stops at its first batch: the loader yields the two
    tensors [(input, label)] and the loop unpacks three, so a ValueError is
    raised before any loss or metric is computed, and the script ends
    without a test report, on every machine.  The model is not called in
    that loop at all: [test_eval] does not take the network as an
    argument, and a batch of three tensors would be scored with the [out]
    left by the last batch seen before the loop (where [args.use_cuda]
    holds; line 309 raises IndexError where it does not). *)
Theorem C1_test_loop_raises_before_any_metric
  {np : Numpy} {Input Params : Type} (use_cuda : bool)
  (forward : Params -> Input -> float)
  (bce_loss : list float -> list float -> float)
  (optim_step : Params -> list Input -> list float -> Params)
  (scheduler_step : Params -> Params)
  (shuffle : nat -> list (Input * float) -> list (Input * float))
  (batch_size : nat) (train_set dev_set test_set : list (Input * float))
  (epoch_num : nat) (p0 : Params) (file : option Params) :
  test_set <> [] ->
  (forall (st : run_state Params) (p : Params),
     checkpoint st = Some p ->
     test_eval use_cuda bce_loss batch_size test_set st = Raise ValueError) /\
  (exists e,
     run use_cuda forward bce_loss optim_step scheduler_step shuffle batch_size
       train_set dev_set test_set epoch_num p0 file = Raise e) /\
  (forall (input feature : component Input) (ys out : list float)
          (st : loop_state Params),
     ls_out st = Some out -> length out = length ys ->
     test_batch use_cuda bce_loss [input; feature; Clabel ys] st
     = if use_cuda then
         Ok (Build_loop_state (ls_params st) (ls_out st)
               (ls_losses st ++ [bce_loss out ys])
               (ls_results st ++ map row_of (combine out ys)))
       else Raise IndexError).
Proof.
  intros Hne. split; [| split].
  - intros st p Hck. rewrite test_eval_nonempty by exact Hne. now rewrite Hck.
  - unfold run. destruct (batch_size =? 0); [eauto |].
    destruct train_set as [| x l]; [eauto |].
    destruct (training_loop _ _ _ _ _ _ _ _ _ _ _) as [st | e]; cbn [rbind]; [| eauto].
    rewrite test_eval_nonempty by exact Hne.
    destruct (checkpoint st); cbn [rbind]; eauto.
  - intros. now apply test_batch_three.
Qed.

Example toy_run_raises :
  run (np := toy_numpy) true toy_forward toy_loss toy_step toy_scheduler toy_shuffle 2
    toy_train toy_dev toy_test 3 F64.one None = Raise ValueError.
Proof. vm_compute. reflexivity. Qed.

Lemma C1_witness :
  toy_test <> [] /\
  exists e,
    run (np := toy_numpy) true toy_forward toy_loss toy_step toy_scheduler toy_shuffle 2
      toy_train toy_dev toy_test 3 F64.one None = Raise e.
Proof.
  split; [discriminate |].
  apply (C1_test_loop_raises_before_any_metric (np := toy_numpy) true toy_forward
           toy_loss toy_step toy_scheduler toy_shuffle 2 toy_train toy_dev toy_test 3
           F64.one None).
  discriminate.
Defined.

(** ** Order and sign of binary64 values *)

Ltac cmp_cases :=
  repeat match goal with
  | |- context [Pos.compare_cont Eq ?a ?b] =>
      change (Pos.compare_cont Eq a b) with (Pos.compare a b);
      destruct (Pos.compare_spec a b)
  | |- context [Z.compare ?a ?b] => destruct (Z.compare_spec a b)
  end.

Lemma leb_trans (x y z : float) :
  F64.leb x y = true -> F64.leb y z = true -> F64.leb x z = true.
Proof.
  unfold F64.leb, SFleb, SFcompare.
  destruct x as [sx | sx | | sx mx ex]; destruct y as [sy | sy | | sy my ey];
    destruct z as [sz | sz | | sz mz ez];
    try destruct sx; try destruct sy; try destruct sz;
    try (intros; (reflexivity || discriminate)).
  all: cmp_cases; cbn; intros; try reflexivity; try discriminate; subst; try lia.
Qed.

Lemma leb_total (x y : float) :
  F64.is_nan x = false -> F64.is_nan y = false ->
  F64.leb x y = false -> F64.leb y x = true.
Proof.
  unfold F64.leb, SFleb, SFcompare, F64.is_nan.
  destruct x as [sx | sx | | sx mx ex]; destruct y as [sy | sy | | sy my ey];
    try destruct sx; try destruct sy;
    try (intros; (reflexivity || discriminate)).
  all: cmp_cases; cbn; intros; try reflexivity; try discriminate; subst; try lia.
Qed.

Lemma leb_refl (x : float) : F64.is_nan x = false -> F64.leb x x = true.
Proof.
  unfold F64.leb, SFleb, SFcompare, F64.is_nan.
  destruct x as [sx | sx | | sx mx ex]; try destruct sx;
    intros; try reflexivity; try discriminate.
  all: rewrite Z.compare_refl;
    change (Pos.compare_cont Eq mx mx) with (Pos.compare mx mx);
    rewrite Pos.compare_refl; reflexivity.
Qed.

Lemma leb_not_nan (x y : float) :
  F64.leb x y = true -> F64.is_nan x = false /\ F64.is_nan y = false.
Proof.
  destruct x, y; cbn; intros; split; try reflexivity; discriminate.
Qed.

Lemma binary_round_aux_nonneg (prec emax m e : Z) (l : location) :
  nonneg_or_nan (binary_round_aux prec emax false m e l).
Proof.
  unfold binary_round_aux.
  destruct (shr_fexp prec emax m e l) as [mrs' e'].
  destruct (shr_fexp prec emax _ e' loc_Exact) as [mrs'' e''].
  destruct (shr_m mrs''); cbn; auto.
  destruct (Z.leb _ _); reflexivity.
Qed.

Lemma binary_normalize_nonneg (prec emax m e : Z) :
  (0 <= m)%Z -> nonneg_or_nan (binary_normalize prec emax m e false).
Proof.
  intros Hm. destruct m as [| p | p]; cbn; auto; [| lia].
  unfold binary_round. destruct (shl_align _ _ _) as [mz ez].
  apply binary_round_aux_nonneg.
Qed.

Lemma of_int_nonneg (z : Z) : (0 <= z)%Z -> nonneg_or_nan (F64.of_int z).
Proof. apply binary_normalize_nonneg. Qed.

Lemma div_nonneg (x y : float) :
  nonneg_or_nan x -> nonneg_or_nan y -> nonneg_or_nan (F64.div x y).
Proof.
  unfold F64.div.
  destruct x as [sx | sx | | sx mx ex]; destruct y as [sy | sy | | sy my ey];
    cbn; intros Hx Hy; subst; auto.
  destruct (SFdiv_core_binary F64.prec F64.emax (Zpos mx) ex (Zpos my) ey)
    as [[mz ez] lz].
  apply binary_round_aux_nonneg.
Qed.

Lemma mul_nonneg (x y : float) :
  nonneg_or_nan x -> nonneg_or_nan y -> nonneg_or_nan (F64.mul x y).
Proof.
  unfold F64.mul.
  destruct x as [sx | sx | | sx mx ex]; destruct y as [sy | sy | | sy my ey];
    cbn; intros Hx Hy; subst; auto.
  apply binary_round_aux_nonneg.
Qed.

Lemma add_nonneg (x y : float) :
  nonneg_or_nan x -> nonneg_or_nan y -> nonneg_or_nan (F64.add x y).
Proof.
  unfold F64.add.
  destruct x as [sx | sx | | sx mx ex]; destruct y as [sy | sy | | sy my ey];
    cbn; intros Hx Hy; subst; auto.
  all: try reflexivity.
  apply binary_normalize_nonneg.
  cbn [cond_Zopp]. apply Z.add_nonneg_nonneg; apply Pos2Z.is_nonneg.
Qed.

Lemma leb_zero_nonneg (x : float) :
  nonneg_or_nan x -> F64.is_nan x = false -> F64.leb (F64.of_int 0) x = true.
Proof.
  destruct x as [sx | sx | | sx mx ex]; cbn; intros Hx Hn; subst;
    try reflexivity; discriminate.
Qed.

Lemma np_sum_nonneg (bs : list bool) : (0 <= np_sum bs)%Z.
Proof.
  induction bs as [| b bs IH]; [reflexivity |].
  change (np_sum (b :: bs)) with (Z.b2z b + np_sum bs)%Z.
  destruct b; cbn [Z.b2z]; lia.
Qed.

Lemma f1_nonneg (c : confusion) :
  (0 <= tp c)%Z -> (0 <= fp c)%Z -> (0 <= fn c)%Z -> nonneg_or_nan (f1_of c).
Proof.
  intros Ht Hp Hn. unfold f1_of, precision_of, recall_of, int_div.
  apply div_nonneg; [apply mul_nonneg; [reflexivity | apply mul_nonneg] | apply add_nonneg];
    apply div_nonneg; apply of_int_nonneg; lia.
Qed.

Lemma f1_eval_nonneg (results : list row) :
  nonneg_or_nan (f1_of (confusion_eval results)).
Proof. apply f1_nonneg; apply np_sum_nonneg. Qed.

(** ** Checkpoint selection *)

Section Selection.
Context {np : Numpy}.
Context {Input Params : Type}.
Context (forward : Params -> Input -> float).
Context (bce_loss : list float -> list float -> float).
Context (optim_step : Params -> list Input -> list float -> Params).
Context (scheduler_step : Params -> Params).
Context (shuffle : nat -> list (Input * float) -> list (Input * float)).
Context (batch_size : nat).
Context (train_set dev_set : list (Input * float)).

Local Abbreviation epoch' :=
  (epoch true forward bce_loss optim_step scheduler_step shuffle batch_size train_set dev_set).

(** An epoch whose training loader is not empty completes; its
    development F1 has a clear sign bit or is NaN; and the module-level
    variables are updated exactly when [max_f1 <= f1] holds. *)
Lemma epoch_outcome (step : nat) (st : run_state Params) :
  shuffle step train_set <> [] ->
  exists s',
    epoch' step st = Ok s' /\
    nonneg_or_nan (dev_f1 s') /\
    (F64.leb (max_f1 st) (dev_f1 s') = true ->
       max_f1 s' = dev_f1 s' /\ max_f1_acc s' = dev_acc s' /\
       best_epoch s' = Z.of_nat step /\ checkpoint s' = Some (params s')) /\
    (F64.leb (max_f1 st) (dev_f1 s') = false ->
       max_f1 s' = max_f1 st /\ max_f1_acc s' = max_f1_acc st /\
       best_epoch s' = best_epoch st /\ checkpoint s' = checkpoint st).
Proof.
  intros Hne. unfold epoch.
  set (st0 := Build_loop_state (params st) (out_var st) [] []).
  destruct (train_loop_collated forward bce_loss optim_step
              (batches_of (length (shuffle step train_set)) batch_size
                 (shuffle step train_set)) st0)
    as (tr & oys & Hrun & _ & _ & _ & _ & Hout).
  fold (loader_batches batch_size (shuffle step train_set)) in Hrun, Hout.
  rewrite Hrun. cbn [rbind].
  destruct (ls_out tr) as [o |] eqn:Ho.
  2:{ exfalso. apply Hout; [| reflexivity].
      destruct (shuffle step train_set); [congruence | discriminate]. }
  cbn [rbind].
  set (st1 := Build_loop_state (scheduler_step (ls_params tr)) (Some o) [] []).
  destruct (dev_loop_collated forward bce_loss
              (batches_of (length dev_set) batch_size dev_set) st1)
    as (dv & Hdev & _).
  fold (loader_batches batch_size dev_set) in Hdev.
  rewrite Hdev. cbn [rbind].
  destruct (F64.leb (max_f1 st) (f1_of (confusion_eval (ls_results dv)))) eqn:Hle;
    eexists; (split; [reflexivity |]);
    unfold dev_f1, dev_acc; cbn [log max_f1 max_f1_acc best_epoch checkpoint params];
    rewrite !last_last; cbn [snd report_of r_f1 r_acc];
    (split; [apply f1_eval_nonneg |]); rewrite Hle; split; intros H;
    try discriminate; repeat split.
Qed.

(** The successive states of the loop of line 210. *)
Lemma training_chain :
  (forall k, shuffle k train_set <> []) ->
  forall (n a : nat) (s : run_state Params),
  exists sts : nat -> run_state Params,
    sts 0 = s /\
    for_each (seq a n) epoch' s = Ok (sts n) /\
    (forall i, i < n -> epoch' (a + i) (sts i) = Ok (sts (S i))).
Proof.
  intros Hsh n. induction n as [| n IH]; intros a s.
  - exists (fun _ => s). repeat split. intros i Hi. lia.
  - destruct (epoch_outcome a s (Hsh a)) as (s1 & H1 & _).
    destruct (IH (S a) s1) as (sts & H0 & Hrun & Hstep).
    exists (fun i => match i with 0 => s | S j => sts j end).
    split; [reflexivity |]. split.
    + cbn [seq for_each]. rewrite H1. exact Hrun.
    + intros [| i] Hi.
      * rewrite Nat.add_0_r, H0. exact H1.
      * replace (a + S i) with (S a + i) by lia. apply Hstep. lia.
Qed.
End Selection.

(** ** Degenerate metrics in the loops *)

Lemma test_eval_empty {np : Numpy} {Input Params : Type} (use_cuda : bool)
  (bce_loss : list float -> list float -> float) (batch_size : nat)
  (st : run_state Params) (p : Params) :
  checkpoint st = Some p ->
  exists rep,
    test_eval (Input := Input) use_cuda bce_loss batch_size [] st = Ok (rep, []) /\
    t_precision rep = S754_nan /\ t_recall rep = S754_nan /\ t_f1 rep = S754_nan.
Proof.
  intros Hck. unfold test_eval. rewrite Hck. cbn [rbind].
  eexists. split; [reflexivity |]. repeat split.
Qed.

(** C7 (amended).  The metric computation raises nothing: on a machine
    where [args.use_cuda] holds, with a positive batch size, an epoch
    completes whatever its confusion counts are, and on every machine so
    does the test report of an empty split.  But there is no guard either:
    with no true positive and no false positive the precision is NaN, with
    no true positive and no false negative the recall is NaN, and the F1
    is NaN whenever there is no true positive, and whenever precision and
    recall are both zero. *)
Theorem C7_degenerate_metrics_are_nan
  {np : Numpy} {Input Params : Type} (use_cuda : bool)
  (forward : Params -> Input -> float)
  (bce_loss : list float -> list float -> float)
  (optim_step : Params -> list Input -> list float -> Params)
  (scheduler_step : Params -> Params)
  (shuffle : nat -> list (Input * float) -> list (Input * float))
  (batch_size : nat) (train_set dev_set : list (Input * float))
  (step : nat) (st : run_state Params) :
  use_cuda = true ->
  0 < batch_size ->
  shuffle step train_set <> [] ->
  (exists s',
     epoch use_cuda forward bce_loss optim_step scheduler_step shuffle batch_size
       train_set dev_set step st = Ok s') /\
  (forall (cuda : bool) p, checkpoint st = Some p ->
     exists rep,
       test_eval (Input := Input) cuda bce_loss batch_size [] st = Ok (rep, []) /\
       t_f1 rep = S754_nan) /\
  (forall c : confusion,
     (tp c = 0%Z -> fp c = 0%Z -> precision_of c = S754_nan) /\
     (tp c = 0%Z -> fn c = 0%Z -> recall_of c = S754_nan) /\
     (tp c = 0%Z -> f1_of c = S754_nan) /\
     (forall s1 s2 : bool,
        precision_of c = S754_zero s1 -> recall_of c = S754_zero s2 ->
        f1_of c = S754_nan)).
Proof.
  intros -> _ Hsh. split; [| split].
  - destruct (epoch_outcome forward bce_loss optim_step scheduler_step shuffle
                batch_size train_set dev_set step st Hsh) as (s' & Hs' & _).
    eauto.
  - intros cuda p Hck.
    destruct (test_eval_empty (Input := Input) cuda bce_loss batch_size st p Hck)
      as (rep & Hrep & _ & _ & Hf1).
    eauto.
  - intros c. split; [| split; [| split]].
    + intros Ht Hf. unfold precision_of. rewrite Ht, Hf. reflexivity.
    + intros Ht Hf. unfold recall_of. rewrite Ht, Hf. reflexivity.
    + apply f1_of_tp_zero.
    + apply f1_of_zeros.
Qed.

Lemma C7_witness :
  true = true /\ 0 < 2 /\ toy_shuffle 0 toy_train <> [] /\
  exists s',
    epoch (np := toy_numpy) true toy_forward toy_loss toy_step toy_scheduler toy_shuffle 2
      toy_train toy_dev 0 (initial_state F64.zero None) = Ok s'.
Proof.
  split; [reflexivity |]. split; [lia |]. split; [discriminate |].
  apply (C7_degenerate_metrics_are_nan (np := toy_numpy) true toy_forward toy_loss
           toy_step toy_scheduler toy_shuffle 2 toy_train toy_dev 0
           (initial_state F64.zero None)).
  - reflexivity.
  - lia.
  - discriminate.
Defined.

Section SelectionInvariant.
Context {np : Numpy}.
Context {Input Params : Type}.
Context (forward : Params -> Input -> float).
Context (bce_loss : list float -> list float -> float).
Context (optim_step : Params -> list Input -> list float -> Params).
Context (scheduler_step : Params -> Params).
Context (shuffle : nat -> list (Input * float) -> list (Input * float)).
Context (batch_size : nat).
Context (train_set dev_set : list (Input * float)).
Context (p0 : Params) (file : option Params).
Context (sts : nat -> run_state Params) (epoch_num : nat).

Local Abbreviation epoch' :=
  (epoch true forward bce_loss optim_step scheduler_step shuffle batch_size train_set dev_set).

Hypothesis shuffle_nonempty : forall k, shuffle k train_set <> [].
Hypothesis sts_start : sts 0 = initial_state p0 file.
Hypothesis sts_step : forall i, i < epoch_num -> epoch' i (sts i) = Ok (sts (S i)).

Lemma step_facts (k : nat) :
  k < epoch_num ->
  nonneg_or_nan (dev_f1 (sts (S k))) /\
  (F64.leb (max_f1 (sts k)) (dev_f1 (sts (S k))) = true ->
     max_f1 (sts (S k)) = dev_f1 (sts (S k)) /\
     max_f1_acc (sts (S k)) = dev_acc (sts (S k)) /\
     best_epoch (sts (S k)) = Z.of_nat k /\
     checkpoint (sts (S k)) = Some (params (sts (S k)))) /\
  (F64.leb (max_f1 (sts k)) (dev_f1 (sts (S k))) = false ->
     max_f1 (sts (S k)) = max_f1 (sts k) /\
     max_f1_acc (sts (S k)) = max_f1_acc (sts k) /\
     best_epoch (sts (S k)) = best_epoch (sts k) /\
     checkpoint (sts (S k)) = checkpoint (sts k)).
Proof.
  intros Hk.
  destruct (epoch_outcome forward bce_loss optim_step scheduler_step shuffle
              batch_size train_set dev_set k (sts k) (shuffle_nonempty k))
    as (s' & Hs' & Hfacts).
  rewrite (sts_step k Hk) in Hs'. injection Hs' as <-. exact Hfacts.
Qed.

(** After [k] epochs either no epoch had a defined F1 and the variables are
    the initial ones, or they are those of the last epoch whose F1 is
    maximal among the defined ones. *)
Lemma selection_invariant (k : nat) :
  k <= epoch_num ->
  (best_epoch (sts k) = (-1)%Z /\
   max_f1 (sts k) = F64.of_int 0 /\ max_f1_acc (sts k) = F64.of_int 0 /\
   checkpoint (sts k) = file /\
   forall j, j < k -> F64.is_nan (dev_f1 (sts (S j))) = true)
  \/
  (exists b,
     b < k /\
     best_epoch (sts k) = Z.of_nat b /\
     max_f1 (sts k) = dev_f1 (sts (S b)) /\
     max_f1_acc (sts k) = dev_acc (sts (S b)) /\
     checkpoint (sts k) = Some (params (sts (S b))) /\
     F64.is_nan (dev_f1 (sts (S b))) = false /\
     (forall j, j < k -> F64.is_nan (dev_f1 (sts (S j))) = false ->
        F64.leb (dev_f1 (sts (S j))) (dev_f1 (sts (S b))) = true) /\
     (forall j, b < j -> j < k ->
        F64.leb (dev_f1 (sts (S b))) (dev_f1 (sts (S j))) = false)).
Proof.
  induction k as [| k IH]; intros Hk.
  - left. rewrite sts_start. cbn. repeat split. intros j Hj. lia.
  - assert (Hk' : k < epoch_num) by lia.
    destruct (step_facts k Hk') as (Hnn & Htrue & Hfalse).
    specialize (IH ltac:(lia)).
    destruct (F64.leb (max_f1 (sts k)) (dev_f1 (sts (S k)))) eqn:Hle.
    + destruct (Htrue eq_refl) as (Hm & Ha & Hb & Hc).
      destruct (leb_not_nan _ _ Hle) as [_ Hdef].
      right. exists k. repeat split; auto.
      * intros j Hj Hjdef. destruct (Nat.eq_dec j k) as [-> | Hjk].
        { now apply leb_refl. }
        destruct IH as [(_ & _ & _ & _ & Hnan) | (b & Hb' & _ & Hmax & _ & _ & _ & Hall & _)].
        { rewrite Hnan in Hjdef by lia. discriminate. }
        apply (leb_trans _ (dev_f1 (sts (S b)))).
        { apply Hall; [lia | exact Hjdef]. }
        { rewrite <- Hmax. exact Hle. }
      * intros j Hj1 Hj2. lia.
    + destruct (Hfalse eq_refl) as (Hm & Ha & Hb & Hc).
      destruct IH as [(Hbe & Hmax & Hacc & Hck & Hnan)
                     | (b & Hb' & Hbe & Hmax & Hacc & Hck & Hdef & Hall & Hlater)].
      * left. repeat split; try congruence.
        intros j Hj. destruct (Nat.eq_dec j k) as [-> | Hjk]; [| apply Hnan; lia].
        destruct (F64.is_nan (dev_f1 (sts (S k)))) eqn:Hn; [reflexivity |].
        rewrite Hmax, (leb_zero_nonneg _ Hnn Hn) in Hle. discriminate.
      * right. exists b. repeat split; try congruence; [lia | |].
        { intros j Hj Hjdef. destruct (Nat.eq_dec j k) as [-> | Hjk];
            [| apply Hall; [lia | exact Hjdef]].
          apply leb_total; auto. rewrite <- Hmax. exact Hle. }
        { intros j Hj1 Hj2. destruct (Nat.eq_dec j k) as [-> | Hjk];
            [| apply Hlater; lia].
          rewrite <- Hmax. exact Hle. }
Qed.
End SelectionInvariant.

Example toy_selection :
  exists st,
    training_loop (np := toy_numpy) true toy_forward toy_loss toy_step toy_scheduler toy_shuffle 2
      toy_train toy_dev 3 (initial_state toy_w0 None) = Ok st /\
    best_epoch st = 2%Z /\ checkpoint st = Some (params st) /\
    map (fun e => r_f1 (snd e)) (log st) = [S754_nan; F64.one; F64.one].
Proof. eexists. split; [vm_compute; reflexivity |]. vm_compute. repeat split. Qed.

(** C5, as stated, fails: a model that never predicts the positive class
    has an undefined (NaN) development F1 in every epoch; the comparison
    [max_f1 <= f1] is then false each time, nothing is persisted, and the
    run reports epoch -1 with F1 0 and accuracy 0, which belongs to no
    epoch. *)
Lemma C5_counterexample :
  exists st,
    training_loop (np := toy_numpy) true toy_forward toy_loss toy_step toy_scheduler toy_shuffle 2
      toy_train toy_dev 2 (initial_state F64.zero None) = Ok st /\
    map (fun e => (r_f1 (snd e), r_acc (snd e))) (log st)
    = [(S754_nan, F64.half); (S754_nan, F64.half)] /\
    best_epoch st = (-1)%Z /\ max_f1 st = F64.zero /\ max_f1_acc st = F64.zero /\
    checkpoint st = None.
Proof. eexists. split; [vm_compute; reflexivity |]. vm_compute. repeat split. Qed.

(** C5 (amended).  On a machine where [args.use_cuda] holds, with a
    positive batch size, every epoch of a run completes (the training
    loader being non-empty), and after each one the parameters are persisted, and
    (epoch, F1, accuracy) recorded, exactly when [max_f1 <= f1] holds for
    that epoch's development F1, so a tie goes to the later epoch and an
    epoch whose F1 is NaN never persists.  If at least one epoch has a
    defined development F1, the triple at run end is that of the last
    epoch whose F1 is maximal among the defined ones, and the checkpoint
    holds the parameters of that epoch.  If no epoch has one, nothing is
    persisted and the triple is still (-1, 0, 0). *)
Theorem C5_checkpoint_selection
  {np : Numpy} {Input Params : Type} (use_cuda : bool)
  (forward : Params -> Input -> float)
  (bce_loss : list float -> list float -> float)
  (optim_step : Params -> list Input -> list float -> Params)
  (scheduler_step : Params -> Params)
  (shuffle : nat -> list (Input * float) -> list (Input * float))
  (batch_size : nat) (train_set dev_set : list (Input * float))
  (epoch_num : nat) (p0 : Params) (file : option Params) :
  use_cuda = true ->
  0 < batch_size ->
  (forall k, shuffle k train_set <> []) ->
  exists sts : nat -> run_state Params,
    sts 0 = initial_state p0 file /\
    training_loop use_cuda forward bce_loss optim_step scheduler_step shuffle
      batch_size train_set dev_set epoch_num (initial_state p0 file)
    = Ok (sts epoch_num) /\
    (forall k, k < epoch_num ->
       epoch use_cuda forward bce_loss optim_step scheduler_step shuffle batch_size
         train_set dev_set k (sts k) = Ok (sts (S k)) /\
       if F64.leb (max_f1 (sts k)) (dev_f1 (sts (S k))) then
         checkpoint (sts (S k)) = Some (params (sts (S k))) /\
         best_epoch (sts (S k)) = Z.of_nat k /\
         max_f1 (sts (S k)) = dev_f1 (sts (S k)) /\
         max_f1_acc (sts (S k)) = dev_acc (sts (S k))
       else
         checkpoint (sts (S k)) = checkpoint (sts k) /\
         best_epoch (sts (S k)) = best_epoch (sts k) /\
         max_f1 (sts (S k)) = max_f1 (sts k) /\
         max_f1_acc (sts (S k)) = max_f1_acc (sts k)) /\
    ((exists k, k < epoch_num /\ F64.is_nan (dev_f1 (sts (S k))) = false) ->
     exists b,
       b < epoch_num /\
       best_epoch (sts epoch_num) = Z.of_nat b /\
       max_f1 (sts epoch_num) = dev_f1 (sts (S b)) /\
       max_f1_acc (sts epoch_num) = dev_acc (sts (S b)) /\
       checkpoint (sts epoch_num) = Some (params (sts (S b))) /\
       (forall j, j < epoch_num -> F64.is_nan (dev_f1 (sts (S j))) = false ->
          F64.leb (dev_f1 (sts (S j))) (dev_f1 (sts (S b))) = true) /\
       (forall j, b < j -> j < epoch_num ->
          F64.leb (dev_f1 (sts (S b))) (dev_f1 (sts (S j))) = false)) /\
    ((forall k, k < epoch_num -> F64.is_nan (dev_f1 (sts (S k))) = true) ->
     best_epoch (sts epoch_num) = (-1)%Z /\
     max_f1 (sts epoch_num) = F64.of_int 0 /\
     max_f1_acc (sts epoch_num) = F64.of_int 0 /\
     checkpoint (sts epoch_num) = file).
Proof.
  intros -> _ Hsh.
  destruct (training_chain forward bce_loss optim_step scheduler_step shuffle
              batch_size train_set dev_set Hsh epoch_num 0 (initial_state p0 file))
    as (sts & H0 & Hrun & Hstep).
  assert (Hstep' : forall i, i < epoch_num ->
            epoch true forward bce_loss optim_step scheduler_step shuffle batch_size
              train_set dev_set i (sts i) = Ok (sts (S i))).
  { intros i Hi. exact (Hstep i Hi). }
  pose proof (selection_invariant forward bce_loss optim_step scheduler_step
                shuffle batch_size train_set dev_set p0 file sts epoch_num
                Hsh H0 Hstep' epoch_num (Nat.le_refl _)) as Hinv.
  exists sts. split; [exact H0 |]. split; [exact Hrun |]. split; [| split].
  - intros k Hk. split; [exact (Hstep' k Hk) |].
    destruct (step_facts forward bce_loss optim_step scheduler_step shuffle
                batch_size train_set dev_set sts epoch_num Hsh Hstep' k Hk)
      as (_ & Htrue & Hfalse).
    destruct (F64.leb (max_f1 (sts k)) (dev_f1 (sts (S k)))).
    + destruct (Htrue eq_refl) as (? & ? & ? & ?). auto.
    + destruct (Hfalse eq_refl) as (? & ? & ? & ?). auto.
  - intros (k & Hk & Hdef).
    destruct Hinv as [(_ & _ & _ & _ & Hnan) | (b & Hb & Hbe & Hmax & Hacc & Hck & _ & Hall & Hlater)].
    + rewrite Hnan in Hdef by exact Hk. discriminate.
    + exists b. repeat split; auto.
  - intros Hnan.
    destruct Hinv as [(Hbe & Hmax & Hacc & Hck & _) | (b & Hb & _ & _ & _ & _ & Hdef & _)].
    + auto.
    + rewrite Hnan in Hdef by exact Hb. discriminate.
Qed.

Lemma toy_shuffle_nonempty : forall k, toy_shuffle k toy_train <> [].
Proof. intros k. unfold toy_shuffle. destruct (Nat.even k); discriminate. Qed.

Lemma C5_witness :
  true = true /\ 0 < 2 /\
  (forall k, toy_shuffle k toy_train <> []) /\
  exists sts : nat -> run_state float,
    sts 0 = initial_state toy_w0 None /\
    training_loop (np := toy_numpy) true toy_forward toy_loss toy_step toy_scheduler toy_shuffle 2
      toy_train toy_dev 3 (initial_state toy_w0 None) = Ok (sts 3).
Proof.
  split; [reflexivity |]. split; [lia |].
  split; [exact toy_shuffle_nonempty |].
  destruct (C5_checkpoint_selection (np := toy_numpy) true toy_forward toy_loss
              toy_step toy_scheduler toy_shuffle 2 toy_train toy_dev 3 toy_w0 None
              eq_refl ltac:(lia) toy_shuffle_nonempty)
    as (sts & H0 & Hrun & _).
  exists sts. split; [exact H0 | exact Hrun].
Defined.

(** ** Normalisation in SigDataset *)

Lemma flat_ext {A} (v w : array2 A) :
  nrow v = nrow w -> ncol v = ncol w ->
  (forall n t, item2 v n t = item2 w n t) -> flat v = flat w.
Proof.
  intros Hr Hc Hi. unfold flat. rewrite Hr, Hc.
  induction (seq 0 (nrow w)) as [| n ns IH]; cbn; [reflexivity |].
  rewrite IH. f_equal. apply map_ext. intros t. apply Hi.
Qed.

Section DatasetFacts.
Context {np : Numpy}.

Lemma statistics_ext (v w : array2 float) :
  nrow v = nrow w -> ncol v = ncol w ->
  (forall n t, item2 v n t = item2 w n t) ->
  nanmean v = nanmean w /\ nanstd v = nanstd w.
Proof.
  intros Hr Hc Hi. unfold nanstd, nanmean.
  rewrite (flat_ext v w Hr Hc Hi), Hr, Hc. split; reflexivity.
Qed.

Lemma fit_channel_step (X : ndarray3) (args0 args : namespace) (Y : ndarray3) (a : nat) :
  a < shape2 X ->
  stats_upto X args0 args a -> fitted_upto X Y a ->
  exists args' Y',
    fit_channel a (args, Y) = Ok (args', Y') /\
    stats_upto X args0 args' (S a) /\ fitted_upto X Y' (S a).
Proof.
  intros Ha (M & D & HM & HS & HlM & HlS & Hpre & Hother) (H0 & H1 & H2 & Hitem).
  assert (Hstat : nanmean (channel_view Y a) = nanmean (channel_view X a) /\
                  nanstd (channel_view Y a) = nanstd (channel_view X a)).
  { apply statistics_ext; cbn; auto. intros n t. rewrite Hitem.
    now rewrite (proj2 (Nat.ltb_ge a a) (Nat.le_refl a)). }
  destruct Hstat as [Hmean Hstd].
  assert (HaM : (a <? length M) = true) by (apply Nat.ltb_lt; lia).
  assert (HaS : (a <? length D) = true) by (apply Nat.ltb_lt; lia).
  unfold fit_channel. cbn [fst snd]. unfold getattr, setitem, getitem.
  rewrite HM. cbn [rbind]. rewrite HaM. cbn [rbind].
  rewrite lookup_insert_ne by discriminate. rewrite HS. cbn [rbind].
  rewrite HaS. cbn [rbind].
  rewrite lookup_insert_ne by discriminate. rewrite lookup_insert_eq. cbn [rbind].
  rewrite list_lookup_insert_eq by lia. cbn [rbind].
  rewrite lookup_insert_eq. cbn [rbind].
  rewrite list_lookup_insert_eq by lia. cbn [rbind].
  rewrite Hmean, Hstd. fold (mean_of X a). fold (std_of X a).
  eexists _, _. split; [reflexivity |]. split.
  - exists (<[a := mean_of X a]> M), (<[a := std_of X a]> D).
    split; [rewrite lookup_insert_ne by discriminate; apply lookup_insert_eq |].
    split; [apply lookup_insert_eq |].
    split; [now rewrite length_insert |].
    split; [now rewrite length_insert |].
    split.
    + intros i Hi. destruct (Nat.eq_dec i a) as [-> | Hia].
      * rewrite !list_lookup_insert_eq by lia. auto.
      * rewrite !list_lookup_insert_ne by auto. apply Hpre. lia.
    + intros k Hk1 Hk2. rewrite !lookup_insert_ne by auto. now apply Hother.
  - split; [exact H0 |]. split; [exact H1 |]. split; [exact H2 |].
    intros n t i. cbn [item assign_channel normalize_view channel_view item2].
    rewrite !Hitem.
    destruct (Nat.eqb_spec i a) as [-> | Hia];
      destruct (Nat.ltb_spec a a); destruct (Nat.ltb_spec a (S a));
      try destruct (Nat.ltb_spec i a); try destruct (Nat.ltb_spec i (S a));
      try reflexivity; lia.
Qed.

Lemma fit_loop (X : ndarray3) (args0 : namespace) :
  forall (n a : nat) (args : namespace) (Y : ndarray3),
  a + n = shape2 X ->
  stats_upto X args0 args a -> fitted_upto X Y a ->
  exists args' Y',
    for_each (seq a n) fit_channel (args, Y) = Ok (args', Y') /\
    stats_upto X args0 args' (shape2 X) /\ fitted_upto X Y' (shape2 X).
Proof.
  induction n as [| n IH]; intros a args Y Han Hs Hf.
  - replace (shape2 X) with a by lia. exists args, Y. auto.
  - destruct (fit_channel_step X args0 args Y a ltac:(lia) Hs Hf)
      as (args1 & Y1 & Hstep & Hs1 & Hf1).
    destruct (IH (S a) args1 Y1 ltac:(lia) Hs1 Hf1) as (args' & Y' & Hrun & Hs' & Hf').
    exists args', Y'. cbn [seq for_each]. rewrite Hstep. cbn [rbind]. auto.
Qed.

Lemma lookup_map_seq {A} (f : nat -> A) (n a i : nat) :
  map f (seq a n) !! i = if i <? n then Some (f (a + i)) else None.
Proof.
  revert a i. induction n as [| n IH]; intros a i; [reflexivity |].
  destruct i as [| i]; cbn [seq map].
  - cbn. now rewrite Nat.add_0_r.
  - change ((f a :: map f (seq (S a) n)) !! S i) with (map f (seq (S a) n) !! i).
    rewrite IH. change (S i <? S n) with (i <? n).
    destruct (i <? n); [f_equal; f_equal; lia | reflexivity].
Qed.

Lemma list_eq_map_seq {A} (f : nat -> A) (l : list A) :
  (forall i, i < length l -> l !! i = Some (f i)) -> l = map f (seq 0 (length l)).
Proof.
  intros H. apply list_eq. intros i. rewrite lookup_map_seq.
  destruct (Nat.ltb_spec i (length l)) as [Hi | Hi].
  - now apply H.
  - now apply lookup_ge_None.
Qed.

(** Constructing a training dataset stores the statistics of its own raw
    channels and normalises it with them. *)
Lemma SigDataset_init_training (args : namespace) (X : ndarray3) (label : list float) :
  exists args' d,
    SigDataset_init args X label true = Ok (args', d) /\
    args' !! "train_mean"%string = Some (map (mean_of X) (seq 0 (shape2 X))) /\
    args' !! "train_std"%string = Some (map (std_of X) (seq 0 (shape2 X))) /\
    (forall k : string, k <> "train_mean"%string -> k <> "train_std"%string ->
       args' !! k = args !! k) /\
    normalized_with X X (ds_input d) /\ ds_label d = label.
Proof.
  unfold SigDataset_init.
  destruct (fit_loop X args (shape2 X) 0
              (<["train_std"%string := np_zeros (shape2 X)]>
                 (<["train_mean"%string := np_zeros (shape2 X)]> args)) X eq_refl)
    as (args' & Y' & Hrun & (M & D & HM & HD & HlM & HlD & Hpre & Hother) & Hf).
  { exists (np_zeros (shape2 X)), (np_zeros (shape2 X)).
    split; [rewrite lookup_insert_ne by discriminate; apply lookup_insert_eq |].
    split; [apply lookup_insert_eq |].
    unfold np_zeros. rewrite !length_replicate. repeat split; auto.
    - lia.
    - lia.
    - intros k Hk1 Hk2. now rewrite !lookup_insert_ne by auto. }
  { repeat split; auto. }
  rewrite Hrun. cbn [rbind negb fst snd].
  eexists _, _. split; [reflexivity |].
  split.
  { rewrite HM. f_equal. rewrite <- HlM. apply list_eq_map_seq.
    intros i Hi. apply Hpre. lia. }
  split.
  { rewrite HD. f_equal. rewrite <- HlD. apply list_eq_map_seq.
    intros i Hi. apply Hpre. lia. }
  split; [exact Hother |].
  split; [| reflexivity].
  destruct Hf as (H0 & H1 & H2 & Hitem). cbn [ds_input].
  repeat split; auto.
  intros n t c Hc. rewrite Hitem. now rewrite (proj2 (Nat.ltb_lt c (shape2 X)) Hc).
Qed.

Lemma apply_channel_step (args : namespace) (M D : list float) (Y : ndarray3)
  (a : nat) (m d : float) :
  args !! "train_mean"%string = Some M -> args !! "train_std"%string = Some D ->
  M !! a = Some m -> D !! a = Some d ->
  apply_channel a (args, Y)
  = Ok (args, assign_channel Y a (normalize_view (channel_view Y a) m d)).
Proof.
  intros HM HD Hm Hd. unfold apply_channel, getattr, getitem. cbn [fst snd].
  rewrite HM. cbn [rbind]. rewrite Hm. cbn [rbind].
  rewrite HD. cbn [rbind]. rewrite Hd. reflexivity.
Qed.

Lemma apply_loop (args : namespace) (M D : list float) (mu sd : nat -> float) (c : nat) :
  args !! "train_mean"%string = Some M -> args !! "train_std"%string = Some D ->
  (forall i, i < c -> M !! i = Some (mu i) /\ D !! i = Some (sd i)) ->
  forall (n a : nat) (Y : ndarray3),
  a + n <= c ->
  exists Y',
    for_each (seq a n) apply_channel (args, Y) = Ok (args, Y') /\
    shape0 Y' = shape0 Y /\ shape1 Y' = shape1 Y /\ shape2 Y' = shape2 Y /\
    forall k t i,
      item Y' k t i
      = if (a <=? i) && (i <? a + n) then normalize_value (mu i) (sd i) (item Y k t i)
        else item Y k t i.
Proof.
  intros HM HD Hst. induction n as [| n IH]; intros a Y Han.
  - exists Y. cbn [seq for_each]. repeat split; auto.
    intros k t i. destruct (Nat.leb_spec a i), (Nat.ltb_spec i (a + 0));
      try reflexivity; lia.
  - destruct (Hst a ltac:(lia)) as [Hm Hd].
    destruct (IH (S a) (assign_channel Y a (normalize_view (channel_view Y a) (mu a) (sd a)))
                ltac:(lia)) as (Y' & Hrun & H0 & H1 & H2 & Hitem).
    exists Y'. cbn [seq for_each].
    rewrite (apply_channel_step args M D Y a (mu a) (sd a) HM HD Hm Hd).
    cbn [rbind]. split; [exact Hrun |].
    split; [exact H0 |]. split; [exact H1 |]. split; [exact H2 |].
    intros k t i. rewrite Hitem.
    cbn [item assign_channel normalize_view channel_view item2].
    destruct (Nat.eqb_spec i a) as [-> | Hia];
      destruct (Nat.leb_spec (S a) a); destruct (Nat.leb_spec a a);
      try destruct (Nat.leb_spec (S a) i); try destruct (Nat.leb_spec a i);
      try destruct (Nat.ltb_spec a (S a + n)); try destruct (Nat.ltb_spec a (a + S n));
      try destruct (Nat.ltb_spec i (S a + n)); try destruct (Nat.ltb_spec i (a + S n));
      cbn [andb]; try reflexivity; lia.
Qed.

(** Constructing a non-training dataset reads the stored statistics, leaves
    [args] as it is and normalises with what it read. *)
Lemma SigDataset_init_eval (args : namespace) (T X : ndarray3) (label : list float) :
  args !! "train_mean"%string = Some (map (mean_of T) (seq 0 (shape2 T))) ->
  args !! "train_std"%string = Some (map (std_of T) (seq 0 (shape2 T))) ->
  shape2 X = shape2 T ->
  exists d,
    SigDataset_init args X label false = Ok (args, d) /\
    normalized_with T X (ds_input d) /\ ds_label d = label.
Proof.
  intros HM HD Hc. unfold SigDataset_init. cbn [rbind negb].
  destruct (apply_loop args _ _ (mean_of T) (std_of T) (shape2 T) HM HD) with
    (n := shape2 X) (a := 0) (Y := X) as (Y' & Hrun & H0 & H1 & H2 & Hitem).
  { intros i Hi. rewrite !lookup_map_seq, (proj2 (Nat.ltb_lt i (shape2 T)) Hi). auto. }
  { lia. }
  rewrite Hrun. cbn [rbind fst snd].
  eexists. split; [reflexivity |]. split; [| reflexivity].
  cbn [ds_input]. repeat split; auto.
  intros n t c Hcx. rewrite Hitem.
  destruct (Nat.leb_spec 0 c), (Nat.ltb_spec c (0 + shape2 X)); cbn [andb];
    try reflexivity; lia.
Qed.

(** Without stored statistics the first channel already fails. *)
Lemma SigDataset_init_eval_unset (args : namespace) (X : ndarray3) (label : list float) :
  args !! "train_mean"%string = None -> 0 < shape2 X ->
  SigDataset_init args X label false = Raise AttributeError.
Proof.
  intros HM Hc. unfold SigDataset_init. cbn [rbind negb].
  destruct (shape2 X) as [| c]; [lia |].
  cbn [seq for_each]. unfold apply_channel at 1, getattr. cbn [fst snd].
  rewrite HM. reflexivity.
Qed.

End DatasetFacts.

(** The entries that count for a statistic are those that are not NaN. *)
Lemma count_valid_spec (a : list float) :
  count_valid a
  = Z.of_nat (length (List.filter (fun x => negb (F64.is_nan x)) a)).
Proof.
  unfold count_valid. induction a as [| x a IH]; [reflexivity |].
  cbn [map np_sum fold_right List.filter].
  change (fold_right (fun (b : bool) (acc : Z) => (Z.b2z b + acc)%Z) 0%Z
            (map (fun x => negb (F64.is_nan x)) a))
    with (np_sum (map (fun x => negb (F64.is_nan x)) a)).
  rewrite IH. destruct (negb (F64.is_nan x)); cbn [Z.b2z length]; lia.
Qed.

Lemma replace_nan_spec (a : list float) (k : nat) :
  nth k (replace_nan a) F64.zero
  = if F64.is_nan (nth k a F64.zero) then F64.zero else nth k a F64.zero.
Proof.
  unfold replace_nan. revert k. induction a as [| x a IH]; intros [| k]; cbn;
    try reflexivity; apply IH.
Qed.

(** The order matters from eight entries on: added one after the other,
    sixteen values 0.1 have a mean above 0.1; added in blocks, 0.1. *)
Example order_of_additions_matters :
  np_mean (np := toy_numpy) (repeat tenth 16) <> tenth /\
  np_mean (np := numpy_blocked) (repeat tenth 16) = tenth.
Proof. split; [vm_compute; discriminate | vm_compute; reflexivity]. Qed.

Example toy_array_statistics :
  mean_of (np := toy_numpy) toy_array 1 = F64.two /\
  std_of (np := toy_numpy) toy_array 1 = F64.two.
Proof. vm_compute. split; reflexivity. Qed.

(** C4.  Building the three datasets in the order of the script computes
    the per-channel statistics once, in the construction of the training
    dataset: the stored mean of channel [c] is the sum of all its entries
    over examples and timesteps, each NaN entering as 0, divided by the
    number of entries that are not NaN, and the stored standard deviation
    is the square root of the mean squared deviation of these entries
    from that mean.  The development and test constructions leave the
    stored statistics untouched, and in each of the three splits every
    value [x] of channel [c] becomes [(x - mean[c]) / (std[c] + 1e-5)]
    with the training statistics. *)
Theorem C4_training_statistics_normalise_every_split
  {np : Numpy} (args : namespace) (train_data dev_data test_data : ndarray3)
  (train_label dev_label test_label : list float) :
  shape2 dev_data = shape2 train_data ->
  shape2 test_data = shape2 train_data ->
  exists args1 tr dv te M D,
    build_datasets args train_data train_label dev_data dev_label
      test_data test_label = Ok (args1, tr, dv, te) /\
    SigDataset_init args train_data train_label true = Ok (args1, tr) /\
    SigDataset_init args1 dev_data dev_label false = Ok (args1, dv) /\
    SigDataset_init args1 test_data test_label false = Ok (args1, te) /\
    args1 !! "train_mean"%string = Some M /\
    args1 !! "train_std"%string = Some D /\
    length M = shape2 train_data /\ length D = shape2 train_data /\
    (forall c, c < shape2 train_data ->
       let a := flat (channel_view train_data c) in
       let shape := [shape0 train_data; shape1 train_data] in
       let cnt := count_valid a in
       let mean := F64.div (np_add_reduce shape (replace_nan a)) (F64.of_int cnt) in
       let sqr :=
         map (fun x => if F64.is_nan x then F64.zero
                       else F64.mul (F64.sub x mean) (F64.sub x mean)) a in
       let std :=
         F64.sqrt (if (cnt <=? 0)%Z then S754_nan
                   else F64.div (np_add_reduce shape sqr) (F64.of_int cnt)) in
       M !! c = Some mean /\ D !! c = Some std /\
       (forall n t,
          item (ds_input tr) n t c
          = F64.div (F64.sub (item train_data n t c) mean) (F64.add std F64.eps)) /\
       (forall n t,
          item (ds_input dv) n t c
          = F64.div (F64.sub (item dev_data n t c) mean) (F64.add std F64.eps)) /\
       (forall n t,
          item (ds_input te) n t c
          = F64.div (F64.sub (item test_data n t c) mean) (F64.add std F64.eps))) /\
    (forall a : list float,
       count_valid a
       = Z.of_nat (length (List.filter (fun x => negb (F64.is_nan x)) a))) /\
    (forall (a : list float) (k : nat),
       nth k (replace_nan a) F64.zero
       = if F64.is_nan (nth k a F64.zero) then F64.zero else nth k a F64.zero).
Proof.
  intros Hdev Htest.
  destruct (SigDataset_init_training args train_data train_label)
    as (args1 & tr & Htr & HM & HD & _ & Hntr & _).
  destruct (SigDataset_init_eval args1 train_data dev_data dev_label HM HD Hdev)
    as (dv & Hdv & Hndv & _).
  destruct (SigDataset_init_eval args1 train_data test_data test_label HM HD Htest)
    as (te & Hte & Hnte & _).
  exists args1, tr, dv, te, (map (mean_of train_data) (seq 0 (shape2 train_data))),
         (map (std_of train_data) (seq 0 (shape2 train_data))).
  split.
  { unfold build_datasets. rewrite Htr. cbn [rbind fst snd].
    rewrite Hdv. cbn [rbind fst snd]. rewrite Hte. reflexivity. }
  split; [exact Htr |]. split; [exact Hdv |]. split; [exact Hte |].
  split; [exact HM |]. split; [exact HD |].
  split; [now rewrite length_map, length_seq |].
  split; [now rewrite length_map, length_seq |].
  split; [| split; [exact count_valid_spec | exact replace_nan_spec]].
  intros c Hc. cbn zeta.
  destruct Hntr as (_ & _ & _ & Htr_item).
  destruct Hndv as (_ & _ & Hdv2 & Hdv_item).
  destruct Hnte as (_ & _ & Hte2 & Hte_item).
  rewrite !lookup_map_seq, (proj2 (Nat.ltb_lt c _) Hc). cbn [Nat.add].
  split; [reflexivity |]. split; [reflexivity |].
  split; [| split]; intros n t.
  - rewrite Htr_item by exact Hc. reflexivity.
  - rewrite Hdv_item by lia. reflexivity.
  - rewrite Hte_item by lia. reflexivity.
Qed.

Lemma C4_witness :
  shape2 toy_array2 = shape2 toy_array /\
  exists args1 tr dv te (M D : list float),
    build_datasets (np := toy_numpy) ∅ toy_array [F64.one; F64.zero]
      toy_array2 [F64.zero; F64.one] toy_array2 [F64.one; F64.one]
    = Ok (args1, tr, dv, te) /\
    M !! 1 = Some F64.two /\ D !! 1 = Some F64.two /\
    item (ds_input dv) 1 1 1
    = F64.div (F64.sub (item toy_array2 1 1 1) F64.two) (F64.add F64.two F64.eps).
Proof.
  split; [reflexivity |].
  destruct (C4_training_statistics_normalise_every_split (np := toy_numpy) ∅
              toy_array toy_array2 toy_array2 [F64.one; F64.zero]
              [F64.zero; F64.one] [F64.one; F64.one] eq_refl eq_refl)
    as (args1 & tr & dv & te & M & D & Hb & _ & _ & _ & _ & _ & _ & _ & Hst & _).
  exists args1, tr, dv, te, M, D. split; [exact Hb |].
  destruct (Hst 1 ltac:(cbn; lia)) as (HM & HD & _ & Hdv & _).
  split; [rewrite HM; vm_compute; reflexivity |].
  split; [rewrite HD; vm_compute; reflexivity |].
  rewrite Hdv. vm_compute. reflexivity.
Defined.

(** C10.  A dataset built with [training=False] reads [args.train_mean]
    and [args.train_std]: built before any training dataset (on an [args]
    without these attributes) it raises AttributeError.  Built after
    training datasets it leaves [args] as it is, [args] holds the mean and
    standard deviation of the channels of the training dataset constructed
    last (sum with NaN as 0 over the count of entries that are not NaN),
    and every value [x] of channel [c] becomes
    [(x - mean[c]) / (std[c] + 1e-5)] with these. *)
Theorem C10_eval_dataset_reads_stored_statistics
  {np : Numpy} (args : namespace) (older latest data : ndarray3)
  (older_label latest_label label : list float) :
  0 < shape2 data ->
  shape2 data = shape2 latest ->
  (forall args0 : namespace,
     args0 !! "train_mean"%string = None ->
     SigDataset_init args0 data label false = Raise AttributeError) /\
  SigDataset_init ∅ data label false = Raise AttributeError /\
  exists args1 args2 tr1 tr2 d M D,
    SigDataset_init args older older_label true = Ok (args1, tr1) /\
    SigDataset_init args1 latest latest_label true = Ok (args2, tr2) /\
    SigDataset_init args2 data label false = Ok (args2, d) /\
    args2 !! "train_mean"%string = Some M /\
    args2 !! "train_std"%string = Some D /\
    length M = shape2 latest /\ length D = shape2 latest /\
    forall c, c < shape2 latest ->
      let a := flat (channel_view latest c) in
      let shape := [shape0 latest; shape1 latest] in
      let cnt := count_valid a in
      let mean := F64.div (np_add_reduce shape (replace_nan a)) (F64.of_int cnt) in
      let sqr :=
        map (fun x => if F64.is_nan x then F64.zero
                      else F64.mul (F64.sub x mean) (F64.sub x mean)) a in
      let std :=
        F64.sqrt (if (cnt <=? 0)%Z then S754_nan
                  else F64.div (np_add_reduce shape sqr) (F64.of_int cnt)) in
      M !! c = Some mean /\ D !! c = Some std /\
      forall n t,
        item (ds_input d) n t c
        = F64.div (F64.sub (item data n t c) mean) (F64.add std F64.eps).
Proof.
  intros Hpos Hc. split; [| split].
  - intros args0 Hnone. now apply SigDataset_init_eval_unset.
  - apply SigDataset_init_eval_unset; [apply lookup_empty | exact Hpos].
  - destruct (SigDataset_init_training args older older_label)
      as (args1 & tr1 & H1 & _).
    destruct (SigDataset_init_training args1 latest latest_label)
      as (args2 & tr2 & H2 & HM & HD & _).
    destruct (SigDataset_init_eval args2 latest data label HM HD Hc)
      as (d & Hd & Hn & _).
    exists args1, args2, tr1, tr2, d,
           (map (mean_of latest) (seq 0 (shape2 latest))),
           (map (std_of latest) (seq 0 (shape2 latest))).
    split; [exact H1 |]. split; [exact H2 |]. split; [exact Hd |].
    split; [exact HM |]. split; [exact HD |].
    split; [now rewrite length_map, length_seq |].
    split; [now rewrite length_map, length_seq |].
    intros c Hcc. cbn zeta.
    destruct Hn as (_ & _ & _ & Hitem).
    rewrite !lookup_map_seq, (proj2 (Nat.ltb_lt c _) Hcc). cbn [Nat.add].
    split; [reflexivity |]. split; [reflexivity |].
    intros n t. rewrite Hitem by lia. reflexivity.
Qed.

Lemma C10_witness :
  0 < shape2 toy_array2 /\ shape2 toy_array2 = shape2 toy_array /\
  SigDataset_init (np := toy_numpy) ∅ toy_array2 [F64.zero; F64.one] false
  = Raise AttributeError /\
  exists args1 args2 tr1 tr2 d (M D : list float),
    SigDataset_init (np := toy_numpy) ∅ toy_array2 [F64.one; F64.one] true
    = Ok (args1, tr1) /\
    SigDataset_init (np := toy_numpy) args1 toy_array [F64.one; F64.zero] true
    = Ok (args2, tr2) /\
    SigDataset_init (np := toy_numpy) args2 toy_array2 [F64.zero; F64.one] false
    = Ok (args2, d) /\
    args2 !! "train_mean"%string = Some M /\
    args2 !! "train_std"%string = Some D /\
    M !! 1 = Some F64.two /\ D !! 1 = Some F64.two /\
    item (ds_input d) 1 1 1
    = F64.div (F64.sub (item toy_array2 1 1 1) F64.two) (F64.add F64.two F64.eps).
Proof.
  split; [cbn; lia |]. split; [reflexivity |].
  destruct (C10_eval_dataset_reads_stored_statistics (np := toy_numpy) ∅ toy_array2
              toy_array toy_array2 [F64.one; F64.one] [F64.one; F64.zero]
              [F64.zero; F64.one] ltac:(cbn; lia) eq_refl)
    as (_ & Hfirst & args1 & args2 & tr1 & tr2 & d & M & D
        & H1 & H2 & Hd & HM & HD & _ & _ & Hst).
  split; [exact Hfirst |].
  exists args1, args2, tr1, tr2, d, M, D.
  split; [exact H1 |]. split; [exact H2 |]. split; [exact Hd |].
  split; [exact HM |]. split; [exact HD |].
  destruct (Hst 1 ltac:(cbn; lia)) as (HM1 & HD1 & Hitem).
  split; [rewrite HM1; vm_compute; reflexivity |].
  split; [rewrite HD1; vm_compute; reflexivity |].
  rewrite Hitem. vm_compute. reflexivity.
Defined.

(** ** Positional signal and missing values in Model.forward *)

Lemma add_nan_l (x y : float) : F64.is_nan x = true -> F64.add x y = S754_nan.
Proof. destruct x; cbn; try discriminate. reflexivity. Qed.

Lemma bidx_in_range (dim i : nat) : i < dim -> bidx dim i = i.
Proof. unfold bidx. destruct (Nat.eqb_spec dim 1); lia. Qed.

Lemma broadcast_dim_same (a : nat) : broadcast_dim a a = Some a.
Proof. unfold broadcast_dim. now rewrite Nat.eqb_refl. Qed.

Lemma encode_input_spec (pe x : ndarray3) :
  shape0 pe = 1 -> shape1 pe = shape1 x -> shape2 pe = shape2 x ->
  exists x',
    encode_input pe x = Ok x' /\
    shape0 x' = shape0 x /\ shape1 x' = shape1 x /\ shape2 x' = shape2 x /\
    forall n t c, n < shape0 x -> t < shape1 x -> c < shape2 x ->
      item x' n t c
      = let v := F64.add (item x n t c) (item pe 0 t c) in
        if F64.is_nan v then F64.zero else v.
Proof.
  intros H0 H1 H2. unfold encode_input, tensor_binop.
  cbn [shape0 shape1 shape2 tensor_repeat0].
  rewrite H0, H1, H2, Nat.mul_1_r, !broadcast_dim_same. cbn [rbind].
  eexists. split; [reflexivity |].
  cbn [nan_to_zero shape0 shape1 shape2 item].
  repeat split.
  intros n t c Hn Ht Hc. cbn zeta.
  rewrite !bidx_in_range by assumption.
  cbn [item tensor_repeat0]. rewrite H0, Nat.mod_1_r. reflexivity.
Qed.

(** C2, as stated, fails: where the raw value is NaN the sum with the
    positional encoding is NaN as well, and line 166 replaces it by 0.
    Channel 1 of [toy_window] is missing, its positional encoding is 1.0,
    and the network tower receives 0.0 there. *)
Lemma C2_counterexample :
  exists towers,
    tower_inputs toy_pe toy_window = Ok towers /\
    F64.is_nan (item toy_window 0 0 1) = true /\
    item toy_pe 0 0 1 = F64.one /\
    tower_value towers 0 0 1 = F64.zero.
Proof. eexists. split; [reflexivity |]. repeat split. Qed.

(** C2 (amended).  In [Model.forward] the positional-encoding table is
    added to the raw window first and NaN entries are zeroed afterwards;
    a position whose raw value is NaN has a NaN sum, so the value that
    enters the towers there is 0 and carries no positional signal; a
    position whose sum is not NaN enters the towers as raw value plus
    positional encoding. *)
Theorem C2_nan_positions_enter_towers_as_zero (pe x : ndarray3) :
  shape0 pe = 1 -> shape1 pe = shape1 x -> shape2 pe = shape2 x ->
  shape2 x = 11 ->
  exists towers,
    tower_inputs pe x = Ok towers /\
    forall n t c, n < shape0 x -> t < shape1 x -> c < 11 ->
      (F64.is_nan (item x n t c) = true -> tower_value towers n t c = F64.zero) /\
      (F64.is_nan (F64.add (item x n t c) (item pe 0 t c)) = false ->
       tower_value towers n t c = F64.add (item x n t c) (item pe 0 t c)).
Proof.
  intros H0 H1 H2 HD.
  destruct (encode_input_spec pe x H0 H1 H2) as (x' & Henc & _ & _ & HD' & Hitem).
  unfold tower_inputs. rewrite Henc. cbn [rbind].
  eexists. split; [reflexivity |].
  intros n t c Hn Ht Hc.
  assert (Hval : tower_value
            (slice_last x' 0 (length network_feature),
             slice_last x' (length network_feature)
               (length network_feature + length radio_feature),
             tail_last x' (length bs_feature)) n t c = item x' n t c).
  { unfold tower_value, tail_last, slice_last. rewrite HD', HD.
    cbn [length network_feature radio_feature bs_feature item].
    destruct (Nat.ltb_spec c 6); [reflexivity |].
    destruct (Nat.ltb_spec c 9); cbn [Nat.min Nat.add Nat.sub]; f_equal; lia. }
  rewrite Hval, Hitem by (try assumption; lia). cbn zeta.
  split.
  - intros Hnan. now rewrite (add_nan_l _ _ Hnan).
  - intros Hdef. now rewrite Hdef.
Qed.

Lemma C2_witness :
  shape0 toy_pe = 1 /\ shape1 toy_pe = shape1 toy_window /\
  shape2 toy_pe = shape2 toy_window /\ shape2 toy_window = 11 /\
  exists towers,
    tower_inputs toy_pe toy_window = Ok towers /\
    tower_value towers 0 0 1 = F64.zero /\
    tower_value towers 0 0 3 = F64.add F64.half F64.one.
Proof.
  repeat (split; [reflexivity |]).
  destruct (C2_nan_positions_enter_towers_as_zero toy_pe toy_window
              eq_refl eq_refl eq_refl eq_refl) as (towers & Hrun & Hval).
  exists towers. split; [exact Hrun |]. split.
  - apply (Hval 0 0 1); [cbn; lia | cbn; lia | lia | reflexivity].
  - apply (Hval 0 0 3); [cbn; lia | cbn; lia | lia | reflexivity].
Defined.

(** ** The positional-encoding table *)

Section PositionalEncodingFacts.
Context {num : Type} {arith : Arith num}.

Lemma arange_step1 (stop : nat) :
  length (arange stop 1) = stop /\
  forall r, r < stop -> nth r (arange stop 1) a_zero = a_of_nat r.
Proof.
  unfold arange. rewrite Nat.add_sub, Nat.div_1_r. split.
  - now rewrite length_map, length_seq.
  - intros r Hr.
    rewrite (nth_indep _ a_zero (a_of_nat (0 * 1))) by now rewrite length_map, length_seq.
    rewrite (map_nth (fun k => a_of_nat (k * 1))), seq_nth by exact Hr.
    f_equal. lia.
Qed.

Lemma arange_step2 (stop : nat) :
  length (arange stop 2) = (stop + 1) / 2 /\
  forall k, k < (stop + 1) / 2 -> nth k (arange stop 2) a_zero = a_of_nat (2 * k).
Proof.
  unfold arange. replace (stop + 2 - 1) with (stop + 1) by lia. split.
  - now rewrite length_map, length_seq.
  - intros k Hk.
    rewrite (nth_indep _ a_zero (a_of_nat (0 * 2))) by now rewrite length_map, length_seq.
    rewrite (map_nth (fun k => a_of_nat (k * 2))), seq_nth by exact Hk.
    f_equal. lia.
Qed.

Lemma frequencies_spec (d_model : nat) :
  0 < d_model ->
  exists freq,
    frequencies d_model = Ok freq /\
    length freq = (d_model + 1) / 2 /\
    forall k, k < (d_model + 1) / 2 ->
      nth k freq a_zero = a_exp (a_mul (a_of_nat (2 * k)) (log_step d_model)).
Proof.
  intros Hd. unfold frequencies.
  destruct (Nat.eqb_spec d_model 0) as [-> | _]; [lia |]. cbn [rbind].
  destruct (arange_step2 d_model) as [Hlen Hnth].
  eexists. split; [reflexivity |]. split.
  - now rewrite length_map.
  - intros k Hk.
    rewrite (nth_indep _ a_zero (a_exp (a_mul a_zero (log_step d_model))))
      by now rewrite length_map, Hlen.
    rewrite (map_nth (fun a => a_exp (a_mul a (log_step d_model)))).
    now rewrite Hnth.
Qed.

Lemma broadcast_dim_one (k : nat) : broadcast_dim 1 k = Some k.
Proof. unfold broadcast_dim. destruct (Nat.eqb_spec 1 k); [now subst | reflexivity]. Qed.

Lemma can_expand_same (a : nat) : can_expand a a = true.
Proof. unfold can_expand. now rewrite Nat.eqb_refl. Qed.

Lemma half_odd (d : nat) : d mod 2 = 1 -> (d + 1) / 2 - 1 = d / 2.
Proof.
  intros Hm. pose proof (Nat.div_mod_eq d 2) as Hd.
  replace (d + 1) with ((d / 2 + 1) * 2) by lia.
  rewrite Nat.div_mul by lia. lia.
Qed.

Lemma half_even (d : nat) : d mod 2 <> 1 -> (d + 1) / 2 = d / 2.
Proof.
  intros Hm. pose proof (Nat.div_mod_eq d 2) as Hd.
  pose proof (Nat.mod_upper_bound d 2 ltac:(lia)) as Hb.
  replace (d + 1) with (1 + d / 2 * 2) by lia.
  rewrite Nat.div_add by lia. cbn. lia.
Qed.

Lemma nth_removelast {A} (l : list A) (k : nat) (d : A) :
  k < length l - 1 -> nth k (removelast l) d = nth k l d.
Proof.
  revert k. induction l as [| x l IH]; intros k Hk; [reflexivity |].
  destruct l as [| y l]; [cbn in Hk; lia |].
  destruct k as [| k]; [reflexivity |].
  cbn [removelast nth]. apply IH. cbn [length] in *. lia.
Qed.

Lemma length_removelast {A} (l : list A) : length (removelast l) = length l - 1.
Proof.
  induction l as [| x l IH]; [reflexivity |].
  destruct l as [| y l]; [reflexivity |].
  cbn [removelast length] in *. lia.
Qed.

Lemma even_double (k : nat) : Nat.even (2 * k) = true.
Proof. rewrite Nat.even_mul. reflexivity. Qed.

Lemma even_double_pred (k : nat) : 0 < k -> Nat.even (2 * k - 1) = false.
Proof.
  intros Hk. replace (2 * k - 1) with (1 + 2 * (k - 1)) by lia.
  now rewrite Nat.even_add_mul_2.
Qed.

Lemma div2_double (k : nat) : 2 * k / 2 = k.
Proof. rewrite Nat.mul_comm. apply Nat.div_mul. lia. Qed.

(** The table, in any arithmetic: column [2k] holds the sine and column
    [2k+1] the cosine of position times the [k]-th frequency. *)
Lemma positional_encoding_structure (seq_len d_model : nat) :
  0 < d_model ->
  exists pe freq,
    frequencies d_model = Ok freq /\
    length freq = (d_model + 1) / 2 /\
    (forall k, k < (d_model + 1) / 2 ->
       nth k freq a_zero = a_exp (a_mul (a_of_nat (2 * k)) (log_step d_model))) /\
    create_positional_encoding seq_len d_model = Ok pe /\
    shape0 pe = 1 /\ shape1 pe = seq_len /\ shape2 pe = d_model /\
    (forall pos k, pos < seq_len -> 2 * k < d_model ->
       item pe 0 pos (2 * k) = a_sin (a_mul (a_of_nat pos) (nth k freq a_zero))) /\
    (forall pos k, pos < seq_len -> 2 * k + 1 < d_model ->
       item pe 0 pos (2 * k + 1) = a_cos (a_mul (a_of_nat pos) (nth k freq a_zero))).
Proof.
  intros Hd.
  destruct (frequencies_spec d_model Hd) as (freq & Hf & Hlen & Hnth).
  destruct (arange_step1 seq_len) as [Hplen Hpnth].
  set (freq' := if d_model mod 2 =? 1 then removelast freq else freq).
  assert (Hlen' : length freq' = d_model / 2).
  { unfold freq'. destruct (Nat.eqb_spec (d_model mod 2) 1) as [Hodd | Heven].
    - rewrite length_removelast, Hlen. now apply half_odd.
    - rewrite Hlen. now apply half_even. }
  assert (Hnth' : forall k, k < d_model / 2 -> nth k freq' a_zero = nth k freq a_zero).
  { intros k Hk. unfold freq'.
    destruct (Nat.eqb_spec (d_model mod 2) 1) as [Hodd | Heven]; [| reflexivity].
    apply nth_removelast. rewrite Hlen, half_odd by exact Hodd. exact Hk. }
  unfold create_positional_encoding. rewrite Hf. cbn [rbind].
  fold freq'.
  unfold mul_row. cbn [ncol unsqueeze1]. rewrite !broadcast_dim_one. cbn [rbind].
  unfold assign_strided.
  cbn [nrow ncol map2d zeros unsqueeze1].
  rewrite Hplen, Hlen, Nat.sub_0_r, !can_expand_same.
  cbn [andb rbind nrow ncol].
  rewrite Hlen', Nat.add_sub, !can_expand_same. cbn [andb rbind].
  eexists _, freq. split; [reflexivity |]. split; [exact Hlen |].
  split; [exact Hnth |]. split; [reflexivity |].
  cbn [unsqueeze0 shape0 shape1 shape2 item item2 nrow ncol].
  split; [reflexivity |]. split; [reflexivity |]. split; [reflexivity |].
  split.
  - intros pos k Hpos Hk.
    assert (Hk' : k < (d_model + 1) / 2).
    { pose proof (Nat.div_mod_eq (d_model + 1) 2).
      pose proof (Nat.mod_upper_bound (d_model + 1) 2). lia. }
    replace ((1 <=? 2 * k) && Nat.even (2 * k - 1)) with false.
    2:{ destruct k as [| k]; [reflexivity |].
        rewrite even_double_pred by lia. now rewrite andb_false_r. }
    rewrite Nat.sub_0_r, even_double, div2_double. cbn [Nat.leb andb].
    rewrite !bidx_in_range by assumption.
    cbn [item2 map2d unsqueeze1]. rewrite bidx_in_range by assumption.
    now rewrite Hpnth.
  - intros pos k Hpos Hk.
    assert (Hk' : k < d_model / 2).
    { pose proof (Nat.div_mod_eq d_model 2).
      pose proof (Nat.mod_upper_bound d_model 2). lia. }
    replace (2 * k + 1 - 1) with (2 * k) by lia.
    replace (1 <=? 2 * k + 1) with true by (symmetry; apply Nat.leb_le; lia).
    rewrite even_double, div2_double. cbn [andb].
    rewrite !bidx_in_range by assumption.
    cbn [item2 map2d unsqueeze1]. rewrite bidx_in_range by assumption.
    rewrite Hpnth by exact Hpos. now rewrite Hnth'.
Qed.
End PositionalEncodingFacts.

(** Over the reals, position times the frequency of line 188 is
    [pos / 10000^(2i/D)]. *)
Lemma angle_real (pos i d_model : nat) :
  0 < d_model ->
  (INR pos * exp (INR (2 * i) * (- ln 10000 / INR d_model)))%R
  = (INR pos / Rpower 10000 (INR (2 * i) / INR d_model))%R.
Proof.
  intros Hd. unfold Rpower, Rdiv at 2. rewrite <- exp_Ropp.
  f_equal. f_equal. field. apply not_0_INR. lia.
Qed.

(** C8.  For a positive feature width [D], and whatever arithmetic the
    tensors use, [create_positional_encoding T D] returns a table of shape
    (1, T, D) whose column [2i] holds the sine, and whose column [2i+1]
    the cosine, of position times the [i]-th entry of the frequency
    vector, that entry being [exp(2i * (-log(10000) / D))]; for an odd [D]
    the last cosine column, [D-2], uses the second-to-last entry of the
    frequency vector; and the table depends on [(T, D)] alone.  Read over
    the real numbers the angle is [pos / 10000^(2i/D)]. *)
Theorem C8_positional_encoding_table
  {num : Type} (arith : Arith num) (seq_len d_model : nat) :
  0 < d_model ->
  (exists (pe : array3 num) (freq : list num),
     frequencies d_model = Ok freq /\
     length freq = (d_model + 1) / 2 /\
     (forall i, 2 * i < d_model ->
        nth i freq a_zero
        = a_exp (a_mul (a_of_nat (2 * i))
                   (a_div (a_neg (a_log a_const_10000)) (a_of_nat d_model)))) /\
     create_positional_encoding seq_len d_model = Ok pe /\
     shape0 pe = 1 /\ shape1 pe = seq_len /\ shape2 pe = d_model /\
     (forall pos i, pos < seq_len -> 2 * i < d_model ->
        item pe 0 pos (2 * i) = a_sin (a_mul (a_of_nat pos) (nth i freq a_zero))) /\
     (forall pos i, pos < seq_len -> 2 * i + 1 < d_model ->
        item pe 0 pos (2 * i + 1) = a_cos (a_mul (a_of_nat pos) (nth i freq a_zero))) /\
     (Nat.odd d_model = true -> 3 <= d_model ->
      forall pos, pos < seq_len ->
        item pe 0 pos (d_model - 2)
        = a_cos (a_mul (a_of_nat pos) (nth (length freq - 2) freq a_zero))) /\
     (forall pe' : array3 num,
        create_positional_encoding seq_len d_model = Ok pe' -> pe' = pe)) /\
  (exists pe : array3 R,
     create_positional_encoding (arith := R_arith) seq_len d_model = Ok pe /\
     (forall pos i, pos < seq_len -> 2 * i < d_model ->
        item pe 0 pos (2 * i)
        = sin (INR pos / Rpower 10000 (INR (2 * i) / INR d_model))) /\
     (forall pos i, pos < seq_len -> 2 * i + 1 < d_model ->
        item pe 0 pos (2 * i + 1)
        = cos (INR pos / Rpower 10000 (INR (2 * i) / INR d_model)))).
Proof.
  intros Hd.
  assert (Hhalf : forall i, 2 * i < d_model -> i < (d_model + 1) / 2).
  { intros i Hi. pose proof (Nat.div_mod_eq (d_model + 1) 2).
    pose proof (Nat.mod_upper_bound (d_model + 1) 2). lia. }
  split.
  - destruct (positional_encoding_structure (num := num) seq_len d_model Hd)
      as (pe & freq & Hf & Hlen & Hnth & Hrun & H0 & H1 & H2 & Hsin & Hcos).
    exists pe, freq. split; [exact Hf |]. split; [exact Hlen |].
    split; [intros i Hi; apply Hnth, Hhalf, Hi |].
    split; [exact Hrun |].
    split; [exact H0 |]. split; [exact H1 |]. split; [exact H2 |].
    split; [exact Hsin |]. split; [exact Hcos |]. split.
    + intros Hodd Hge pos Hpos.
      apply Nat.odd_spec in Hodd. destruct Hodd as [m Hm].
      assert (Hh : (d_model + 1) / 2 = m + 1).
      { replace (d_model + 1) with ((m + 1) * 2) by lia. apply Nat.div_mul. lia. }
      rewrite Hlen, Hh.
      replace (d_model - 2) with (2 * (m - 1) + 1) by lia.
      rewrite Hcos by (try assumption; lia).
      replace (m + 1 - 2) with (m - 1) by lia. reflexivity.
    + intros pe' Hrun'. rewrite Hrun in Hrun'. now injection Hrun' as <-.
  - destruct (positional_encoding_structure (num := R) seq_len d_model Hd)
      as (pe & freq & _ & _ & Hnth & Hrun & _ & _ & _ & Hsin & Hcos).
    exists pe. split; [exact Hrun |]. split.
    + intros pos i Hpos Hi. rewrite Hsin by assumption. rewrite Hnth by (apply Hhalf, Hi).
      cbn. unfold log_step. cbn. f_equal. apply angle_real. exact Hd.
    + intros pos i Hpos Hi. rewrite Hcos by assumption.
      rewrite Hnth by (apply Hhalf; lia).
      cbn. unfold log_step. cbn. f_equal. apply angle_real. exact Hd.
Qed.

Lemma C8_witness :
  0 < 11 /\
  exists (pe : array3 float) (freq : list float),
    create_positional_encoding (arith := toy_libm) 30 11 = Ok pe /\
    shape0 pe = 1 /\ shape1 pe = 30 /\ shape2 pe = 11 /\
    length freq = 6 /\
    item pe 0 7 10
    = @a_sin _ toy_libm
        (@a_mul _ toy_libm (@a_of_nat _ toy_libm 7) (nth 5 freq (@a_zero _ toy_libm))).
Proof.
  split; [lia |].
  destruct (C8_positional_encoding_table toy_libm 30 11 ltac:(lia))
    as [(pe & freq & _ & Hlen & _ & Hrun & H0 & H1 & H2 & Hsin & _) _].
  exists pe, freq. split; [exact Hrun |].
  split; [exact H0 |]. split; [exact H1 |]. split; [exact H2 |].
  split; [exact Hlen |].
  apply (Hsin 7 5); lia.
Defined.

(** ** Attention fusion as the source has it *)

(** C3 (the code at the failing input).  Lines 175-177 do not parse.  Read
    as the two statements their line breaks show, the concatenation has no
    [dim] and stacks the three tower outputs along the batch axis (the
    width stays that of one tower, not their sum), and the attention layer
    is called with a keyword it does not accept, so a TypeError is raised
    before any attention weight exists. *)
Theorem C3_fusion_as_written_raises
  (softmax_dim1 : ndarray3 -> ndarray3) (sigmoid : float -> float)
  (attention_layer linear_layer : Linear) (out1 out2 out3 : ndarray3) :
  shape1 out2 = shape1 out1 -> shape2 out2 = shape2 out1 ->
  shape1 out3 = shape1 out1 -> shape2 out3 = shape2 out1 ->
  (exists concat_out,
     torch_cat [out1; out2; out3] = Ok concat_out /\
     shape0 concat_out = shape0 out1 + shape0 out2 + shape0 out3 /\
     shape1 concat_out = shape1 out1 /\
     shape2 concat_out = shape2 out1) /\
  fusion_as_written softmax_dim1 sigmoid attention_layer linear_layer out1 out2 out3
  = Raise TypeError.
Proof.
  intros H21 H22 H31 H32.
  assert (Hcat : exists concat_out,
             torch_cat [out1; out2; out3] = Ok concat_out /\
             shape0 concat_out = shape0 out1 + shape0 out2 + shape0 out3 /\
             shape1 concat_out = shape1 out1 /\
             shape2 concat_out = shape2 out1).
  { unfold torch_cat. cbn [for_each]. unfold cat0 at 1.
    rewrite H21, H22, !Nat.eqb_refl. cbn [andb rbind].
    unfold cat0. cbn [shape1 shape2]. rewrite H31, H32, !Nat.eqb_refl.
    cbn [andb rbind]. eexists. split; [reflexivity |]. cbn. auto. }
  split; [exact Hcat |].
  destruct Hcat as (concat_out & Hc & _).
  unfold fusion_as_written. rewrite Hc. reflexivity.
Qed.

Lemma C3_witness :
  shape1 toy_tower_out = shape1 toy_tower_out /\
  fusion_as_written toy_softmax toy_sigmoid toy_linear toy_linear
    toy_tower_out toy_tower_out toy_tower_out = Raise TypeError.
Proof.
  split; [reflexivity |].
  apply (C3_fusion_as_written_raises toy_softmax toy_sigmoid toy_linear toy_linear
           toy_tower_out toy_tower_out toy_tower_out); reflexivity.
Defined.


(* ===================================================================== *)
(** * Part III: further properties of the code                            *)
(* ===================================================================== *)

(** ** The printed counts and the confusion matrix *)

Lemma np_sum_cons (b : bool) (bs : list bool) :
  np_sum (b :: bs) = (Z.b2z b + np_sum bs)%Z.
Proof. reflexivity. Qed.

(** X1.  On the development path the two numbers printed beside the metrics
    are the column sums of the confusion matrix: the count of predicted
    positives is tp + fp and the count of actual positives is tp + fn; on
    the training path the same holds for the rows the training loop
    stores. *)
Theorem printed_counts_are_confusion_margins :
  (forall results : list row,
     let c := confusion_eval results in
     printed_counts_eval results = ((tp c + fp c)%Z, (tp c + fn c)%Z)) /\
  (forall oys : list (float * float),
     let c := confusion_train (map row_of oys) in
     printed_counts_train (map row_of oys) = ((tp c + fp c)%Z, (tp c + fn c)%Z)).
Proof.
  split.
  - intros results c. subst c. unfold printed_counts_eval, confusion_eval.
    cbn [tp fp fn]. f_equal.
    + induction results as [| r rs IH]; [reflexivity |].
      cbn [map]. rewrite !np_sum_mask_cons, !np_sum_cons, IH.
      destruct (binarize_cases (fst r)) as [[_ ->] | [_ ->]];
        destruct (binarize_cases (snd r)) as [[_ ->] | [_ ->]]; cbn; lia.
    + induction results as [| r rs IH]; [reflexivity |].
      cbn [map]. rewrite !np_sum_mask_cons, !np_sum_cons, IH.
      destruct (binarize_cases (fst r)) as [[_ ->] | [_ ->]];
        destruct (binarize_cases (snd r)) as [[_ ->] | [_ ->]]; cbn; lia.
  - intros oys c. subst c. unfold printed_counts_train, confusion_train.
    cbn [tp fp fn]. f_equal.
    + induction oys as [| oy oys IH]; [reflexivity |].
      cbn [map]. rewrite !np_sum_mask_cons, !np_sum_cons, IH.
      destruct (row_of_binary oy) as [[Hf | Hf] [Hs | Hs]]; rewrite Hf, Hs;
        change (F64.eqb F64.zero (F64.of_int 1)) with false;
        change (F64.eqb F64.zero (F64.of_int 0)) with true;
        change (F64.eqb F64.one (F64.of_int 1)) with true;
        change (F64.eqb F64.one (F64.of_int 0)) with false;
        cbn; lia.
    + induction oys as [| oy oys IH]; [reflexivity |].
      cbn [map]. rewrite !np_sum_mask_cons, !np_sum_cons, IH.
      destruct (row_of_binary oy) as [[Hf | Hf] [Hs | Hs]]; rewrite Hf, Hs;
        change (F64.eqb F64.zero (F64.of_int 1)) with false;
        change (F64.eqb F64.zero (F64.of_int 0)) with true;
        change (F64.eqb F64.one (F64.of_int 1)) with true;
        change (F64.eqb F64.one (F64.of_int 0)) with false;
        cbn; lia.
Qed.

(** ** Batch size and the development metrics *)

(** X2.  On a machine where [args.use_cuda] holds the development loop
    completes for every positive batch size, and the rows it aggregates,
    and with them the confusion matrix and the F1 of the epoch, do not
    depend on the batch size. *)
Theorem dev_results_independent_of_batch_size
  {Input Params : Type} (use_cuda : bool) (forward : Params -> Input -> float)
  (bce_loss : list float -> list float -> float)
  (b1 b2 : nat) (dev_set : list (Input * float)) (st : loop_state Params) :
  use_cuda = true ->
  0 < b1 -> 0 < b2 ->
  exists dv1 dv2,
    for_each (loader_batches b1 dev_set) (dev_batch use_cuda forward bce_loss) st
    = Ok dv1 /\
    for_each (loader_batches b2 dev_set) (dev_batch use_cuda forward bce_loss) st
    = Ok dv2 /\
    ls_results dv1 = ls_results dv2 /\
    confusion_eval (ls_results dv1) = confusion_eval (ls_results dv2) /\
    f1_of (confusion_eval (ls_results dv1)) = f1_of (confusion_eval (ls_results dv2)).
Proof.
  intros -> H1 H2. unfold loader_batches.
  destruct (dev_loop_collated forward bce_loss
              (batches_of (length dev_set) b1 dev_set) st) as (dv1 & Hr1 & _ & Hrows1 & _).
  destruct (dev_loop_collated forward bce_loss
              (batches_of (length dev_set) b2 dev_set) st) as (dv2 & Hr2 & _ & Hrows2 & _).
  rewrite (batches_of_concat b1 dev_set H1 _ (Nat.le_refl _)) in Hrows1.
  rewrite (batches_of_concat b2 dev_set H2 _ (Nat.le_refl _)) in Hrows2.
  exists dv1, dv2. split; [exact Hr1 |]. split; [exact Hr2 |].
  assert (Heq : ls_results dv1 = ls_results dv2) by congruence.
  rewrite Heq. auto.
Qed.

Lemma dev_results_independent_of_batch_size_witness :
  true = true /\ 0 < 1 /\ 0 < 2 /\
  exists dv1 dv2,
    for_each (loader_batches 1 toy_dev) (dev_batch true toy_forward toy_loss)
      (Build_loop_state F64.one None [] []) = Ok dv1 /\
    for_each (loader_batches 2 toy_dev) (dev_batch true toy_forward toy_loss)
      (Build_loop_state F64.one None [] []) = Ok dv2 /\
    ls_results dv1 = ls_results dv2.
Proof.
  split; [reflexivity |]. split; [lia |]. split; [lia |].
  destruct (dev_results_independent_of_batch_size true toy_forward toy_loss 1 2
              toy_dev (Build_loop_state F64.one None [] [])
              eq_refl ltac:(lia) ltac:(lia))
    as (dv1 & dv2 & H1 & H2 & H3 & _).
  exists dv1, dv2. auto.
Defined.

(** ** Epochs whose development split shows no positive *)

Lemma tp_zero_no_predicted (rs : list row) :
  Forall (fun r => binarize (fst r) = 0%Z) rs -> tp (confusion_eval rs) = 0%Z.
Proof.
  unfold confusion_eval. cbn [tp].
  induction 1 as [| r rs Hr _ IH]; [reflexivity |].
  cbn [map]. rewrite np_sum_mask_cons, IH, Hr.
  destruct (binarize (snd r) =? 1)%Z; reflexivity.
Qed.

Lemma tp_zero_no_actual (rs : list row) :
  Forall (fun r => binarize (snd r) = 0%Z) rs -> tp (confusion_eval rs) = 0%Z.
Proof.
  unfold confusion_eval. cbn [tp].
  induction 1 as [| r rs Hr _ IH]; [reflexivity |].
  cbn [map]. rewrite np_sum_mask_cons, IH, Hr. reflexivity.
Qed.

Lemma leb_nan_r (x : float) : F64.leb x S754_nan = false.
Proof. destruct x; reflexivity. Qed.

Section DevWithoutPositives.
Context {np : Numpy}.
Context {Input Params : Type}.
Context (forward : Params -> Input -> float).
Context (bce_loss : list float -> list float -> float).
Context (optim_step : Params -> list Input -> list float -> Params).
Context (scheduler_step : Params -> Params).
Context (shuffle : nat -> list (Input * float) -> list (Input * float)).
Context (batch_size : nat).
Context (train_set dev_set : list (Input * float)).

Local Abbreviation epoch' :=
  (epoch true forward bce_loss optim_step scheduler_step shuffle batch_size train_set dev_set).

(** What an epoch computes on the development split: the rows of the model
    outputs under the parameters the epoch ends with. *)
Lemma epoch_detail (step : nat) (st : run_state Params) :
  0 < batch_size ->
  shuffle step train_set <> [] ->
  exists s',
    epoch' step st = Ok s' /\
    dev_f1 s' = f1_of (confusion_eval (map row_of (scored forward (params s') dev_set))) /\
    dev_acc s' = acc_of (confusion_eval (map row_of (scored forward (params s') dev_set))).
Proof.
  intros Hb Hne. unfold epoch.
  set (st0 := Build_loop_state (params st) (out_var st) [] []).
  destruct (train_loop_collated forward bce_loss optim_step
              (batches_of (length (shuffle step train_set)) batch_size
                 (shuffle step train_set)) st0)
    as (tr & oys & Hrun & _ & _ & _ & _ & Hout).
  fold (loader_batches batch_size (shuffle step train_set)) in Hrun.
  rewrite Hrun. cbn [rbind].
  destruct (ls_out tr) as [o |] eqn:Ho.
  2:{ exfalso. apply Hout; [| reflexivity].
      destruct (shuffle step train_set); [congruence | discriminate]. }
  cbn [rbind].
  set (st1 := Build_loop_state (scheduler_step (ls_params tr)) (Some o) [] []).
  destruct (dev_loop_collated forward bce_loss
              (batches_of (length dev_set) batch_size dev_set) st1)
    as (dv & Hdev & _ & Hrows & _).
  fold (loader_batches batch_size dev_set) in Hdev.
  rewrite (batches_of_concat batch_size dev_set Hb _ (Nat.le_refl _)) in Hrows.
  cbn [ls_results ls_params st1 app] in Hrows.
  rewrite Hdev. cbn [rbind]. rewrite Hrows.
  destruct (F64.leb (max_f1 st) _);
    eexists; (split; [reflexivity |]);
    unfold dev_f1, dev_acc; cbn [log params];
    rewrite !last_last; cbn [snd report_of r_f1 r_acc]; split; reflexivity.
Qed.

Hypothesis batch_size_pos : 0 < batch_size.
Hypothesis no_positive :
  (forall p, Forall (fun e => binarize (forward p (fst e)) = 0%Z) dev_set) \/
  Forall (fun e => binarize (snd e) = 0%Z) dev_set.

Lemma dev_rows_tp_zero (p : Params) :
  tp (confusion_eval (map row_of (scored forward p dev_set))) = 0%Z.
Proof.
  destruct no_positive as [Hp | Hl].
  - apply tp_zero_no_predicted. unfold scored. rewrite map_map.
    apply Forall_map. eapply Forall_impl; [exact (Hp p) |].
    intros e He. cbn [fst row_of]. unfold binz.
    now rewrite binarize_of_int_binarize.
  - apply tp_zero_no_actual. unfold scored. rewrite map_map.
    apply Forall_map. eapply Forall_impl; [exact Hl |].
    intros e He. cbn [snd row_of]. unfold binz.
    now rewrite binarize_of_int_binarize.
Qed.

Lemma epoch_no_positive (step : nat) (st : run_state Params) :
  shuffle step train_set <> [] ->
  exists s',
    epoch' step st = Ok s' /\
    dev_f1 s' = S754_nan /\
    checkpoint s' = checkpoint st /\ best_epoch s' = best_epoch st /\
    max_f1 s' = max_f1 st /\ max_f1_acc s' = max_f1_acc st.
Proof.
  intros Hne.
  destruct (epoch_detail step st batch_size_pos Hne) as (s1 & H1 & Hf1 & _).
  destruct (epoch_outcome forward bce_loss optim_step scheduler_step shuffle
              batch_size train_set dev_set step st Hne) as (s' & Hs' & _ & _ & Hfalse).
  rewrite H1 in Hs'. injection Hs' as <-.
  assert (Hnan : dev_f1 s1 = S754_nan).
  { rewrite Hf1. apply f1_of_tp_zero. apply dev_rows_tp_zero. }
  exists s1. split; [exact H1 |]. split; [exact Hnan |].
  rewrite Hnan, leb_nan_r in Hfalse.
  destruct (Hfalse eq_refl) as (? & ? & ? & ?). auto.
Qed.

Lemma training_no_positive :
  (forall k, shuffle k train_set <> []) ->
  forall (n a : nat) (st : run_state Params),
  exists st',
    for_each (seq a n) epoch' st = Ok st' /\
    checkpoint st' = checkpoint st /\ best_epoch st' = best_epoch st /\
    max_f1 st' = max_f1 st /\ max_f1_acc st' = max_f1_acc st.
Proof.
  intros Hsh n. induction n as [| n IH]; intros a st.
  - exists st. cbn. auto.
  - destruct (epoch_no_positive a st (Hsh a)) as (s1 & H1 & _ & Hc & Hb & Hm & Ha).
    destruct (IH (S a) s1) as (st' & Hrun & Hc' & Hb' & Hm' & Ha').
    exists st'. cbn [seq for_each]. rewrite H1. cbn [rbind].
    split; [exact Hrun |]. repeat split; congruence.
Qed.
End DevWithoutPositives.

(** X3.  On a machine where [args.use_cuda] holds, an epoch whose
    development split holds no positive label, or on which the model
    predicts no positive whatever its parameters, completes with a
    development F1 of NaN and leaves the checkpoint file, the best epoch
    and the best F1 and accuracy as they were (lines 269-292). *)
Theorem epoch_without_dev_positive_keeps_best
  {np : Numpy} {Input Params : Type} (use_cuda : bool)
  (forward : Params -> Input -> float)
  (bce_loss : list float -> list float -> float)
  (optim_step : Params -> list Input -> list float -> Params)
  (scheduler_step : Params -> Params)
  (shuffle : nat -> list (Input * float) -> list (Input * float))
  (batch_size : nat) (train_set dev_set : list (Input * float))
  (step : nat) (st : run_state Params) :
  use_cuda = true ->
  0 < batch_size ->
  shuffle step train_set <> [] ->
  (forall p, Forall (fun e => binarize (forward p (fst e)) = 0%Z) dev_set) \/
  Forall (fun e => binarize (snd e) = 0%Z) dev_set ->
  exists s',
    epoch use_cuda forward bce_loss optim_step scheduler_step shuffle batch_size
      train_set dev_set step st = Ok s' /\
    dev_f1 s' = S754_nan /\
    checkpoint s' = checkpoint st /\ best_epoch s' = best_epoch st /\
    max_f1 s' = max_f1 st /\ max_f1_acc s' = max_f1_acc st.
Proof.
  intros -> Hb Hsh Hno.
  exact (epoch_no_positive forward bce_loss optim_step scheduler_step shuffle
           batch_size train_set dev_set Hb Hno step st Hsh).
Qed.

Lemma epoch_without_dev_positive_keeps_best_witness :
  true = true /\ 0 < 2 /\ toy_shuffle 0 toy_train <> [] /\
  exists s',
    epoch (np := toy_numpy) true toy_forward toy_loss toy_step toy_scheduler toy_shuffle 2
      toy_train [(F64.one, F64.zero); (F64.half, F64.zero)] 0
      (initial_state toy_w0 None) = Ok s' /\
    dev_f1 s' = S754_nan /\
    checkpoint s' = None /\ best_epoch s' = (-1)%Z /\
    max_f1 s' = F64.of_int 0 /\ max_f1_acc s' = F64.of_int 0.
Proof.
  split; [reflexivity |]. split; [lia |]. split; [discriminate |].
  apply (epoch_without_dev_positive_keeps_best (np := toy_numpy) true toy_forward
           toy_loss toy_step toy_scheduler toy_shuffle 2 toy_train
           [(F64.one, F64.zero); (F64.half, F64.zero)] 0 (initial_state toy_w0 None)).
  - reflexivity.
  - lia.
  - discriminate.
  - right. repeat constructor.
Defined.

(** X4.  On a machine where [args.use_cuda] holds, when no epoch can score
    a true positive on the development split (the split has no positive
    label, an empty split included, or the model predicts none), the
    training loop ends with the checkpoint path untouched and the triple
    (-1, 0, 0); [torch.load] of line 298 then reads whatever the path held
    before the run, and raises FileNotFoundError when it held nothing. *)
Theorem run_without_dev_positive_loads_stale_checkpoint
  {np : Numpy} {Input Params : Type} (use_cuda : bool)
  (forward : Params -> Input -> float)
  (bce_loss : list float -> list float -> float)
  (optim_step : Params -> list Input -> list float -> Params)
  (scheduler_step : Params -> Params)
  (shuffle : nat -> list (Input * float) -> list (Input * float))
  (batch_size : nat) (train_set dev_set test_set : list (Input * float))
  (epoch_num : nat) (p0 : Params) (file : option Params) :
  use_cuda = true ->
  0 < batch_size ->
  train_set <> [] ->
  (forall k, shuffle k train_set <> []) ->
  (forall p, Forall (fun e => binarize (forward p (fst e)) = 0%Z) dev_set) \/
  Forall (fun e => binarize (snd e) = 0%Z) dev_set ->
  (exists st,
     training_loop use_cuda forward bce_loss optim_step scheduler_step shuffle
       batch_size train_set dev_set epoch_num (initial_state p0 file) = Ok st /\
     checkpoint st = file /\ best_epoch st = (-1)%Z /\
     max_f1 st = F64.of_int 0 /\ max_f1_acc st = F64.of_int 0) /\
  (file = None ->
     run use_cuda forward bce_loss optim_step scheduler_step shuffle batch_size
       train_set dev_set test_set epoch_num p0 file = Raise FileNotFoundError).
Proof.
  intros -> Hb Hne Hsh Hno.
  destruct (training_no_positive forward bce_loss optim_step scheduler_step
              shuffle batch_size train_set dev_set Hb Hno Hsh epoch_num 0
              (initial_state p0 file)) as (st & Hrun & Hc & Hbe & Hm & Ha).
  split.
  - exists st. unfold training_loop. auto.
  - intros ->. unfold run.
    destruct (Nat.eqb_spec batch_size 0) as [E | _]; [lia |].
    destruct train_set as [| x l] eqn:Etrain; [congruence |].
    unfold training_loop. rewrite Hrun. cbn [rbind].
    unfold test_eval. rewrite Hc. reflexivity.
Qed.

Lemma run_without_dev_positive_loads_stale_checkpoint_witness :
  true = true /\ 0 < 2 /\ toy_train <> [] /\
  (exists st,
     training_loop (np := toy_numpy) true toy_forward toy_loss toy_step toy_scheduler
       toy_shuffle 2 toy_train [] 3 (initial_state toy_w0 None) = Ok st /\
     checkpoint st = None /\ best_epoch st = (-1)%Z /\
     max_f1 st = F64.of_int 0 /\ max_f1_acc st = F64.of_int 0) /\
  (@None float = None ->
     run (np := toy_numpy) true toy_forward toy_loss toy_step toy_scheduler toy_shuffle 2
       toy_train [] toy_test 3 toy_w0 None = Raise FileNotFoundError).
Proof.
  split; [reflexivity |]. split; [lia |]. split; [discriminate |].
  apply (run_without_dev_positive_loads_stale_checkpoint (np := toy_numpy) true
           toy_forward toy_loss toy_step toy_scheduler toy_shuffle 2 toy_train []
           toy_test 3 toy_w0 None).
  - reflexivity.
  - lia.
  - discriminate.
  - intros k. unfold toy_shuffle. destruct (Nat.even k); discriminate.
  - right. constructor.
Defined.

(** ** An empty training split, and a machine without the accelerator *)

(** X5.  With an empty training split the shuffling loader of line 117
    cannot be built: the script raises ValueError there, before the model
    is constructed and before the loop of line 210 is entered, whatever the
    batch size, the machine, the other splits and the checkpoint path. *)
Theorem empty_training_split_is_refused
  {np : Numpy} {Input Params : Type} (use_cuda : bool)
  (forward : Params -> Input -> float)
  (bce_loss : list float -> list float -> float)
  (optim_step : Params -> list Input -> list float -> Params)
  (scheduler_step : Params -> Params)
  (shuffle : nat -> list (Input * float) -> list (Input * float))
  (batch_size : nat) (dev_set test_set : list (Input * float))
  (epoch_num : nat) (p0 : Params) (file : option Params) :
  run use_cuda forward bce_loss optim_step scheduler_step shuffle batch_size
    [] dev_set test_set epoch_num p0 file = Raise ValueError.
Proof. unfold run. destruct (batch_size =? 0); reflexivity. Qed.

(** X22.  On a machine where [args.use_cuda] does not hold, a run with a
    training split that is not empty and at least one epoch stops at the
    first training batch: line 224 indexes the 0-dimensional array of the
    loss and raises IndexError, so no optimiser step is taken and nothing
    is evaluated. *)
Theorem run_without_cuda_stops_at_first_batch
  {np : Numpy} {Input Params : Type}
  (forward : Params -> Input -> float)
  (bce_loss : list float -> list float -> float)
  (optim_step : Params -> list Input -> list float -> Params)
  (scheduler_step : Params -> Params)
  (shuffle : nat -> list (Input * float) -> list (Input * float))
  (batch_size : nat) (train_set dev_set test_set : list (Input * float))
  (epoch_num : nat) (p0 : Params) (file : option Params) :
  0 < batch_size -> 0 < epoch_num ->
  train_set <> [] -> shuffle 0 train_set <> [] ->
  run false forward bce_loss optim_step scheduler_step shuffle batch_size
    train_set dev_set test_set epoch_num p0 file = Raise IndexError.
Proof.
  intros Hb He Hne Hsh. unfold run.
  destruct (Nat.eqb_spec batch_size 0) as [E | _]; [lia |].
  destruct train_set as [| x l] eqn:Etrain; [congruence |].
  unfold training_loop.
  destruct epoch_num as [| n]; [lia |].
  cbn [seq for_each]. unfold epoch at 1. unfold loader_batches at 1.
  destruct (shuffle 0 (x :: l)) as [| y ys] eqn:Es; [congruence |].
  cbn [length batches_of map for_each].
  rewrite train_batch_no_cuda. reflexivity.
Qed.

Lemma run_without_cuda_stops_at_first_batch_witness :
  0 < 2 /\ 0 < 3 /\ toy_train <> [] /\ toy_shuffle 0 toy_train <> [] /\
  run (np := toy_numpy) false toy_forward toy_loss toy_step toy_scheduler toy_shuffle 2
    toy_train toy_dev toy_test 3 toy_w0 None = Raise IndexError.
Proof.
  split; [lia |]. split; [lia |]. split; [discriminate |]. split; [discriminate |].
  apply (run_without_cuda_stops_at_first_batch (np := toy_numpy) toy_forward toy_loss
           toy_step toy_scheduler toy_shuffle 2 toy_train toy_dev toy_test 3 toy_w0 None);
    [lia | lia | discriminate | discriminate].
Defined.

(** ** Command line and configuration *)

Lemma option_values_unfold (cli : gmap string string) :
  option_values cli =
  foldr (fun kd m => <[fst kd := match cli !! fst kd with
                                 | Some s => VStr s
                                 | None => snd kd
                                 end]> m) ∅ option_defaults.
Proof.
  unfold option_values. induction option_defaults as [| kd l IH]; [reflexivity |].
  cbn [map foldr]. rewrite <- IH. reflexivity.
Qed.

Ltac lookup_args :=
  repeat first
    [ rewrite lookup_insert_ne by discriminate
    | rewrite lookup_insert_eq
    | rewrite lookup_empty ].

Lemma option_values_seed (cli : gmap string string) :
  option_values cli !! "seed"%string =
  Some (match cli !! "seed"%string with Some s => VStr s | None => VInt 2024 end).
Proof.
  rewrite option_values_unfold. cbn [foldr option_defaults fst snd]. lookup_args.
  reflexivity.
Qed.

Lemma option_values_use_cuda (cli : gmap string string) :
  option_values cli !! "use_cuda"%string =
  Some (match cli !! "use_cuda"%string with Some s => VStr s | None => VBool true end).
Proof.
  rewrite option_values_unfold. cbn [foldr option_defaults fst snd]. lookup_args.
  reflexivity.
Qed.

Lemma option_values_data_seg (cli : gmap string string) :
  option_values cli !! "data_seg"%string =
  Some (match cli !! "data_seg"%string with Some s => VStr s | None => VInt 30 end).
Proof.
  rewrite option_values_unfold. cbn [foldr option_defaults fst snd]. lookup_args.
  reflexivity.
Qed.

Lemma option_values_sample_rate (cli : gmap string string) :
  option_values cli !! "sample_rate"%string =
  Some (match cli !! "sample_rate"%string with Some s => VStr s | None => VInt 1 end).
Proof.
  rewrite option_values_unfold. cbn [foldr option_defaults fst snd]. lookup_args.
  reflexivity.
Qed.

Lemma option_values_num_feature (cli : gmap string string) :
  option_values cli !! "num_feature"%string = None.
Proof.
  rewrite option_values_unfold. cbn [foldr option_defaults fst snd]. lookup_args.
  reflexivity.
Qed.

Lemma setup_unfold (cli : gmap string string) (cuda_available : bool) :
  declared_only cli = true ->
  cli !! "seed"%string = None ->
  setup cli cuda_available =
  let use_cuda :=
    py_and (match cli !! "use_cuda"%string with
            | Some s => VStr s
            | None => VBool true
            end) (VBool cuda_available) in
  let* data_len :=
    py_floordiv
      (match cli !! "data_seg"%string with Some s => VStr s | None => VInt 30 end)
      (match cli !! "sample_rate"%string with Some s => VStr s | None => VInt 1 end) in
  Ok (configured cli use_cuda data_len).
Proof.
  intros Hdecl Hseed. unfold setup, get_option, parse_args.
  rewrite Hdecl. cbn [rbind].
  rewrite option_values_seed, Hseed. cbn [rbind check_seed].
  rewrite option_values_use_cuda. cbn [rbind].
  lookup_args. cbn [rbind]. lookup_args.
  rewrite option_values_data_seg. cbn [rbind]. lookup_args.
  rewrite option_values_sample_rate. cbn [rbind].
  reflexivity.
Qed.

Lemma setup_inversion (cli : gmap string string) (cuda_available : bool)
  (args : gmap string pyval) :
  setup cli cuda_available = Ok args ->
  exists use_cuda data_len, args = configured cli use_cuda data_len.
Proof.
  unfold setup, get_option, parse_args.
  destruct (declared_only cli); [| discriminate]. cbn [rbind].
  rewrite option_values_seed. cbn [rbind].
  destruct (check_seed _); [| discriminate]. cbn [rbind].
  rewrite option_values_use_cuda. cbn [rbind].
  lookup_args. cbn [rbind]. lookup_args.
  rewrite option_values_data_seg. cbn [rbind]. lookup_args.
  rewrite option_values_sample_rate. cbn [rbind].
  destruct (py_floordiv _ _) as [d |]; [| discriminate]. cbn [rbind].
  intros H. injection H as <-. eexists _, _. reflexivity.
Qed.

(** X6.  [--use_cuda] declares no type, so its value arrives as a string
    and every non-empty string is true: [--use_cuda False] leaves the
    device on "cuda" whenever CUDA is available.  For a command line that
    holds declared options only and gives none of [--seed], [--data_seg]
    and [--sample_rate], the configuration lines complete and the device
    is "cuda" exactly when CUDA is available and the option is absent or
    given a non-empty value (lines 27, 43-44). *)
Theorem use_cuda_option_is_a_truthy_string
  (cli : gmap string string) (cuda_available : bool) :
  declared_only cli = true ->
  cli !! "seed"%string = None ->
  cli !! "data_seg"%string = None ->
  cli !! "sample_rate"%string = None ->
  exists args,
    setup cli cuda_available = Ok args /\
    args !! "device"%string =
      Some (VStr (if match cli !! "use_cuda"%string with
                     | Some s => negb (String.eqb s "")
                     | None => true
                     end && cuda_available
                  then "cuda" else "cpu")).
Proof.
  intros Hdecl Hseed Hseg Hrate.
  rewrite (setup_unfold cli cuda_available Hdecl Hseed), Hseg, Hrate.
  cbn [py_floordiv Z.eqb rbind]. eexists. split; [reflexivity |].
  unfold configured. lookup_args. f_equal.
  destruct (cli !! "use_cuda"%string) as [[| a s] |]; unfold py_and;
    destruct cuda_available; reflexivity.
Qed.

Lemma use_cuda_option_is_a_truthy_string_witness :
  exists args,
    setup {["use_cuda"%string := "False"%string]} true = Ok args /\
    args !! "device"%string = Some (VStr "cuda").
Proof.
  destruct (use_cuda_option_is_a_truthy_string
              {["use_cuda"%string := "False"%string]} true)
    as (args & Hrun & Hdev);
    [reflexivity | reflexivity | reflexivity | reflexivity |].
  exists args. split; [exact Hrun |]. rewrite Hdev. reflexivity.
Defined.

(** X7.  For a command line that holds declared options only and does
    not give [--seed]: [args.data_len] is 30 when neither [--data_seg] nor
    [--sample_rate] is given; giving either one makes line 46 divide a
    string and raise TypeError, whatever the value. *)
Theorem data_len_needs_the_defaults
  (cli : gmap string string) (cuda_available : bool) :
  declared_only cli = true ->
  cli !! "seed"%string = None ->
  (cli !! "data_seg"%string = None -> cli !! "sample_rate"%string = None ->
     exists args,
       setup cli cuda_available = Ok args /\
       args !! "data_len"%string = Some (VInt 30)) /\
  (cli !! "data_seg"%string <> None \/ cli !! "sample_rate"%string <> None ->
     setup cli cuda_available = Raise TypeError).
Proof.
  intros Hdecl Hseed. rewrite (setup_unfold cli cuda_available Hdecl Hseed). split.
  - intros -> ->. cbn [py_floordiv Z.eqb rbind]. eexists. split; [reflexivity |].
    unfold configured. lookup_args. reflexivity.
  - intros [H | H].
    + destruct (cli !! "data_seg"%string); [reflexivity | congruence].
    + destruct (cli !! "sample_rate"%string); [| congruence].
      destruct (cli !! "data_seg"%string); reflexivity.
Qed.

Lemma data_len_needs_the_defaults_witness :
  (exists args,
     setup ∅ false = Ok args /\ args !! "data_len"%string = Some (VInt 30)) /\
  setup {["data_seg"%string := "30"%string]} false = Raise TypeError.
Proof.
  split.
  - apply (data_len_needs_the_defaults ∅ false); reflexivity.
  - apply (data_len_needs_the_defaults {["data_seg"%string := "30"%string]} false).
    + reflexivity.
    + reflexivity.
    + left. discriminate.
Defined.

(** X8.  No line defines [args.num_feature]: whenever the configuration
    lines 36-52 complete, whatever the command line and the machine,
    the construction of the model at line 202 raises AttributeError while
    evaluating its argument. *)
Theorem model_construction_reads_undefined_option
  (cli : gmap string string) (cuda_available : bool) (args : gmap string pyval) :
  setup cli cuda_available = Ok args ->
  model_dim_in args = Raise AttributeError.
Proof.
  intros H. destruct (setup_inversion cli cuda_available args H) as (u & d & ->).
  unfold model_dim_in, get_option, configured. lookup_args.
  rewrite option_values_num_feature. reflexivity.
Qed.

Lemma model_construction_reads_undefined_option_witness :
  exists args, setup ∅ true = Ok args /\ model_dim_in args = Raise AttributeError.
Proof.
  destruct (setup ∅ true) as [args | e] eqn:E.
  - exists args. split; [reflexivity |].
    apply (model_construction_reads_undefined_option ∅ true args E).
  - exfalso. rewrite setup_unfold in E by reflexivity. discriminate E.
Defined.

(** ** The development/test split *)

Lemma fancy_index_omap {A} (a : list A) (idx : list nat) :
  Forall (fun i => i < length a) idx ->
  fancy_index a idx = Ok (omap (fun i => a !! i) idx).
Proof.
  induction 1 as [| i idx Hi _ IH]; [reflexivity |].
  destruct (lookup_lt_is_Some_2 a i Hi) as [v Hv].
  cbn [fancy_index omap list_omap]. rewrite Hv, IH. reflexivity.
Qed.

Lemma omap_lookup_length {A} (a : list A) (idx : list nat) :
  Forall (fun i => i < length a) idx ->
  length (omap (fun i => a !! i) idx) = length idx.
Proof.
  induction 1 as [| i idx Hi _ IH]; [reflexivity |].
  destruct (lookup_lt_is_Some_2 a i Hi) as [v Hv].
  cbn [omap list_omap]. rewrite Hv. cbn [length]. f_equal. exact IH.
Qed.

Lemma omap_lookup_seq_from {A} (a pre : list A) :
  omap (fun i => (pre ++ a) !! i) (seq (length pre) (length a)) = a.
Proof.
  revert pre. induction a as [| x a IH]; intros pre; [reflexivity |].
  cbn [length seq omap list_omap].
  rewrite list_lookup_middle by reflexivity. f_equal.
  specialize (IH (pre ++ [x])).
  rewrite <- app_assoc, length_app in IH. cbn [length app] in IH.
  rewrite Nat.add_1_r in IH. exact IH.
Qed.

Lemma omap_lookup_seq {A} (a : list A) :
  omap (fun i => a !! i) (seq 0 (length a)) = a.
Proof. exact (omap_lookup_seq_from a []). Qed.

Lemma omap_lookup_zip {A B} (a : list A) (b : list B) (idx : list nat) :
  length a = length b ->
  omap (fun i => zip a b !! i) idx =
  zip (omap (fun i => a !! i) idx) (omap (fun i => b !! i) idx).
Proof.
  intros Hlen. induction idx as [| i idx IH]; [reflexivity |].
  cbn [omap list_omap]. rewrite lookup_zip_with.
  destruct (a !! i) as [x |] eqn:Ea; destruct (b !! i) as [y |] eqn:Eb; cbn.
  - f_equal. exact IH.
  - apply lookup_lt_Some in Ea. apply lookup_ge_None in Eb. lia.
  - apply lookup_lt_Some in Eb. apply lookup_ge_None in Ea. lia.
  - exact IH.
Qed.

Lemma py_round_half_bounds (n : nat) :
  2 * py_round_half n <= n + 1 /\ n <= 2 * py_round_half n + 1 /\
  py_round_half n <= n /\
  (Nat.odd n = true -> Nat.even (py_round_half n) = true).
Proof.
  unfold py_round_half.
  pose proof (Nat.div_mod_eq n 2) as Hdm.
  pose proof (Nat.mod_upper_bound n 2 ltac:(lia)) as Hm.
  destruct (Nat.even n) eqn:Ev.
  - rewrite <- Nat.negb_even, Ev. repeat split; try lia; discriminate.
  - assert (Hodd : n mod 2 = 1).
    { destruct (Nat.eq_dec (n mod 2) 0) as [E0 | ]; [| lia].
      exfalso. assert (Nat.even n = true); [| congruence].
      apply Nat.even_spec. exists (n / 2). lia. }
    destruct (Nat.even (n / 2)) eqn:Ev2.
    + repeat split; try lia. intros _. exact Ev2.
    + repeat split; try lia. intros _.
      rewrite Nat.add_1_r, Nat.even_succ, <- Nat.negb_even, Ev2. reflexivity.
Qed.

(** X9.  Lines 106-111 split the evaluation pool by a random permutation
    of its indices: both index selections succeed, every window stays
    paired with its own label, and the development and test parts together
    are a rearrangement of the pool (no example lost, none in both parts).
    The development part has [round(n * 0.5)] examples, which for an odd
    [n] is the even one of the two neighbours of [n / 2], so it is
    sometimes the smaller and sometimes the larger part. *)
Theorem dev_test_split_partitions_pool {A B : Type}
  (perm : list nat) (test_data : list A) (test_label : list B) :
  length test_data = length test_label ->
  Permutation perm (seq 0 (length test_label)) ->
  exists dev_data dev_label test_data' test_label',
    split_pool perm test_data test_label =
      Ok ((dev_data, dev_label), (test_data', test_label')) /\
    length dev_data = length dev_label /\
    length test_data' = length test_label' /\
    length dev_label + length test_label' = length test_label /\
    Permutation (zip dev_data dev_label ++ zip test_data' test_label')
                (zip test_data test_label) /\
    2 * length dev_label <= length test_label + 1 /\
    length test_label <= 2 * length dev_label + 1 /\
    (Nat.odd (length test_label) = true -> Nat.even (length dev_label) = true).
Proof.
  intros Hlen Hperm.
  set (n := length test_label) in *.
  set (k := py_round_half n).
  destruct (py_round_half_bounds n) as (Hb1 & Hb2 & Hkn & Hodd). fold k in Hb1, Hb2, Hkn, Hodd.
  assert (Hplen : length perm = n).
  { rewrite (Permutation_length Hperm). apply length_seq. }
  assert (Hrange : Forall (fun i => i < n) perm).
  { apply Forall_forall. intros i Hi. rewrite Hperm in Hi.
    apply elem_of_seq in Hi. lia. }
  assert (Hdev : Forall (fun i => i < n) (firstn k perm)) by (apply Forall_take; exact Hrange).
  assert (Htest : Forall (fun i => i < n) (skipn k perm)) by (apply Forall_drop; exact Hrange).
  exists (omap (fun i => test_data !! i) (firstn k perm)),
         (omap (fun i => test_label !! i) (firstn k perm)),
         (omap (fun i => test_data !! i) (skipn k perm)),
         (omap (fun i => test_label !! i) (skipn k perm)).
  assert (Hl1 : length (omap (fun i => test_label !! i) (firstn k perm)) = k).
  { rewrite omap_lookup_length by exact Hdev. rewrite length_take. lia. }
  assert (Hl2 : length (omap (fun i => test_label !! i) (skipn k perm)) = n - k).
  { rewrite omap_lookup_length by exact Htest. rewrite length_drop. lia. }
  split; [| split; [| split; [| split; [| split; [| split]]]]].
  - unfold split_pool. fold n k.
    rewrite (fancy_index_omap test_data) by (rewrite Hlen; exact Hdev).
    cbn [rbind].
    rewrite (fancy_index_omap test_label) by exact Hdev. cbn [rbind].
    rewrite (fancy_index_omap test_data) by (rewrite Hlen; exact Htest).
    cbn [rbind].
    rewrite (fancy_index_omap test_label) by exact Htest. reflexivity.
  - rewrite !omap_lookup_length; [reflexivity | exact Hdev | rewrite Hlen; exact Hdev].
  - rewrite !omap_lookup_length; [reflexivity | exact Htest | rewrite Hlen; exact Htest].
  - rewrite Hl1, Hl2. lia.
  - rewrite <- !omap_lookup_zip by exact Hlen.
    rewrite <- omap_app, take_drop.
    rewrite Hperm.
    replace n with (length (zip test_data test_label)).
    + rewrite omap_lookup_seq. reflexivity.
    + rewrite length_zip_with. fold n. lia.
  - rewrite Hl1. exact Hb1.
  - rewrite Hl1. split; [exact Hb2 | exact Hodd].
Qed.

Lemma dev_test_split_partitions_pool_witness :
  length [10; 11; 12; 13; 14] = length [true; false; false; true; false] /\
  Permutation [3; 0; 4; 1; 2] (seq 0 (length [true; false; false; true; false])) /\
  exists dev_data dev_label test_data' test_label',
    split_pool [3; 0; 4; 1; 2] [10; 11; 12; 13; 14] [true; false; false; true; false] =
      Ok ((dev_data, dev_label), (test_data', test_label')) /\
    length dev_data = length dev_label /\
    length test_data' = length test_label' /\
    length dev_label + length test_label' = 5 /\
    Permutation (zip dev_data dev_label ++ zip test_data' test_label')
                (zip [10; 11; 12; 13; 14] [true; false; false; true; false]) /\
    2 * length dev_label <= 5 + 1 /\
    5 <= 2 * length dev_label + 1 /\
    (Nat.odd 5 = true -> Nat.even (length dev_label) = true).
Proof.
  assert (Hp : Permutation [3; 0; 4; 1; 2] (seq 0 5)).
  { cbn [seq].
    apply (Permutation_cons_app [0; 1; 2] [4] 3).
    apply Permutation_cons; [reflexivity |].
    apply (Permutation_cons_app [1; 2] [] 4).
    reflexivity. }
  split; [reflexivity |]. split; [exact Hp |].
  apply (dev_test_split_partitions_pool [3; 0; 4; 1; 2] [10; 11; 12; 13; 14]
           [true; false; false; true; false]); [reflexivity | exact Hp].
Defined.

(** ** Datasets *)

Lemma for_each_app {A S} (body : A -> S -> result S) (xs ys : list A) (s : S) :
  for_each (xs ++ ys) body s = let* s' := for_each xs body s in for_each ys body s'.
Proof.
  revert s. induction xs as [| x xs IH]; intros s; [reflexivity |].
  cbn [app for_each]. destruct (body x s) as [s1 | e]; cbn [rbind]; auto.
Qed.

Lemma lookup_nth_lt {A} (l : list A) (i : nat) (d : A) :
  i < length l -> l !! i = Some (nth i l d).
Proof.
  revert i. induction l as [| x l IH]; intros i Hi; [cbn in Hi; lia |].
  destruct i as [| i]; [reflexivity |]. cbn. apply IH. cbn in Hi. lia.
Qed.

(** X10.  An evaluation dataset is normalised with as many stored
    statistics as it has channels: with at most as many channels as the
    stored arrays are long, channel [i] is normalised with entry [i] and
    nothing is reported; with more channels the construction raises
    IndexError (lines 85-90). *)
Theorem eval_dataset_channel_count
  {np : Numpy} (args : namespace) (M D : list float) (X : ndarray3)
  (label : list float) :
  args !! "train_mean"%string = Some M -> args !! "train_std"%string = Some D ->
  (shape2 X <= length M -> shape2 X <= length D ->
     exists d,
       SigDataset_init args X label false = Ok (args, d) /\
       shape0 (ds_input d) = shape0 X /\ shape1 (ds_input d) = shape1 X /\
       shape2 (ds_input d) = shape2 X /\
       forall n t i, i < shape2 X ->
         item (ds_input d) n t i
         = F64.div (F64.sub (item X n t i) (nth i M F64.zero))
             (F64.add (nth i D F64.zero) F64.eps)) /\
  (length M < shape2 X \/ length D < shape2 X ->
     SigDataset_init args X label false = Raise IndexError).
Proof.
  intros HM HD. split.
  - intros HcM HcD. unfold SigDataset_init. cbn [rbind negb].
    destruct (apply_loop args M D (fun i => nth i M F64.zero)
                (fun i => nth i D F64.zero) (shape2 X) HM HD) with
      (n := shape2 X) (a := 0) (Y := X) as (Y' & Hrun & H0 & H1 & H2 & Hitem).
    { intros i Hi. split; apply lookup_nth_lt; lia. }
    { lia. }
    rewrite Hrun. cbn [rbind fst snd].
    eexists. split; [reflexivity |]. cbn [ds_input].
    split; [exact H0 |]. split; [exact H1 |]. split; [exact H2 |].
    intros n t i Hi. rewrite Hitem.
    destruct (Nat.leb_spec 0 i), (Nat.ltb_spec i (0 + shape2 X)); cbn [andb];
      try reflexivity; lia.
  - intros Hshort. unfold SigDataset_init. cbn [rbind negb].
    set (m := Nat.min (length M) (length D)).
    assert (Hm : m < shape2 X) by (unfold m; lia).
    replace (shape2 X) with (m + S (shape2 X - m - 1)) at 1 by lia.
    rewrite seq_app, for_each_app.
    destruct (apply_loop args M D (fun i => nth i M F64.zero)
                (fun i => nth i D F64.zero) m HM HD) with
      (n := m) (a := 0) (Y := X) as (Y' & Hrun & _).
    { intros i Hi. split; apply lookup_nth_lt; unfold m in Hi; lia. }
    { lia. }
    rewrite Hrun. cbn [rbind Nat.add seq for_each].
    unfold apply_channel at 1, getattr, getitem. cbn [fst snd].
    rewrite HM. cbn [rbind].
    destruct (M !! m) as [mu |] eqn:Emu; [| reflexivity]. cbn [rbind].
    rewrite HD. cbn [rbind].
    destruct (D !! m) as [sd |] eqn:Esd; [| reflexivity].
    apply lookup_lt_Some in Emu, Esd. unfold m in Emu, Esd. lia.
Qed.

Lemma eval_dataset_channel_count_witness :
  (exists d,
     SigDataset_init (np := toy_numpy)
       (<["train_std"%string := [F64.one; F64.one; F64.one]]>
          (<["train_mean"%string := [F64.zero; F64.one; F64.two]]> ∅))
       toy_array2 [F64.one; F64.zero] false
     = Ok (<["train_std"%string := [F64.one; F64.one; F64.one]]>
             (<["train_mean"%string := [F64.zero; F64.one; F64.two]]> ∅), d) /\
     shape2 (ds_input d) = 2) /\
  SigDataset_init (np := toy_numpy)
    (<["train_std"%string := [F64.one]]> (<["train_mean"%string := [F64.zero]]> ∅))
    toy_array2 [F64.one; F64.zero] false = Raise IndexError.
Proof.
  split.
  - destruct (eval_dataset_channel_count (np := toy_numpy)
                (<["train_std"%string := [F64.one; F64.one; F64.one]]>
                   (<["train_mean"%string := [F64.zero; F64.one; F64.two]]> ∅))
                [F64.zero; F64.one; F64.two] [F64.one; F64.one; F64.one]
                toy_array2 [F64.one; F64.zero])
      as [Hok _]; [reflexivity | reflexivity |].
    destruct Hok as (d & Hrun & _ & _ & H2 & _); [cbn; lia | cbn; lia |].
    exists d. split; [exact Hrun | exact H2].
  - destruct (eval_dataset_channel_count (np := toy_numpy)
                (<["train_std"%string := [F64.one]]>
                   (<["train_mean"%string := [F64.zero]]> ∅))
                [F64.zero] [F64.one] toy_array2 [F64.one; F64.zero])
      as [_ Hfail]; [reflexivity | reflexivity |].
    apply Hfail. left. cbn. lia.
Defined.

Lemma replace_nan_all (a : list float) :
  Forall (fun x => F64.is_nan x = true) a ->
  Forall (fun x => x = F64.zero) (replace_nan a).
Proof.
  unfold replace_nan. induction 1 as [| x a Hx _ IH]; cbn [map]; constructor.
  - now rewrite Hx.
  - exact IH.
Qed.

Lemma count_valid_all (a : list float) :
  Forall (fun x => F64.is_nan x = true) a -> count_valid a = 0%Z.
Proof.
  unfold count_valid. induction 1 as [| x a Hx _ IH]; [reflexivity |].
  cbn [map np_sum fold_right]. rewrite Hx. exact IH.
Qed.

(** Whatever the order of the additions, a sum of zeros is a zero. *)
Lemma add_in_order_zeros (o : addition_order) (a : list float) :
  Forall (fun x => x = F64.zero) a ->
  exists s, add_in_order o a = S754_zero s.
Proof.
  intros Ha. induction o as [s | k | l [sl IHl] r [sr IHr]]; cbn [add_in_order].
  - eauto.
  - revert k. induction Ha as [| x a Hx _ IH]; intros k.
    + exists false. destruct k; reflexivity.
    + destruct k as [| k]; [exists false; exact Hx | apply IH].
  - rewrite IHl, IHr. destruct sl, sr; eexists; reflexivity.
Qed.

Lemma statistics_of_missing_channel {np : Numpy} (v : array2 float) :
  Forall (fun x => F64.is_nan x = true) (flat v) ->
  nanmean v = S754_nan /\ nanstd v = S754_nan.
Proof.
  intros Hnan. unfold nanstd, nanmean, np_add_reduce.
  rewrite (count_valid_all _ Hnan).
  destruct (add_in_order_zeros (sum_order [nrow v; ncol v]) _ (replace_nan_all _ Hnan))
    as [s Hs].
  rewrite Hs. split; destruct s; reflexivity.
Qed.

Lemma normalize_value_nan_mean (s x : float) :
  normalize_value S754_nan s x = S754_nan.
Proof.
  unfold normalize_value.
  assert (Hs : F64.sub x S754_nan = S754_nan) by (destruct x as [| | | sx mx ex]; reflexivity).
  rewrite Hs. destruct (F64.add s F64.eps); reflexivity.
Qed.

(** X11.  A channel with no value in the training split (every entry NaN,
    or a training array without windows) gets NaN as its stored mean and
    standard deviation, and the normalisation then turns every value of
    that channel into NaN in the training, development and test datasets
    alike, whatever the development and test data hold there. *)
Theorem channel_without_training_values_is_erased
  {np : Numpy} (args : namespace) (train_data dev_data test_data : ndarray3)
  (train_label dev_label test_label : list float) (c : nat) :
  shape2 dev_data = shape2 train_data ->
  shape2 test_data = shape2 train_data ->
  c < shape2 train_data ->
  Forall (fun x => F64.is_nan x = true) (flat (channel_view train_data c)) ->
  exists args1 tr dv te M D,
    build_datasets args train_data train_label dev_data dev_label
      test_data test_label = Ok (args1, tr, dv, te) /\
    args1 !! "train_mean"%string = Some M /\ M !! c = Some S754_nan /\
    args1 !! "train_std"%string = Some D /\ D !! c = Some S754_nan /\
    forall n t,
      item (ds_input tr) n t c = S754_nan /\
      item (ds_input dv) n t c = S754_nan /\
      item (ds_input te) n t c = S754_nan.
Proof.
  intros Hdev Htest Hc Hnan.
  destruct (SigDataset_init_training args train_data train_label)
    as (args1 & tr & Htr & HM & HD & _ & Hntr & _).
  destruct (SigDataset_init_eval args1 train_data dev_data dev_label HM HD Hdev)
    as (dv & Hdv & Hndv & _).
  destruct (SigDataset_init_eval args1 train_data test_data test_label HM HD Htest)
    as (te & Hte & Hnte & _).
  destruct (statistics_of_missing_channel (channel_view train_data c) Hnan)
    as [Hmean Hstd].
  fold (mean_of train_data c) in Hmean. fold (std_of train_data c) in Hstd.
  exists args1, tr, dv, te, (map (mean_of train_data) (seq 0 (shape2 train_data))),
         (map (std_of train_data) (seq 0 (shape2 train_data))).
  split.
  { unfold build_datasets. rewrite Htr. cbn [rbind fst snd].
    rewrite Hdv. cbn [rbind fst snd]. rewrite Hte. reflexivity. }
  split; [exact HM |].
  split.
  { rewrite lookup_map_seq, (proj2 (Nat.ltb_lt c _) Hc), <- Hmean. reflexivity. }
  split; [exact HD |].
  split.
  { rewrite lookup_map_seq, (proj2 (Nat.ltb_lt c _) Hc), <- Hstd. reflexivity. }
  intros n t.
  destruct Hntr as (_ & _ & _ & Htr_item).
  destruct Hndv as (_ & _ & _ & Hdv_item).
  destruct Hnte as (_ & _ & _ & Hte_item).
  rewrite Htr_item, Hdv_item, Hte_item by lia.
  rewrite Hmean. repeat split; apply normalize_value_nan_mean.
Qed.

Lemma channel_without_training_values_is_erased_witness :
  exists args1 tr dv te M D,
    build_datasets (np := toy_numpy) ∅ toy_window [F64.one] toy_pe [F64.zero]
      toy_pe [F64.one]
      = Ok (args1, tr, dv, te) /\
    args1 !! "train_mean"%string = Some M /\ M !! 1 = Some S754_nan /\
    args1 !! "train_std"%string = Some D /\ D !! 1 = Some S754_nan /\
    forall n t,
      item (ds_input tr) n t 1 = S754_nan /\
      item (ds_input dv) n t 1 = S754_nan /\
      item (ds_input te) n t 1 = S754_nan.
Proof.
  apply (channel_without_training_values_is_erased (np := toy_numpy) ∅ toy_window
           toy_pe toy_pe
           [F64.one] [F64.zero] [F64.one] 1).
  - reflexivity.
  - reflexivity.
  - cbn. lia.
  - repeat constructor.
Defined.

Lemma dataset_examples_loop (d : SigDataset) (n a : nat)
  (acc : list (array2 float * float)) :
  a + n <= shape0 (ds_input d) -> a + n <= length (ds_label d) ->
  for_each (seq a n)
    (fun idx acc => let* sample := SigDataset_getitem d idx in Ok (acc ++ [sample]))
    acc
  = Ok (acc ++ map (fun idx => (window (ds_input d) idx, nth idx (ds_label d) F64.zero))
                   (seq a n)).
Proof.
  revert a acc. induction n as [| n IH]; intros a acc H0 Hl.
  - cbn. now rewrite app_nil_r.
  - cbn [seq for_each map]. unfold SigDataset_getitem at 1.
    rewrite (proj2 (Nat.ltb_lt a _)) by lia.
    rewrite (lookup_nth_lt (ds_label d) a F64.zero) by lia. cbn [rbind].
    rewrite IH by lia. rewrite <- app_assoc. reflexivity.
Qed.

(** X12.  [__len__] counts the labels while [__getitem__] indexes windows
    and labels: a loader that does not shuffle fetches, in order, window
    [idx] of the normalised array with label [idx] as stored, for every
    [idx] below the number of labels; when there are fewer windows than
    labels the fetch of index [shape[0]] raises IndexError, and when there
    are more windows than labels the surplus windows are never served. *)
Theorem loader_fetches_dataset_in_order (d : SigDataset) :
  (SigDataset_len d <= shape0 (ds_input d) ->
     dataset_examples d
     = Ok (map (fun idx => (window (ds_input d) idx, nth idx (ds_label d) F64.zero))
               (seq 0 (length (ds_label d))))) /\
  (shape0 (ds_input d) < SigDataset_len d ->
     dataset_examples d = Raise IndexError).
Proof.
  unfold dataset_examples, SigDataset_len. split.
  - intros Hle. rewrite dataset_examples_loop by lia. reflexivity.
  - intros Hlt.
    replace (length (ds_label d))
      with (shape0 (ds_input d) + S (length (ds_label d) - shape0 (ds_input d) - 1))
      at 1 by lia.
    rewrite seq_app, for_each_app, dataset_examples_loop by lia.
    cbn [rbind Nat.add seq for_each]. unfold SigDataset_getitem at 1.
    rewrite Nat.ltb_irrefl. reflexivity.
Qed.

Lemma loader_fetches_dataset_in_order_witness :
  dataset_examples
    {| ds_input := toy_array2; ds_label := [F64.one; F64.zero]; ds_training := false |}
  = Ok [(window toy_array2 0, F64.one); (window toy_array2 1, F64.zero)] /\
  dataset_examples
    {| ds_input := toy_array2; ds_label := [F64.one; F64.zero; F64.one];
       ds_training := false |}
  = Raise IndexError.
Proof.
  split.
  - apply (loader_fetches_dataset_in_order
             {| ds_input := toy_array2; ds_label := [F64.one; F64.zero];
                ds_training := false |}).
    cbn. lia.
  - apply (loader_fetches_dataset_in_order
             {| ds_input := toy_array2; ds_label := [F64.one; F64.zero; F64.one];
                ds_training := false |}).
    cbn. lia.
Defined.

(** ** The inputs of the towers *)

(** Which channel of the encoded tensor each position of a tower reads. *)
Lemma tower_inputs_routing (pe x : ndarray3) :
  shape0 pe = 1 -> shape1 pe = shape1 x -> shape2 pe = shape2 x ->
  exists e x_network x_radio x_bs,
    encode_input pe x = Ok e /\
    tower_inputs pe x = Ok (x_network, x_radio, x_bs) /\
    (forall n t c, n < shape0 x -> t < shape1 x -> c < shape2 x ->
       item e n t c
       = let v := F64.add (item x n t c) (item pe 0 t c) in
         if F64.is_nan v then F64.zero else v) /\
    shape2 x_network = Nat.min 6 (shape2 x) /\
    shape2 x_radio = Nat.min 9 (shape2 x) - Nat.min 6 (shape2 x) /\
    shape2 x_bs = shape2 x - (shape2 x - 2) /\
    (forall n t c, item x_network n t c = item e n t c) /\
    (forall n t c, item x_radio n t c = item e n t (Nat.min 6 (shape2 x) + c)) /\
    (forall n t c, item x_bs n t c = item e n t (shape2 x - 2 + c)).
Proof.
  intros H0 H1 H2.
  destruct (encode_input_spec pe x H0 H1 H2) as (e & Henc & _ & _ & HD & Hitem).
  exists e. unfold tower_inputs. rewrite Henc. cbn [rbind].
  eexists _, _, _. split; [reflexivity |]. split; [reflexivity |].
  split; [exact Hitem |].
  unfold tail_last, slice_last.
  cbn [shape2 item length network_feature radio_feature bs_feature Nat.add].
  rewrite HD.
  replace (Nat.min (shape2 x - 2) (shape2 x)) with (shape2 x - 2) by lia.
  replace (Nat.min (shape2 x) (shape2 x)) with (shape2 x) by lia.
  replace (Nat.min 0 (shape2 x)) with 0 by lia.
  rewrite Nat.sub_0_r.
  repeat split; reflexivity.
Qed.

(** X13.  Whatever the width of the input, no tower ever receives a NaN:
    line 166 has replaced every one of them.  Infinities are not replaced:
    an infinite raw value whose positional encoding is finite reaches the
    network tower as the same infinity. *)
Theorem towers_receive_no_nan_but_infinities (pe x : ndarray3) :
  shape0 pe = 1 -> shape1 pe = shape1 x -> shape2 pe = shape2 x ->
  exists x_network x_radio x_bs,
    tower_inputs pe x = Ok (x_network, x_radio, x_bs) /\
    (forall n t c, n < shape0 x -> t < shape1 x ->
       (c < shape2 x_network -> F64.is_nan (item x_network n t c) = false) /\
       (c < shape2 x_radio -> F64.is_nan (item x_radio n t c) = false) /\
       (c < shape2 x_bs -> F64.is_nan (item x_bs n t c) = false)) /\
    (forall n t c (s : bool),
       n < shape0 x -> t < shape1 x -> c < shape2 x_network ->
       item x n t c = S754_infinity s ->
       F64.is_finite (item pe 0 t c) = true ->
       item x_network n t c = S754_infinity s).
Proof.
  intros H0 H1 H2.
  destruct (tower_inputs_routing pe x H0 H1 H2)
    as (e & xn & xr & xb & _ & Hrun & He & Hwn & Hwr & Hwb & Hn & Hr & Hb).
  exists xn, xr, xb. split; [exact Hrun |].
  assert (Hnn : forall n t c, n < shape0 x -> t < shape1 x -> c < shape2 x ->
                 F64.is_nan (item e n t c) = false).
  { intros n t c Hn' Ht Hc. rewrite He by assumption. cbn zeta.
    destruct (F64.is_nan (F64.add (item x n t c) (item pe 0 t c))) eqn:E;
      [reflexivity | exact E]. }
  split.
  - intros n t c Hn' Ht. split; [| split]; intros Hc.
    + rewrite Hn. apply Hnn; lia.
    + rewrite Hr. apply Hnn; lia.
    + rewrite Hb. apply Hnn; lia.
  - intros n t c s Hn' Ht Hc Hinf Hfin.
    rewrite Hn, He by (try assumption; lia). cbn zeta. rewrite Hinf.
    destruct (item pe 0 t c) as [sp | sp | | sp mp ep]; try discriminate Hfin;
      reflexivity.
Qed.

Lemma towers_receive_no_nan_but_infinities_witness :
  exists x_network x_radio x_bs,
    tower_inputs toy_pe
      {| shape0 := 1; shape1 := 1; shape2 := 11;
         item := fun _ _ c => if c =? 1 then S754_nan else S754_infinity false |}
    = Ok (x_network, x_radio, x_bs) /\
    F64.is_nan (item x_network 0 0 1) = false /\
    item x_network 0 0 0 = S754_infinity false.
Proof.
  destruct (towers_receive_no_nan_but_infinities toy_pe
              {| shape0 := 1; shape1 := 1; shape2 := 11;
                 item := fun _ _ c => if c =? 1 then S754_nan else S754_infinity false |}
              eq_refl eq_refl eq_refl)
    as (xn & xr & xb & Hrun & Hnan & Hinf).
  exists xn, xr, xb. split; [exact Hrun |]. split.
  - apply (Hnan 0 0 1); [cbn; lia | cbn; lia |].
    injection Hrun as <- _ _. cbn. lia.
  - apply (Hinf 0 0 0 false); [cbn; lia | cbn; lia | | reflexivity | reflexivity].
    injection Hrun as <- _ _. cbn. lia.
Defined.

(** X14.  The three slices of lines 167-169 read channels 0-5, 6-8 and the
    last two: two inputs that agree on the first nine and on the last two
    channels give the towers the same values, so with more than eleven
    channels the channels from 9 to [D-3] have no influence on the model. *)
Theorem towers_ignore_middle_channels (pe x x' : ndarray3) :
  shape0 pe = 1 -> shape1 pe = shape1 x -> shape2 pe = shape2 x ->
  shape0 x' = shape0 x -> shape1 x' = shape1 x -> shape2 x' = shape2 x ->
  (forall n t c, c < 9 \/ shape2 x - 2 <= c -> item x' n t c = item x n t c) ->
  exists x_network x_radio x_bs x_network' x_radio' x_bs',
    tower_inputs pe x = Ok (x_network, x_radio, x_bs) /\
    tower_inputs pe x' = Ok (x_network', x_radio', x_bs') /\
    shape2 x_network' = shape2 x_network /\
    shape2 x_radio' = shape2 x_radio /\
    shape2 x_bs' = shape2 x_bs /\
    forall n t c, n < shape0 x -> t < shape1 x ->
      (c < shape2 x_network -> item x_network' n t c = item x_network n t c) /\
      (c < shape2 x_radio -> item x_radio' n t c = item x_radio n t c) /\
      (c < shape2 x_bs -> item x_bs' n t c = item x_bs n t c).
Proof.
  intros H0 H1 H2 H0' H1' H2' Hagree.
  destruct (tower_inputs_routing pe x H0 H1 H2)
    as (e & xn & xr & xb & _ & Hrun & He & Hwn & Hwr & Hwb & Hn & Hr & Hb).
  destruct (tower_inputs_routing pe x' H0 ltac:(congruence) ltac:(congruence))
    as (e' & xn' & xr' & xb' & _ & Hrun' & He' & Hwn' & Hwr' & Hwb' & Hn' & Hr' & Hb').
  rewrite H0', H1', H2' in *.
  exists xn, xr, xb, xn', xr', xb'.
  split; [exact Hrun |]. split; [exact Hrun' |].
  split; [congruence |]. split; [congruence |]. split; [congruence |].
  assert (Hsame : forall n t c, n < shape0 x -> t < shape1 x -> c < shape2 x ->
                   c < 9 \/ shape2 x - 2 <= c -> item e' n t c = item e n t c).
  { intros n t c Hn0 Ht Hc Hread.
    rewrite He, He' by assumption. cbn zeta. rewrite Hagree by exact Hread.
    reflexivity. }
  intros n t c Hn0 Ht. split; [| split]; intros Hc.
  - rewrite Hn, Hn'. apply Hsame; lia.
  - rewrite Hr, Hr'. apply Hsame; lia.
  - rewrite Hb, Hb'. apply Hsame; lia.
Qed.

Lemma towers_ignore_middle_channels_witness :
  exists x_network x_radio x_bs x_network' x_radio' x_bs',
    tower_inputs
      {| shape0 := 1; shape1 := 1; shape2 := 12; item := fun _ _ _ => F64.zero |}
      {| shape0 := 1; shape1 := 1; shape2 := 12; item := fun _ _ _ => F64.half |}
    = Ok (x_network, x_radio, x_bs) /\
    tower_inputs
      {| shape0 := 1; shape1 := 1; shape2 := 12; item := fun _ _ _ => F64.zero |}
      {| shape0 := 1; shape1 := 1; shape2 := 12;
         item := fun _ _ c => if c =? 9 then F64.two else F64.half |}
    = Ok (x_network', x_radio', x_bs') /\
    item x_radio' 0 0 2 = item x_radio 0 0 2 /\
    item x_bs' 0 0 0 = item x_bs 0 0 0.
Proof.
  destruct (towers_ignore_middle_channels
              {| shape0 := 1; shape1 := 1; shape2 := 12; item := fun _ _ _ => F64.zero |}
              {| shape0 := 1; shape1 := 1; shape2 := 12; item := fun _ _ _ => F64.half |}
              {| shape0 := 1; shape1 := 1; shape2 := 12;
                 item := fun _ _ c => if c =? 9 then F64.two else F64.half |}
              eq_refl eq_refl eq_refl eq_refl eq_refl eq_refl)
    as (xn & xr & xb & xn' & xr' & xb' & Hrun & Hrun' & _ & _ & _ & Hsame).
  { intros n t c Hc. cbn [item shape2] in *.
    destruct (Nat.eqb_spec c 9) as [-> | _]; [lia | reflexivity]. }
  exists xn, xr, xb, xn', xr', xb'.
  split; [exact Hrun |]. split; [exact Hrun' |].
  destruct (Hsame 0 0 2) as (_ & Hr2 & _); [cbn; lia | cbn; lia |].
  destruct (Hsame 0 0 0) as (_ & _ & Hb0); [cbn; lia | cbn; lia |].
  injection Hrun as <- <- <-.
  split; [apply Hr2; cbn; lia | apply Hb0; cbn; lia].
Defined.

(** X15.  A window whose length or width differs from that of the
    positional-encoding table, neither being 1, cannot be added to it:
    line 165 raises RuntimeError before any tower runs. *)
Theorem forward_rejects_mismatched_window (pe x : ndarray3) :
  (shape1 x <> shape1 pe /\ shape1 x <> 1 /\ shape1 pe <> 1) \/
  (shape2 x <> shape2 pe /\ shape2 x <> 1 /\ shape2 pe <> 1) ->
  tower_inputs pe x = Raise RuntimeError.
Proof.
  intros Hbad. unfold tower_inputs, encode_input, tensor_binop.
  cbn [shape0 shape1 shape2 tensor_repeat0].
  destruct (broadcast_dim (shape0 x) (shape0 x * shape0 pe)); [| reflexivity].
  assert (Hnone : forall a b, a <> b -> a <> 1 -> b <> 1 -> broadcast_dim a b = None).
  { intros a b Hab Ha Hb. unfold broadcast_dim.
    destruct (Nat.eqb_spec a b); [contradiction |].
    destruct (Nat.eqb_spec a 1); [contradiction |].
    destruct (Nat.eqb_spec b 1); [contradiction | reflexivity]. }
  destruct Hbad as [(Hne & Hx & Hp) | (Hne & Hx & Hp)].
  - rewrite (Hnone _ _ Hne Hx Hp). reflexivity.
  - rewrite (Hnone _ _ Hne Hx Hp).
    destruct (broadcast_dim (shape1 x) (shape1 pe)); reflexivity.
Qed.

Lemma forward_rejects_mismatched_window_witness :
  tower_inputs
    {| shape0 := 1; shape1 := 30; shape2 := 11; item := fun _ _ _ => F64.zero |}
    {| shape0 := 4; shape1 := 20; shape2 := 11; item := fun _ _ _ => F64.half |}
  = Raise RuntimeError.
Proof.
  apply (forward_rejects_mismatched_window
           {| shape0 := 1; shape1 := 30; shape2 := 11; item := fun _ _ _ => F64.zero |}
           {| shape0 := 4; shape1 := 20; shape2 := 11; item := fun _ _ _ => F64.half |}).
  left. cbn. lia.
Defined.

(** ** The positional-encoding table *)

Lemma parity_cases (c : nat) :
  (exists k, c = 2 * k /\ Nat.even c = true) \/
  (exists k, c = 2 * k + 1 /\ Nat.even c = false).
Proof.
  destruct (Nat.even c) eqn:E.
  - left. apply Nat.even_spec in E. destruct E as [k ->]. eauto.
  - right. assert (Ho : Nat.odd c = true) by (rewrite <- Nat.negb_even, E; reflexivity).
    apply Nat.odd_spec in Ho. destruct Ho as [k ->]. eauto.
Qed.

(** X16.  The table built by [create_positional_encoding(T, D)] has the
    shape line 165 needs: for every window batch of shape (b, T, D), and
    whatever the float library computes for sin, cos, exp and log, the
    construction followed by lines 164-169 raises nothing, and the towers
    receive 6, 3 and 2 channels when [D] is at least 9. *)
Theorem positional_table_fits_forward
  (libm : Arith float) (seq_len d_model : nat) (x : ndarray3) :
  0 < d_model -> shape1 x = seq_len -> shape2 x = d_model ->
  exists pe x_network x_radio x_bs,
    create_positional_encoding seq_len d_model = Ok pe /\
    tower_inputs pe x = Ok (x_network, x_radio, x_bs) /\
    (9 <= d_model ->
       shape2 x_network = 6 /\ shape2 x_radio = 3 /\ shape2 x_bs = 2).
Proof.
  intros Hd H1 H2.
  destruct (positional_encoding_structure (num := float) seq_len d_model Hd)
    as (pe & freq & _ & _ & _ & Hrun & Hp0 & Hp1 & Hp2 & _).
  destruct (tower_inputs_routing pe x Hp0 ltac:(congruence) ltac:(congruence))
    as (e & xn & xr & xb & _ & Htow & _ & Hwn & Hwr & Hwb & _).
  exists pe, xn, xr, xb. split; [exact Hrun |]. split; [exact Htow |].
  intros H9. rewrite Hwn, Hwr, Hwb, H2. lia.
Qed.

Lemma positional_table_fits_forward_witness :
  exists pe x_network x_radio x_bs,
    create_positional_encoding (arith := toy_libm) 1 11 = Ok pe /\
    tower_inputs pe toy_window = Ok (x_network, x_radio, x_bs) /\
    (9 <= 11 ->
       shape2 x_network = 6 /\ shape2 x_radio = 3 /\ shape2 x_bs = 2).
Proof.
  apply (positional_table_fits_forward toy_libm 1 11 toy_window);
    [lia | reflexivity | reflexivity].
Defined.

(** X17.  Read over the reals, every entry of the positional-encoding
    table lies in [-1, 1]; the row of position 0 is 0 in the even columns
    and 1 in the odd ones; and the columns [2i] and [2i+1] of a row are the
    sine and cosine of one angle, so their squares add up to 1. *)
Theorem positional_encoding_bounded (seq_len d_model : nat) :
  0 < d_model ->
  exists pe : array3 R,
    create_positional_encoding seq_len d_model = Ok pe /\
    (forall pos c, pos < seq_len -> c < d_model ->
       (-1 <= item pe 0 pos c <= 1)%R) /\
    (forall c, 0 < seq_len -> c < d_model ->
       item pe 0 0 c = if Nat.even c then 0%R else 1%R) /\
    (forall pos i, pos < seq_len -> 2 * i + 1 < d_model ->
       (Rsqr (item pe 0 pos (2 * i)) + Rsqr (item pe 0 pos (2 * i + 1)) = 1)%R).
Proof.
  intros Hd.
  destruct (positional_encoding_structure (num := R) seq_len d_model Hd)
    as (pe & freq & _ & _ & _ & Hrun & _ & _ & _ & Hsin & Hcos).
  exists pe. split; [exact Hrun |]. split; [| split].
  - intros pos c Hpos Hc.
    destruct (parity_cases c) as [(k & -> & _) | (k & -> & _)].
    + rewrite Hsin by (try assumption; lia). cbn. apply SIN_bound.
    + rewrite Hcos by (try assumption; lia). cbn. apply COS_bound.
  - intros c Hpos Hc.
    destruct (parity_cases c) as [(k & Hk & Ev) | (k & Hk & Ev)]; rewrite Ev; subst c.
    + rewrite Hsin by (try assumption; lia). cbn. rewrite Rmult_0_l. apply sin_0.
    + rewrite Hcos by (try assumption; lia). cbn. rewrite Rmult_0_l. apply cos_0.
  - intros pos i Hpos Hi.
    rewrite Hsin, Hcos by (try assumption; lia). cbn. apply sin2_cos2.
Qed.

Lemma positional_encoding_bounded_witness :
  0 < 11 /\
  exists pe : array3 R,
    create_positional_encoding 30 11 = Ok pe /\
    (-1 <= item pe 0 7 4 <= 1)%R /\ item pe 0 0 3 = 1%R.
Proof.
  split; [lia |].
  destruct (positional_encoding_bounded 30 11 ltac:(lia))
    as (pe & Hrun & Hb & Hrow & _).
  exists pe. split; [exact Hrun |]. split.
  - apply Hb; lia.
  - apply (Hrow 3); lia.
Defined.

(** X18.  A feature width of 0 makes line 188 divide by zero: the table
    construction raises ZeroDivisionError, for every sequence length and
    whatever the arithmetic. *)
Theorem positional_encoding_zero_width_raises
  {num : Type} (arith : Arith num) (seq_len : nat) :
  create_positional_encoding (num := num) seq_len 0 = Raise ZeroDivisionError.
Proof. reflexivity. Qed.

(** ** What an epoch does to the parameters *)

Section EpochParameters.
Context {Input Params : Type}.
Context (forward : Params -> Input -> float).
Context (bce_loss : list float -> list float -> float).
Context (optim_step : Params -> list Input -> list float -> Params).

Lemma train_loop_params (bs : list (list (Input * float))) :
  forall st : loop_state Params,
  exists tr,
    for_each (map collate bs) (train_batch true forward bce_loss optim_step) st = Ok tr /\
    ls_params tr
    = fold_left (fun p b => optim_step p (map fst b) (map snd b)) bs (ls_params st).
Proof.
  induction bs as [| b bs IH]; intros st.
  - exists st. split; reflexivity.
  - assert (H1 : exists st1,
               train_batch true forward bce_loss optim_step (collate b) st = Ok st1 /\
               ls_params st1 = optim_step (ls_params st) (map fst b) (map snd b)).
    { unfold train_batch, collate, as_input, as_label, bce. cbn [rbind].
      rewrite !length_map, Nat.eqb_refl. cbn [rbind].
      rewrite np_c_binarize by now rewrite !length_map.
      cbn [rbind]. eexists. split; reflexivity. }
    destruct H1 as (st1 & H1 & Hp1).
    destruct (IH st1) as (tr & Hrun & Hp).
    exists tr. cbn [map for_each fold_left]. rewrite H1. cbn [rbind].
    split; [exact Hrun |]. rewrite Hp, Hp1. reflexivity.
Qed.
End EpochParameters.

(** X19.  On a machine where [args.use_cuda] holds, in an epoch the
    optimiser steps once per training batch, in loader order, and the
    scheduler once; the development metrics of the
    epoch are those of the resulting parameters on the whole development
    split, so a checkpoint written by the epoch holds exactly the
    parameters its recorded F1 and accuracy were measured with. *)
Theorem epoch_scores_the_parameters_it_saves
  {np : Numpy} {Input Params : Type} (use_cuda : bool)
  (forward : Params -> Input -> float)
  (bce_loss : list float -> list float -> float)
  (optim_step : Params -> list Input -> list float -> Params)
  (scheduler_step : Params -> Params)
  (shuffle : nat -> list (Input * float) -> list (Input * float))
  (batch_size : nat) (train_set dev_set : list (Input * float))
  (step : nat) (st : run_state Params) :
  use_cuda = true ->
  0 < batch_size ->
  shuffle step train_set <> [] ->
  exists s',
    epoch use_cuda forward bce_loss optim_step scheduler_step shuffle batch_size
      train_set dev_set step st = Ok s' /\
    params s'
    = scheduler_step
        (fold_left (fun p b => optim_step p (map fst b) (map snd b))
           (batches_of (length (shuffle step train_set)) batch_size
              (shuffle step train_set))
           (params st)) /\
    dev_f1 s' = f1_of (confusion_eval (map row_of (scored forward (params s') dev_set))) /\
    dev_acc s' = acc_of (confusion_eval (map row_of (scored forward (params s') dev_set))) /\
    (F64.leb (max_f1 st) (dev_f1 s') = true ->
       checkpoint s' = Some (params s') /\
       max_f1 s' = dev_f1 s' /\ max_f1_acc s' = dev_acc s').
Proof.
  intros -> Hb Hne.
  destruct (epoch_detail forward bce_loss optim_step scheduler_step shuffle
              batch_size train_set dev_set step st Hb Hne) as (s1 & H1 & Hf1 & Hacc).
  destruct (epoch_outcome forward bce_loss optim_step scheduler_step shuffle
              batch_size train_set dev_set step st Hne) as (s2 & H2 & _ & Htrue & _).
  rewrite H1 in H2. injection H2 as <-.
  exists s1. split; [exact H1 |].
  split.
  - revert H1. unfold epoch.
    set (st0 := Build_loop_state (params st) (out_var st) [] []).
    destruct (train_loop_params forward bce_loss optim_step
                (batches_of (length (shuffle step train_set)) batch_size
                   (shuffle step train_set)) st0) as (tr & Hrun & Hp).
    fold (loader_batches batch_size (shuffle step train_set)) in Hrun.
    rewrite Hrun. cbn [rbind].
    destruct (ls_out tr) as [o |]; cbn [rbind]; [| discriminate].
    set (st1 := Build_loop_state (scheduler_step (ls_params tr)) (Some o) [] []).
    destruct (dev_loop_collated forward bce_loss
                (batches_of (length dev_set) batch_size dev_set) st1)
      as (dv & Hdev & _).
    fold (loader_batches batch_size dev_set) in Hdev.
    rewrite Hdev. cbn [rbind].
    destruct (F64.leb (max_f1 st) (f1_of (confusion_eval (ls_results dv))));
      intros H; injection H as <-; cbn [params]; rewrite Hp; reflexivity.
  - split; [exact Hf1 |]. split; [exact Hacc |].
    intros Hle. destruct (Htrue Hle) as (Hm & Ha & _ & Hc). auto.
Qed.

Lemma epoch_scores_the_parameters_it_saves_witness :
  true = true /\ 0 < 2 /\ toy_shuffle 0 toy_train <> [] /\
  exists s',
    epoch (np := toy_numpy) true toy_forward toy_loss toy_step toy_scheduler toy_shuffle 2
      toy_train toy_dev 0 (initial_state toy_w0 None) = Ok s' /\
    params s' = toy_scheduler (toy_step (toy_step toy_w0 [] []) [] []) /\
    dev_f1 s' = f1_of (confusion_eval (map row_of (scored toy_forward (params s') toy_dev))).
Proof.
  split; [reflexivity |]. split; [lia |]. split; [discriminate |].
  destruct (epoch_scores_the_parameters_it_saves (np := toy_numpy) true toy_forward
              toy_loss toy_step toy_scheduler toy_shuffle 2 toy_train toy_dev 0
              (initial_state toy_w0 None) eq_refl ltac:(lia) ltac:(discriminate))
    as (s' & Hrun & Hp & Hf1 & _).
  exists s'. split; [exact Hrun |]. split; [| exact Hf1].
  rewrite Hp. reflexivity.
Defined.

(** ** Loading *)

(** X20.  [load_data] hands back Python lists ([.tolist()]), and line 106
    asks the label list for its [shape]: whatever the two files hold and
    whatever permutation would be drawn, the split raises AttributeError,
    so no dataset is ever built from loaded data.  On an array with the
    same rows the same indexing succeeds. *)
Theorem loaded_lists_have_no_shape {A B : Type}
  (train_frame test_frame : frame A B) (perm : nat -> list nat) :
  load_and_split train_frame test_frame perm = Raise AttributeError /\
  shape0_of (snd (fst (load_data test_frame))) = Raise AttributeError /\
  shape0_of (NdArray (labels test_frame)) = Ok (length (labels test_frame)) /\
  index_with (NdArray (labels test_frame)) (seq 0 (length (labels test_frame)))
  = Ok (NdArray (labels test_frame)).
Proof.
  split; [reflexivity |]. split; [reflexivity |]. split; [reflexivity |].
  unfold index_with.
  rewrite fancy_index_omap.
  - cbn [rbind]. rewrite omap_lookup_seq. reflexivity.
  - apply Forall_forall. intros i Hi. apply elem_of_seq in Hi. lia.
Qed.

(** ** The two ways of counting *)

(** X21.  The training path compares the stored columns with 1 and 0 as
    they are, the development and test paths binarise them once more; on
    rows as the loops store them the two give the same four counts, so
    the second binarisation of lines 269-270 changes nothing. *)
Theorem stored_rows_count_alike (oys : list (float * float)) :
  confusion_train (map row_of oys) = confusion_eval (map row_of oys).
Proof.
  unfold confusion_train, confusion_eval.
  f_equal; induction oys as [| oy oys IH]; try reflexivity;
    cbn [map]; rewrite !np_sum_mask_cons, IH;
    destruct (row_of_binary oy) as [[Hf | Hf] [Hs | Hs]]; rewrite Hf, Hs;
    reflexivity.
Qed.

